(** * DocuFlow: the document / version / approval model and its access rules

    A shallow embedding of [src/lib/documents.ts] (the client operations)
    and of the two SQL migrations under [supabase/migrations] (tables,
    constraints and row-level-security policies).

    The client code is a sequence of awaited requests to the hosted
    backend.  It is embedded as a small program type [Prog] whose nodes
    are the awaited requests; the backend is embedded as a handler
    [handle] of those requests over an explicit [World] (tables, storage
    bucket, clock, generators of identifiers, and a plan of transport
    failures).  [run] executes a program to completion; [interleave]
    executes two programs with their awaits interleaved.

    The components that call [documents.ts] (the upload dialog, the
    version history, the comment form) and the profile dialog with its
    [users] table are embedded after it, as functions of the state of the
    component and of the world. *)

From Stdlib Require Import String Ascii List ZArith Bool Lia Sorted Permutation.
Import ListNotations.
Local Open Scope string_scope.
Local Open Scope list_scope.
Local Open Scope Z_scope.

Local Notation "a ^^ b" := (String.append a b) (at level 35, right associativity).

(** ** Values *)

Definition uuid := string.
Definition timestamp := Z.

(** [permission text CHECK (permission IN ('view','comment','edit'))] *)
Inductive Permission := view | comment | edit.

(** [status text CHECK (status IN ('pending','approved','rejected'))] *)
Inductive Status := pending | approved | rejected.

(** The [jsonb] payload of an activity entry: the object literals the
    client passes to [logActivity]. *)
Inductive Json := JString (s : string) | JNumber (z : Z).
Definition Details := list (string * Json).

(** The browser [File] object: [size] is the length of its bytes. *)
Module File.
Record t := mk { name : string; type : string; bytes : string }.
Definition size (f : t) : Z := Z.of_nat (String.length (bytes f)).
End File.

(** ** Rows, one module per table ([Database['public']['Tables'][..]['Row']]) *)

Module Document.
Record Row := mk {
  id : uuid;
  title : string;
  description : option string;
  created_by : uuid;
  created_at : timestamp;
  updated_at : timestamp;
  is_public : bool }.
End Document.

Module DocumentVersion.
Record Row := mk {
  id : uuid;
  document_id : uuid;
  version_number : Z;
  file_path : string;
  file_name : string;
  file_size : Z;
  mime_type : string;
  uploaded_by : uuid;
  created_at : timestamp;
  notes : option string }.
End DocumentVersion.

Module Comment.
Record Row := mk {
  id : uuid;
  document_id : uuid;
  version_id : option uuid;
  content : string;
  created_by : uuid;
  created_at : timestamp;
  updated_at : timestamp;
  parent_id : option uuid }.
End Comment.

Module Approval.
Record Row := mk {
  id : uuid;
  document_id : uuid;
  version_id : option uuid;
  requested_by : uuid;
  assigned_to : uuid;
  status : Status;
  notes : option string;
  created_at : timestamp;
  updated_at : timestamp }.
End Approval.

Module ActivityLog.
Record Row := mk {
  id : uuid;
  document_id : uuid;
  user_id : uuid;
  action : string;
  details : option Details;
  created_at : timestamp }.
End ActivityLog.

Module DocumentShare.
Record Row := mk {
  id : uuid;
  document_id : uuid;
  shared_with : uuid;
  permission : Permission;
  shared_by : uuid;
  created_at : timestamp }.
End DocumentShare.

(** A row of [storage.objects]. *)
Module StorageObject.
Record Row := mk {
  bucket_id : string;
  name : string;
  owner : uuid;
  body : string }.
End StorageObject.

(** ** The world outside the client code *)

Record World := mkWorld {
  auth_users : list uuid;                       (* auth.users(id) *)
  documents : list Document.Row;
  document_versions : list DocumentVersion.Row;
  comments : list Comment.Row;
  approvals : list Approval.Row;
  activity_logs : list ActivityLog.Row;
  document_shares : list DocumentShare.Row;
  objects : list StorageObject.Row;             (* storage.objects *)
  now : timestamp;                              (* now() / new Date() *)
  rand_db : list uuid;                          (* gen_random_uuid() *)
  rand_client : list uuid;                      (* uuidv4() *)
  faults : list bool                            (* transport failures *)
}.

Definition set_documents (x : list Document.Row) (w : World) : World :=
  mkWorld (auth_users w) x (document_versions w) (comments w) (approvals w)
    (activity_logs w) (document_shares w) (objects w) (now w) (rand_db w)
    (rand_client w) (faults w).

Definition set_document_versions (x : list DocumentVersion.Row) (w : World) : World :=
  mkWorld (auth_users w) (documents w) x (comments w) (approvals w)
    (activity_logs w) (document_shares w) (objects w) (now w) (rand_db w)
    (rand_client w) (faults w).

Definition set_comments (x : list Comment.Row) (w : World) : World :=
  mkWorld (auth_users w) (documents w) (document_versions w) x (approvals w)
    (activity_logs w) (document_shares w) (objects w) (now w) (rand_db w)
    (rand_client w) (faults w).

Definition set_approvals (x : list Approval.Row) (w : World) : World :=
  mkWorld (auth_users w) (documents w) (document_versions w) (comments w) x
    (activity_logs w) (document_shares w) (objects w) (now w) (rand_db w)
    (rand_client w) (faults w).

Definition set_activity_logs (x : list ActivityLog.Row) (w : World) : World :=
  mkWorld (auth_users w) (documents w) (document_versions w) (comments w)
    (approvals w) x (document_shares w) (objects w) (now w) (rand_db w)
    (rand_client w) (faults w).

Definition set_document_shares (x : list DocumentShare.Row) (w : World) : World :=
  mkWorld (auth_users w) (documents w) (document_versions w) (comments w)
    (approvals w) (activity_logs w) x (objects w) (now w) (rand_db w)
    (rand_client w) (faults w).

Definition set_objects (x : list StorageObject.Row) (w : World) : World :=
  mkWorld (auth_users w) (documents w) (document_versions w) (comments w)
    (approvals w) (activity_logs w) (document_shares w) x (now w) (rand_db w)
    (rand_client w) (faults w).

Definition set_faults (x : list bool) (w : World) : World :=
  mkWorld (auth_users w) (documents w) (document_versions w) (comments w)
    (approvals w) (activity_logs w) (document_shares w) (objects w) (now w)
    (rand_db w) (rand_client w) x.

(** Every remote request advances the clock and consumes one entry of the
    fault plan; an exhausted plan means the transport works. *)
Definition transport (w : World) : bool * World :=
  let w1 := mkWorld (auth_users w) (documents w) (document_versions w)
              (comments w) (approvals w) (activity_logs w) (document_shares w)
              (objects w) (now w + 1) (rand_db w) (rand_client w) (tl (faults w)) in
  (hd false (faults w), w1).

(** [DEFAULT gen_random_uuid()] *)
Definition gen_random_uuid (w : World) : uuid * World :=
  (hd "" (rand_db w),
   mkWorld (auth_users w) (documents w) (document_versions w) (comments w)
     (approvals w) (activity_logs w) (document_shares w) (objects w) (now w)
     (tl (rand_db w)) (rand_client w) (faults w)).

(** [uuidv4()] of the [uuid] package, on the client. *)
Definition uuidv4 (w : World) : uuid * World :=
  (hd "" (rand_client w),
   mkWorld (auth_users w) (documents w) (document_versions w) (comments w)
     (approvals w) (activity_logs w) (document_shares w) (objects w) (now w)
     (rand_db w) (tl (rand_client w)) (faults w)).

(** ** Errors and responses *)

(** What the backend answers when a request does not succeed.  In the
    vocabulary of the specification: [RowLevelSecurity] is Forbidden,
    [UniqueViolation] is Conflict, [NoRows] is NotFound. *)
Inductive BackendError :=
| NetworkFailure          (* the request did not complete *)
| RowLevelSecurity        (* 42501: row violates row-level security policy *)
| UniqueViolation         (* 23505: duplicate key violates unique constraint *)
| ForeignKeyViolation     (* 23503 *)
| NoRows                  (* PGRST116: .single() did not get exactly one row *)
| ObjectAlreadyExists     (* storage: the resource already exists *)
| ObjectNotFound.         (* storage: object not found *)

(** The [{ data, error }] pair of the client SDK. *)
Record Response (A : Type) := mkResponse {
  data : option A;
  error : option BackendError }.
Arguments mkResponse {A}.
Arguments data {A}.
Arguments error {A}.

Definition ok {A} (a : A) : Response A := mkResponse (Some a) None.
Definition failed {A} (e : BackendError) : Response A := mkResponse None (Some e).

(** ** Small list and string helpers *)

Definition mem (x : uuid) (l : list uuid) : bool := existsb (String.eqb x) l.

Definition opt_mem (x : option uuid) (l : list uuid) : bool :=
  match x with
  | None => true
  | Some y => mem y l
  end.

Fixpoint insert_sorted {A} (le : A -> A -> bool) (x : A) (l : list A) : list A :=
  match l with
  | [] => [x]
  | y :: t => if le x y then x :: y :: t else y :: insert_sorted le x t
  end.

Definition sort_by {A} (le : A -> A -> bool) (l : list A) : list A :=
  fold_right (insert_sorted le) [] l.

(** [.order(column, { ascending })] *)
Definition order_by {A} (key : A -> Z) (ascending : bool) (l : list A) : list A :=
  sort_by (fun a b => if ascending then key a <=? key b else key b <=? key a) l.

(** [.limit(n)] *)
Definition limit {A} (n : nat) (l : list A) : list A := firstn n l.

(** [String.prototype.split] with a one-character separator. *)
Fixpoint split (sep : ascii) (s : string) : list string :=
  match s with
  | EmptyString => [EmptyString]
  | String c r =>
      if Ascii.eqb c sep then EmptyString :: split sep r
      else match split sep r with
           | seg :: segs => String c seg :: segs
           | [] => [String c EmptyString]
           end
  end.

(** [Array.prototype.pop]: the last element, [undefined] on the empty array. *)
Definition pop (l : list string) : option string :=
  match l with
  | [] => None
  | x :: t => Some (last t x)
  end.

(** A value inside a template literal. *)
Definition template (x : option string) : string :=
  match x with
  | Some s => s
  | None => "undefined"
  end.

(** [String.prototype.substring(0, n)]: strings are sequences of code units. *)
Fixpoint substring0 (n : nat) (s : string) : string :=
  match n, s with
  | O, _ => EmptyString
  | S _, EmptyString => EmptyString
  | S m, String c r => String c (substring0 m r)
  end.

(** ** Row-level security

    The policies in force once both migrations have run.  The second
    migration drops the share-based policies of the first one and puts
    owner-only and public-only policies in their place.  All policies are
    granted [TO authenticated]; permissive policies of one command are
    OR-ed.  [uid] is [auth.uid()].  Sub-queries on [documents] are
    themselves filtered by the caller's SELECT policies on [documents]. *)

Module Policy.

(** "Users can read own documents" OR "Users can read public documents" *)
Definition documents_select (uid : uuid) (d : Document.Row) : bool :=
  (Document.created_by d =? uid)%string || Document.is_public d.

(** "Users can create documents" *)
Definition documents_insert (uid : uuid) (d : Document.Row) : bool :=
  (Document.created_by d =? uid)%string.

Definition visible_documents (uid : uuid) (w : World) : list Document.Row :=
  filter (documents_select uid) (documents w).

(** [SELECT id FROM documents WHERE created_by = auth.uid()] *)
Definition own_document_ids (uid : uuid) (w : World) : list uuid :=
  map Document.id
    (filter (fun d => (Document.created_by d =? uid)%string) (visible_documents uid w)).

(** [SELECT id FROM documents WHERE is_public = true] *)
Definition public_document_ids (uid : uuid) (w : World) : list uuid :=
  map Document.id (filter Document.is_public (visible_documents uid w)).

(** "Users can read versions of own documents" OR
    "Users can read versions of public documents" *)
Definition document_versions_select (uid : uuid) (w : World) (v : DocumentVersion.Row) : bool :=
  mem (DocumentVersion.document_id v) (own_document_ids uid w)
  || mem (DocumentVersion.document_id v) (public_document_ids uid w).

(** "Users can create versions for own documents" *)
Definition document_versions_insert (uid : uuid) (w : World) (v : DocumentVersion.Row) : bool :=
  mem (DocumentVersion.document_id v) (own_document_ids uid w)
  && (DocumentVersion.uploaded_by v =? uid)%string.

(** "Users can read comments on own documents" OR
    "Users can read comments on public documents" *)
Definition comments_select (uid : uuid) (w : World) (c : Comment.Row) : bool :=
  mem (Comment.document_id c) (own_document_ids uid w)
  || mem (Comment.document_id c) (public_document_ids uid w).

(** "Users can create comments on own documents" *)
Definition comments_insert (uid : uuid) (w : World) (c : Comment.Row) : bool :=
  mem (Comment.document_id c) (own_document_ids uid w)
  && (Comment.created_by c =? uid)%string.

(** "Users can read approvals for own documents" *)
Definition approvals_select (uid : uuid) (w : World) (a : Approval.Row) : bool :=
  mem (Approval.document_id a) (own_document_ids uid w)
  || (Approval.assigned_to a =? uid)%string.

(** "Users can create approval requests for own documents" *)
Definition approvals_insert (uid : uuid) (w : World) (a : Approval.Row) : bool :=
  mem (Approval.document_id a) (own_document_ids uid w)
  && (Approval.requested_by a =? uid)%string.

(** "Assigned users can update approval status": USING and WITH CHECK *)
Definition approvals_update (uid : uuid) (a : Approval.Row) : bool :=
  (Approval.assigned_to a =? uid)%string.

(** "Users can read activity logs for own documents" *)
Definition activity_logs_select (uid : uuid) (w : World) (l : ActivityLog.Row) : bool :=
  mem (ActivityLog.document_id l) (own_document_ids uid w).

(** "Users can create activity logs" *)
Definition activity_logs_insert (uid : uuid) (l : ActivityLog.Row) : bool :=
  (ActivityLog.user_id l =? uid)%string.

(** "Document owners can manage shares" (FOR ALL): USING and WITH CHECK *)
Definition document_shares_all (uid : uuid) (s : DocumentShare.Row) : bool :=
  (DocumentShare.shared_by s =? uid)%string.

(** "Users can read their own shares" OR the FOR ALL policy *)
Definition document_shares_select (uid : uuid) (s : DocumentShare.Row) : bool :=
  ((DocumentShare.shared_with s =? uid)%string || (DocumentShare.shared_by s =? uid)%string)
  || document_shares_all uid s.

(** "Authenticated users can upload documents" *)
Definition objects_insert (uid : uuid) (o : StorageObject.Row) : bool :=
  (StorageObject.bucket_id o =? "documents")%string.

(** [storage.foldername(name)]: the path segments before the file name. *)
Definition foldername (name : string) : list string :=
  removelast (split "/" name).

(** "Users can read their accessible documents" on [storage.objects] *)
Definition objects_select (uid : uuid) (w : World) (o : StorageObject.Row) : bool :=
  (StorageObject.bucket_id o =? "documents")%string
  && match foldername (StorageObject.name o) with
     | [] => false
     | folder :: _ =>
         mem folder
           (map Document.id
              (filter
                 (fun d =>
                    (Document.created_by d =? uid)%string
                    || Document.is_public d
                    || mem (Document.id d)
                         (map DocumentShare.document_id
                            (filter (fun s => (DocumentShare.shared_with s =? uid)%string)
                               (filter (document_shares_select uid) (document_shares w)))))
                 (visible_documents uid w)))
     end.

End Policy.

(** ** The requests the client awaits *)

Inductive Request : Type -> Type :=
(** [supabase.auth.getUser()]: the id of the user, [None] for [user: null] *)
| AuthGetUser : Request (option uuid)
(** [uuidv4()] and [new Date()]: local, never fail *)
| Uuidv4 : Request uuid
| DateNow : Request timestamp
(** [from('documents').insert({title, description, created_by}).select().single()] *)
| InsertDocument (title : string) (description : option string) (created_by : uuid)
    : Request (Response Document.Row)
(** [from('document_versions').select('version_number').eq('document_id', ..)
     .order('version_number', {ascending: false}).limit(1)] *)
| SelectVersionNumbers (document_id : uuid) : Request (Response (list Z))
(** [storage.from('documents').upload(filePath, file)]: its [error] *)
| StorageUpload (filePath : string) (file : File.t) : Request (option BackendError)
(** [from('document_versions').insert({..}).select().single()] *)
| InsertVersion (document_id : uuid) (version_number : Z) (file_path file_name : string)
    (file_size : Z) (mime_type : string) (uploaded_by : uuid) (notes : option string)
    : Request (Response DocumentVersion.Row)
(** [from('documents').select('*, document_versions(..)').order('updated_at', desc)] *)
| SelectDocuments : Request (Response (list (Document.Row * list DocumentVersion.Row)))
(** [from('documents').select('*, document_versions(..)').eq('id', ..).single()] *)
| SelectDocument (id : uuid) : Request (Response (Document.Row * list DocumentVersion.Row))
(** [from('document_versions').select('*').eq('document_id', ..)
     .order('version_number', desc)] *)
| SelectVersions (document_id : uuid) : Request (Response (list DocumentVersion.Row))
(** [storage.from('documents').download(filePath)] *)
| StorageDownload (filePath : string) : Request (Response string)
(** [from('comments').insert({..}).select().single()] *)
| InsertComment (document_id : uuid) (version_id : option uuid) (content : string)
    (created_by : uuid) (parent_id : option uuid) : Request (Response Comment.Row)
(** [from('comments').select('*').eq('document_id', ..)[.eq('version_id', ..)]
     .order('created_at', asc)] *)
| SelectComments (document_id : uuid) (version_id : option uuid)
    : Request (Response (list Comment.Row))
(** [from('approvals').insert({..}).select().single()] *)
| InsertApproval (document_id : uuid) (version_id : option uuid)
    (requested_by assigned_to : uuid) (notes : option string)
    : Request (Response Approval.Row)
(** [from('approvals').update({status, notes, updated_at}).eq('id', ..)
     .select().single()] *)
| UpdateApproval (id : uuid) (status : Status) (notes : option string)
    (updated_at : timestamp) : Request (Response Approval.Row)
(** [from('approvals').select('*').eq('document_id', ..).order('created_at', desc)] *)
| SelectApprovals (document_id : uuid) : Request (Response (list Approval.Row))
(** [from('activity_logs').insert({..})], no [.select()]: its [error] *)
| InsertActivity (document_id user_id : uuid) (action : string)
    (details : option Details) : Request (option BackendError)
(** [from('activity_logs').select('*').eq('document_id', ..)
     .order('created_at', desc).limit(50)] *)
| SelectActivity (document_id : uuid) : Request (Response (list ActivityLog.Row))
(** [from('document_shares').upsert({..}).select().single()] *)
| UpsertShare (document_id shared_with : uuid) (permission : Permission)
    (shared_by : uuid) : Request (Response DocumentShare.Row).

(** ** The backend: what each request does to the world

    The requests are served as PostgREST and PostgreSQL serve them.
    [jwt] is the identity the request carries ([None]: the anonymous role,
    to which no policy applies, so that it reads nothing and writes
    nothing).  A request first has to arrive: [transport] may lose it, and
    the client then gets [NetworkFailure].  A write with [.select()] is an
    [INSERT/UPDATE .. RETURNING], so the SELECT policies apply to the
    written row as well.  Constraints are checked after the policies:
    unique indexes first, foreign keys last.  Columns the client does not
    send take their defaults ([gen_random_uuid()], [now()], ['pending'],
    [false]). *)

Module Backend.

Definition remote {A} (w : World) (k : World -> Response A * World) : Response A * World :=
  let (lost, w1) := transport w in
  if lost then (failed NetworkFailure, w1) else k w1.

Definition remote_error (w : World) (k : World -> option BackendError * World)
  : option BackendError * World :=
  let (lost, w1) := transport w in
  if lost then (Some NetworkFailure, w1) else k w1.

(** [.single()]: exactly one row, or the error PGRST116. *)
Definition single {A} (rows : list A) : Response A :=
  match rows with
  | [r] => ok r
  | _ => failed NoRows
  end.

Definition getUser (jwt : option uuid) (w : World) : option uuid * World :=
  let (lost, w1) := transport w in
  (if lost then None else jwt, w1).

Definition insert_document (jwt : option uuid) (title : string)
    (description : option string) (created_by : uuid) (w : World)
  : Response Document.Row * World :=
  remote w (fun w =>
    match jwt with
    | None => (failed RowLevelSecurity, w)
    | Some uid =>
        let (id, w) := gen_random_uuid w in
        let row := Document.mk id title description created_by (now w) (now w) false in
        if negb (Policy.documents_insert uid row && Policy.documents_select uid row)
        then (failed RowLevelSecurity, w)
        else if mem id (map Document.id (documents w))
        then (failed UniqueViolation, w)
        else if negb (mem created_by (auth_users w))
        then (failed ForeignKeyViolation, w)
        else (ok row, set_documents (documents w ++ [row]) w)
    end).

Definition visible_versions (jwt : option uuid) (w : World) : list DocumentVersion.Row :=
  match jwt with
  | None => []
  | Some uid => filter (Policy.document_versions_select uid w) (document_versions w)
  end.

Definition versions_of (document_id : uuid) (l : list DocumentVersion.Row)
  : list DocumentVersion.Row :=
  filter (fun v => (DocumentVersion.document_id v =? document_id)%string) l.

Definition select_version_numbers (jwt : option uuid) (document_id : uuid) (w : World)
  : Response (list Z) * World :=
  remote w (fun w =>
    (ok (map DocumentVersion.version_number
           (limit 1 (order_by DocumentVersion.version_number false
                       (versions_of document_id (visible_versions jwt w))))), w)).

Definition same_object (bucket name : string) (o : StorageObject.Row) : bool :=
  (StorageObject.bucket_id o =? bucket)%string && (StorageObject.name o =? name)%string.

Definition storage_upload (jwt : option uuid) (filePath : string) (file : File.t) (w : World)
  : option BackendError * World :=
  remote_error w (fun w =>
    match jwt with
    | None => (Some RowLevelSecurity, w)
    | Some uid =>
        let o := StorageObject.mk "documents" filePath uid (File.bytes file) in
        if negb (Policy.objects_insert uid o) then (Some RowLevelSecurity, w)
        else if existsb (same_object "documents" filePath) (objects w)
        then (Some ObjectAlreadyExists, w)
        else (None, set_objects (objects w ++ [o]) w)
    end).

(** UNIQUE(document_id, version_number) *)
Definition version_key_taken (document_id : uuid) (version_number : Z)
    (l : list DocumentVersion.Row) : bool :=
  existsb (fun v => (DocumentVersion.document_id v =? document_id)%string
                    && (DocumentVersion.version_number v =? version_number)) l.

Definition insert_version (jwt : option uuid) (document_id : uuid) (version_number : Z)
    (file_path file_name : string) (file_size : Z) (mime_type : string)
    (uploaded_by : uuid) (notes : option string) (w : World)
  : Response DocumentVersion.Row * World :=
  remote w (fun w =>
    match jwt with
    | None => (failed RowLevelSecurity, w)
    | Some uid =>
        let (id, w) := gen_random_uuid w in
        let row := DocumentVersion.mk id document_id version_number file_path file_name
                     file_size mime_type uploaded_by (now w) notes in
        if negb (Policy.document_versions_insert uid w row
                 && Policy.document_versions_select uid w row)
        then (failed RowLevelSecurity, w)
        else if mem id (map DocumentVersion.id (document_versions w))
                || version_key_taken document_id version_number (document_versions w)
        then (failed UniqueViolation, w)
        else if negb (mem document_id (map Document.id (documents w))
                      && mem uploaded_by (auth_users w))
        then (failed ForeignKeyViolation, w)
        else (ok row, set_document_versions (document_versions w ++ [row]) w)
    end).

Definition embed_versions (jwt : option uuid) (w : World) (d : Document.Row)
  : Document.Row * list DocumentVersion.Row :=
  (d, versions_of (Document.id d) (visible_versions jwt w)).

Definition visible_documents (jwt : option uuid) (w : World) : list Document.Row :=
  match jwt with
  | None => []
  | Some uid => Policy.visible_documents uid w
  end.

Definition select_documents (jwt : option uuid) (w : World)
  : Response (list (Document.Row * list DocumentVersion.Row)) * World :=
  remote w (fun w =>
    (ok (map (embed_versions jwt w)
           (order_by Document.updated_at false (visible_documents jwt w))), w)).

Definition select_document (jwt : option uuid) (id : uuid) (w : World)
  : Response (Document.Row * list DocumentVersion.Row) * World :=
  remote w (fun w =>
    (single (map (embed_versions jwt w)
               (filter (fun d => (Document.id d =? id)%string) (visible_documents jwt w))), w)).

Definition select_versions (jwt : option uuid) (document_id : uuid) (w : World)
  : Response (list DocumentVersion.Row) * World :=
  remote w (fun w =>
    (ok (order_by DocumentVersion.version_number false
           (versions_of document_id (visible_versions jwt w))), w)).

Definition storage_download (jwt : option uuid) (filePath : string) (w : World)
  : Response string * World :=
  remote w (fun w =>
    match jwt with
    | None => (failed ObjectNotFound, w)
    | Some uid =>
        match filter (fun o => same_object "documents" filePath o && Policy.objects_select uid w o)
                (objects w) with
        | o :: _ => (ok (StorageObject.body o), w)
        | [] => (failed ObjectNotFound, w)
        end
    end).

Definition insert_comment (jwt : option uuid) (document_id : uuid) (version_id : option uuid)
    (content : string) (created_by : uuid) (parent_id : option uuid) (w : World)
  : Response Comment.Row * World :=
  remote w (fun w =>
    match jwt with
    | None => (failed RowLevelSecurity, w)
    | Some uid =>
        let (id, w) := gen_random_uuid w in
        let row := Comment.mk id document_id version_id content created_by
                     (now w) (now w) parent_id in
        if negb (Policy.comments_insert uid w row && Policy.comments_select uid w row)
        then (failed RowLevelSecurity, w)
        else if mem id (map Comment.id (comments w))
        then (failed UniqueViolation, w)
        else if negb (mem document_id (map Document.id (documents w))
                      && opt_mem version_id (map DocumentVersion.id (document_versions w))
                      && mem created_by (auth_users w)
                      && opt_mem parent_id (map Comment.id (comments w)))
        then (failed ForeignKeyViolation, w)
        else (ok row, set_comments (comments w ++ [row]) w)
    end).

Definition opt_eqb (x : option uuid) (y : uuid) : bool :=
  match x with
  | Some z => (z =? y)%string
  | None => false
  end.

Definition select_comments (jwt : option uuid) (document_id : uuid)
    (version_id : option uuid) (w : World) : Response (list Comment.Row) * World :=
  remote w (fun w =>
    let visible := match jwt with
                   | None => []
                   | Some uid => filter (Policy.comments_select uid w) (comments w)
                   end in
    let of_document := filter (fun c => (Comment.document_id c =? document_id)%string) visible in
    let of_version := match version_id with
                      | None => of_document
                      | Some v => filter (fun c => opt_eqb (Comment.version_id c) v) of_document
                      end in
    (ok (order_by Comment.created_at true of_version), w)).

Definition insert_approval (jwt : option uuid) (document_id : uuid) (version_id : option uuid)
    (requested_by assigned_to : uuid) (notes : option string) (w : World)
  : Response Approval.Row * World :=
  remote w (fun w =>
    match jwt with
    | None => (failed RowLevelSecurity, w)
    | Some uid =>
        let (id, w) := gen_random_uuid w in
        let row := Approval.mk id document_id version_id requested_by assigned_to
                     pending notes (now w) (now w) in
        if negb (Policy.approvals_insert uid w row && Policy.approvals_select uid w row)
        then (failed RowLevelSecurity, w)
        else if mem id (map Approval.id (approvals w))
        then (failed UniqueViolation, w)
        else if negb (mem document_id (map Document.id (documents w))
                      && opt_mem version_id (map DocumentVersion.id (document_versions w))
                      && mem requested_by (auth_users w)
                      && mem assigned_to (auth_users w))
        then (failed ForeignKeyViolation, w)
        else (ok row, set_approvals (approvals w ++ [row]) w)
    end).

(** The row an [update({status, notes, updated_at})] writes: a [notes]
    that is [undefined] is left out of the payload and keeps the column. *)
Definition updated_approval (status : Status) (notes : option string)
    (updated_at : timestamp) (a : Approval.Row) : Approval.Row :=
  Approval.mk (Approval.id a) (Approval.document_id a) (Approval.version_id a)
    (Approval.requested_by a) (Approval.assigned_to a) status
    (match notes with Some n => Some n | None => Approval.notes a end)
    (Approval.created_at a) updated_at.

Definition update_target (uid id : uuid) (w : World) (a : Approval.Row) : bool :=
  (Approval.id a =? id)%string && Policy.approvals_update uid a
  && Policy.approvals_select uid w a.

Definition update_approval (jwt : option uuid) (id : uuid) (status : Status)
    (notes : option string) (updated_at : timestamp) (w : World)
  : Response Approval.Row * World :=
  remote w (fun w =>
    match jwt with
    | None => (failed NoRows, w)
    | Some uid =>
        match filter (update_target uid id w) (approvals w) with
        | [a] =>
            let a' := updated_approval status notes updated_at a in
            if negb (Policy.approvals_update uid a' && Policy.approvals_select uid w a')
            then (failed RowLevelSecurity, w)
            else (ok a',
                  set_approvals
                    (map (fun x => if update_target uid id w x
                                   then updated_approval status notes updated_at x
                                   else x) (approvals w)) w)
        | _ => (failed NoRows, w)
        end
    end).

Definition select_approvals (jwt : option uuid) (document_id : uuid) (w : World)
  : Response (list Approval.Row) * World :=
  remote w (fun w =>
    let visible := match jwt with
                   | None => []
                   | Some uid => filter (Policy.approvals_select uid w) (approvals w)
                   end in
    (ok (order_by Approval.created_at false
           (filter (fun a => (Approval.document_id a =? document_id)%string) visible)), w)).

Definition insert_activity (jwt : option uuid) (document_id user_id : uuid)
    (action : string) (details : option Details) (w : World)
  : option BackendError * World :=
  remote_error w (fun w =>
    match jwt with
    | None => (Some RowLevelSecurity, w)
    | Some uid =>
        let (id, w) := gen_random_uuid w in
        let row := ActivityLog.mk id document_id user_id action details (now w) in
        if negb (Policy.activity_logs_insert uid row) then (Some RowLevelSecurity, w)
        else if mem id (map ActivityLog.id (activity_logs w))
        then (Some UniqueViolation, w)
        else if negb (mem document_id (map Document.id (documents w))
                      && mem user_id (auth_users w))
        then (Some ForeignKeyViolation, w)
        else (None, set_activity_logs (activity_logs w ++ [row]) w)
    end).

Definition select_activity (jwt : option uuid) (document_id : uuid) (w : World)
  : Response (list ActivityLog.Row) * World :=
  remote w (fun w =>
    let visible := match jwt with
                   | None => []
                   | Some uid => filter (Policy.activity_logs_select uid w) (activity_logs w)
                   end in
    (ok (limit 50
           (order_by ActivityLog.created_at false
              (filter (fun l => (ActivityLog.document_id l =? document_id)%string) visible))), w)).

(** UNIQUE(document_id, shared_with), looked up among the rows other than [except]. *)
Definition share_key_taken (document_id shared_with : uuid) (except : option uuid)
    (l : list DocumentShare.Row) : bool :=
  existsb (fun s => (DocumentShare.document_id s =? document_id)%string
                    && (DocumentShare.shared_with s =? shared_with)%string
                    && negb (opt_eqb except (DocumentShare.id s))) l.

Definition share_fk (document_id shared_with shared_by : uuid) (w : World) : bool :=
  mem document_id (map Document.id (documents w))
  && mem shared_with (auth_users w) && mem shared_by (auth_users w).

(** [upsert] without [onConflict]: [INSERT .. ON CONFLICT (id) DO UPDATE SET]
    the columns of the payload.  The payload has no [id], so the conflict
    target is the generated primary key. *)
Definition upsert_share (jwt : option uuid) (document_id shared_with : uuid)
    (permission : Permission) (shared_by : uuid) (w : World)
  : Response DocumentShare.Row * World :=
  remote w (fun w =>
    match jwt with
    | None => (failed RowLevelSecurity, w)
    | Some uid =>
        let (id, w) := gen_random_uuid w in
        let row := DocumentShare.mk id document_id shared_with permission shared_by (now w) in
        if negb (Policy.document_shares_all uid row && Policy.document_shares_select uid row)
        then (failed RowLevelSecurity, w)
        else
          match find (fun s => (DocumentShare.id s =? id)%string) (document_shares w) with
          | Some old =>
              let row' := DocumentShare.mk id document_id shared_with permission shared_by
                            (DocumentShare.created_at old) in
              if negb (Policy.document_shares_all uid old
                       && Policy.document_shares_select uid old)
              then (failed RowLevelSecurity, w)
              else if share_key_taken document_id shared_with (Some id) (document_shares w)
              then (failed UniqueViolation, w)
              else if negb (share_fk document_id shared_with shared_by w)
              then (failed ForeignKeyViolation, w)
              else (ok row',
                    set_document_shares
                      (map (fun s => if (DocumentShare.id s =? id)%string then row' else s)
                         (document_shares w)) w)
          | None =>
              if share_key_taken document_id shared_with None (document_shares w)
              then (failed UniqueViolation, w)
              else if negb (share_fk document_id shared_with shared_by w)
              then (failed ForeignKeyViolation, w)
              else (ok row, set_document_shares (document_shares w ++ [row]) w)
          end
    end).

End Backend.

Definition handle (jwt : option uuid) {R} (r : Request R) (w : World) : R * World :=
  match r in Request T return T * World with
  | AuthGetUser => Backend.getUser jwt w
  | Uuidv4 => uuidv4 w
  | DateNow => (now w, w)
  | InsertDocument t d c => Backend.insert_document jwt t d c w
  | SelectVersionNumbers d => Backend.select_version_numbers jwt d w
  | StorageUpload p f => Backend.storage_upload jwt p f w
  | InsertVersion d n p f s m u nt => Backend.insert_version jwt d n p f s m u nt w
  | SelectDocuments => Backend.select_documents jwt w
  | SelectDocument i => Backend.select_document jwt i w
  | SelectVersions d => Backend.select_versions jwt d w
  | StorageDownload p => Backend.storage_download jwt p w
  | InsertComment d v c u p => Backend.insert_comment jwt d v c u p w
  | SelectComments d v => Backend.select_comments jwt d v w
  | InsertApproval d v r a n => Backend.insert_approval jwt d v r a n w
  | UpdateApproval i s n t => Backend.update_approval jwt i s n t w
  | SelectApprovals d => Backend.select_approvals jwt d w
  | InsertActivity d u a x => Backend.insert_activity jwt d u a x w
  | SelectActivity d => Backend.select_activity jwt d w
  | UpsertShare d s p b => Backend.upsert_share jwt d s p b w
  end.

(** ** Client programs

    An [async] function is a tree of awaited requests that ends by
    returning a value or by throwing. *)

Inductive Prog (A : Type) : Type :=
| Ret (a : A)
| Throw (message : string)
| Await {R : Type} (r : Request R) (k : R -> Prog A).
Arguments Ret {A}.
Arguments Throw {A}.
Arguments Await {A R}.

Fixpoint bind {A B} (p : Prog A) (f : A -> Prog B) : Prog B :=
  match p with
  | Ret a => f a
  | Throw m => Throw m
  | Await r k => Await r (fun x => bind (k x) f)
  end.

Definition await {R} (r : Request R) : Prog R := Await r Ret.

Notation "'let*' x ':=' c 'in' k" := (bind c (fun x => k))
  (at level 10, x pattern, c at level 100, k at level 200).

(** How a call of an [async] function ends. *)
Inductive Outcome (A : Type) : Type :=
| Returned (a : A)
| Thrown (message : string).
Arguments Returned {A}.
Arguments Thrown {A}.

(** One call, run to completion with nothing else in between. *)
Fixpoint run {A} (jwt : option uuid) (p : Prog A) (w : World) : Outcome A * World :=
  match p with
  | Ret a => (Returned a, w)
  | Throw m => (Thrown m, w)
  | Await r k => let (x, w') := handle jwt r w in run jwt (k x) w'
  end.

(** One awaited request of a call. *)
Definition step {A} (jwt : option uuid) (p : Prog A) (w : World) : Prog A * World :=
  match p with
  | Await r k => let (x, w') := handle jwt r w in (k x, w')
  | _ => (p, w)
  end.

(** Two calls in flight at once: [schedule] says whose request the backend
    serves next ([true]: the first call); when it is used up the first
    call is completed, then the second. *)
Fixpoint interleave {A B} (schedule : list bool) (jwt1 jwt2 : option uuid)
    (p1 : Prog A) (p2 : Prog B) (w : World) : Outcome A * Outcome B * World :=
  match schedule with
  | [] =>
      let (o1, w1) := run jwt1 p1 w in
      let (o2, w2) := run jwt2 p2 w1 in
      (o1, o2, w2)
  | true :: rest =>
      let (p1', w') := step jwt1 p1 w in interleave rest jwt1 jwt2 p1' p2 w'
  | false :: rest =>
      let (p2', w') := step jwt2 p2 w in interleave rest jwt1 jwt2 p1 p2' w'
  end.

(** ** [src/lib/documents.ts] *)

Definition logActivity (documentId : uuid) (action : string) (details : option Details)
  : Prog unit :=
  let* user := await AuthGetUser in
  match user with
  | None => Ret tt
  | Some user_id =>
      let* _ := await (InsertActivity documentId user_id action details) in
      Ret tt
  end.

Definition createDocument (title : string) (description : option string)
  : Prog (Response Document.Row) :=
  let* user := await AuthGetUser in
  match user with
  | None => Throw "User not authenticated"
  | Some user_id =>
      let* r := await (InsertDocument title description user_id) in
      let* _ := match error r, data r with
                | None, Some d =>
                    logActivity (Document.id d) "document_created"
                      (Some [("title", JString title)])
                | _, _ => Ret tt
                end in
      Ret r
  end.

(** [versions && versions.length > 0 ? versions[0].version_number + 1 : 1] *)
Definition nextVersion (versions : option (list Z)) : Z :=
  match versions with
  | Some (n :: _) => n + 1
  | _ => 1
  end.

Definition fileExt (file : File.t) : option string := pop (split "." (File.name file)).

Definition filePath (documentId token : uuid) (file : File.t) : string :=
  let fileName := token ^^ "." ^^ template (fileExt file) in
  documentId ^^ "/" ^^ fileName.

Definition uploadDocumentVersion (documentId : uuid) (file : File.t) (notes : option string)
  : Prog (Response DocumentVersion.Row) :=
  let* user := await AuthGetUser in
  match user with
  | None => Throw "User not authenticated"
  | Some user_id =>
      let* versions := await (SelectVersionNumbers documentId) in
      let next := nextVersion (data versions) in
      let* token := await Uuidv4 in
      let path := filePath documentId token file in
      let* uploadError := await (StorageUpload path file) in
      match uploadError with
      | Some e => Ret (mkResponse None (Some e))
      | None =>
          let* r := await (InsertVersion documentId next path (File.name file)
                             (File.size file) (File.type file) user_id notes) in
          let* _ := match error r, data r with
                    | None, Some _ =>
                        logActivity documentId "version_uploaded"
                          (Some [("version", JNumber next);
                                 ("fileName", JString (File.name file))])
                    | _, _ => Ret tt
                    end in
          Ret r
      end
  end.

Definition getDocuments : Prog (Response (list (Document.Row * list DocumentVersion.Row))) :=
  await SelectDocuments.

Definition getDocument (documentId : uuid)
  : Prog (Response (Document.Row * list DocumentVersion.Row)) :=
  await (SelectDocument documentId).

Definition getDocumentVersions (documentId : uuid) : Prog (Response (list DocumentVersion.Row)) :=
  await (SelectVersions documentId).

Definition downloadDocumentVersion (path : string) : Prog (Response string) :=
  await (StorageDownload path).

Definition addComment (documentId : uuid) (content : string) (versionId parentId : option uuid)
  : Prog (Response Comment.Row) :=
  let* user := await AuthGetUser in
  match user with
  | None => Throw "User not authenticated"
  | Some user_id =>
      let* r := await (InsertComment documentId versionId content user_id parentId) in
      let* _ := match error r, data r with
                | None, Some _ =>
                    logActivity documentId "comment_added"
                      (Some [("content", JString (substring0 50 content))])
                | _, _ => Ret tt
                end in
      Ret r
  end.

(** [if (versionId)]: an empty string is falsy. *)
Definition truthy (x : option string) : option string :=
  match x with
  | Some "" => None
  | _ => x
  end.

Definition getComments (documentId : uuid) (versionId : option uuid)
  : Prog (Response (list Comment.Row)) :=
  await (SelectComments documentId (truthy versionId)).

Definition requestApproval (documentId assignedTo : uuid) (versionId : option uuid)
    (notes : option string) : Prog (Response Approval.Row) :=
  let* user := await AuthGetUser in
  match user with
  | None => Throw "User not authenticated"
  | Some user_id =>
      let* r := await (InsertApproval documentId versionId user_id assignedTo notes) in
      let* _ := match error r, data r with
                | None, Some _ =>
                    logActivity documentId "approval_requested"
                      (Some [("assignedTo", JString assignedTo)])
                | _, _ => Ret tt
                end in
      Ret r
  end.

Definition Status_text (s : Status) : string :=
  match s with
  | pending => "pending"
  | approved => "approved"
  | rejected => "rejected"
  end.

(** The type of [status] in the source is ['approved' | 'rejected']. *)
Definition updateApprovalStatus (approvalId : uuid) (status : Status) (notes : option string)
  : Prog (Response Approval.Row) :=
  let* updated_at := await DateNow in
  let* r := await (UpdateApproval approvalId status notes updated_at) in
  let* _ := match error r, data r with
            | None, Some a =>
                logActivity (Approval.document_id a) "approval_updated"
                  (Some [("status", JString (Status_text status))])
            | _, _ => Ret tt
            end in
  Ret r.

Definition getApprovals (documentId : uuid) : Prog (Response (list Approval.Row)) :=
  await (SelectApprovals documentId).

Definition getActivityLog (documentId : uuid) : Prog (Response (list ActivityLog.Row)) :=
  await (SelectActivity documentId).

Definition Permission_text (p : Permission) : string :=
  match p with
  | view => "view"
  | comment => "comment"
  | edit => "edit"
  end.

Definition shareDocument (documentId sharedWith : uuid) (permission : Permission)
  : Prog (Response DocumentShare.Row) :=
  let* user := await AuthGetUser in
  match user with
  | None => Throw "User not authenticated"
  | Some user_id =>
      let* r := await (UpsertShare documentId sharedWith permission user_id) in
      let* _ := match error r, data r with
                | None, Some _ =>
                    logActivity documentId "document_shared"
                      (Some [("sharedWith", JString sharedWith);
                             ("permission", JString (Permission_text permission))])
                | _, _ => Ret tt
                end in
      Ret r
  end.

(** ** A small scenario used by the examples *)

Definition alice : uuid := "alice".
Definition bob : uuid := "bob".

Definition empty_world : World :=
  mkWorld [alice; bob] [] [] [] [] [] [] [] 0
    ["id1"; "id2"; "id3"; "id4"; "id5"; "id6"; "id7"; "id8"; "id9"]
    ["t1"; "t2"; "t3"] [].

Definition spec_pdf : File.t := File.mk "spec.pdf" "application/pdf" "%PDF".

(** * The vocabulary of the statements *)

(** ** Lists and strings *)

(** The greatest element of a list of numbers. *)
Fixpoint maximum (l : list Z) : option Z :=
  match l with
  | [] => None
  | x :: t => match maximum t with
              | None => Some x
              | Some m => Some (Z.max x m)
              end
  end.

(** [occurs sep s]: the character [sep] occurs in [s]. *)
Fixpoint occurs (sep : ascii) (s : string) : bool :=
  match s with
  | EmptyString => false
  | String c r => Ascii.eqb c sep || occurs sep r
  end.

(** ** The idiom of the callers of [logActivity] *)

(** What a caller does with the answer [r] of its main request: it logs on
    success, and returns [r] either way. *)
Definition and_log {A} (r : Response A) (log : A -> Prog unit) : Prog (Response A) :=
  let* _ := match error r, data r with
            | None, Some d => log d
            | _, _ => Ret tt
            end in
  Ret r.

(** ** What a request may write *)

Inductive Table :=
| T_documents | T_document_versions | T_comments | T_approvals
| T_activity_logs | T_document_shares | T_objects.

(** The one table a request can write, if any. *)
Definition target {R} (r : Request R) : option Table :=
  match r with
  | InsertDocument _ _ _ => Some T_documents
  | StorageUpload _ _ => Some T_objects
  | InsertVersion _ _ _ _ _ _ _ _ => Some T_document_versions
  | InsertComment _ _ _ _ _ => Some T_comments
  | InsertApproval _ _ _ _ _ => Some T_approvals
  | UpdateApproval _ _ _ _ => Some T_approvals
  | InsertActivity _ _ _ _ => Some T_activity_logs
  | UpsertShare _ _ _ _ => Some T_document_shares
  | _ => None
  end.

(** Table [t] is the same in [w] and [w']. *)
Definition unchanged (t : Table) (w w' : World) : Prop :=
  match t with
  | T_documents => documents w' = documents w
  | T_document_versions => document_versions w' = document_versions w
  | T_comments => comments w' = comments w
  | T_approvals => approvals w' = approvals w
  | T_activity_logs => activity_logs w' = activity_logs w
  | T_document_shares => document_shares w' = document_shares w
  | T_objects => objects w' = objects w
  end.

(** Requests that do not leave the client. *)
Definition local {R} (r : Request R) : bool :=
  match r with
  | Uuidv4 | DateNow => true
  | _ => false
  end.

(** ** Documents and identities *)

(** [uid] created document [d]. *)
Definition owns (uid d : uuid) (w : World) : Prop :=
  exists doc, In doc (documents w) /\ Document.id doc = d /\ Document.created_by doc = uid.

(** Document [d] is public. *)
Definition is_public (d : uuid) (w : World) : Prop :=
  exists doc, In doc (documents w) /\ Document.id doc = d /\ Document.is_public doc = true.

(** [uid] holds a share on [d]; a share with permission [edit]. *)
Definition holds_share (uid d : uuid) (w : World) : Prop :=
  exists s, In s (document_shares w) /\ DocumentShare.document_id s = d
            /\ DocumentShare.shared_with s = uid.

Definition holds_edit_share (uid d : uuid) (w : World) : Prop :=
  exists s, In s (document_shares w) /\ DocumentShare.document_id s = d
            /\ DocumentShare.shared_with s = uid /\ DocumentShare.permission s = edit.

(** What the caller can see of a document: it created it, or it is public. *)
Definition readable (u d : uuid) (w : World) : Prop := owns u d w \/ is_public d w.

(** ** The version ledger *)

(** The number the specification gives to the next version of [d]. *)
Definition expected_version_number (d : uuid) (w : World) : Z :=
  match maximum (map DocumentVersion.version_number
                   (Backend.versions_of d (document_versions w))) with
  | Some m => 1 + m
  | None => 1
  end.

(** The key of the unique constraint on [document_versions]. *)
Definition version_key (v : DocumentVersion.Row) : uuid * Z :=
  (DocumentVersion.document_id v, DocumentVersion.version_number v).

(** UNIQUE(document_id, version_number) as a property of the table: rows at
    different positions have different keys. *)
Definition versions_unique (w : World) : Prop :=
  NoDup (map version_key (document_versions w)).

(** What one request does to the ledger: nothing, or one more row whose
    key was free. *)
Definition ledger_step (w w' : World) : Prop :=
  document_versions w' = document_versions w
  \/ exists v, document_versions w' = document_versions w ++ [v]
               /\ ~ In (version_key v) (map version_key (document_versions w)).

(** A ledger without gaps: numbers start at 1 and every number above 1 has
    its predecessor in the same document. *)
Definition ledger_dense (w : World) : Prop :=
  forall v, In v (document_versions w) ->
    1 <= DocumentVersion.version_number v
    /\ (1 < DocumentVersion.version_number v ->
        Backend.version_key_taken (DocumentVersion.document_id v)
          (DocumentVersion.version_number v - 1) (document_versions w) = true).

(** [Tracks p c]: a call in state [p] has so far written the version row
    [c] (or none), writes at most one, and returns data only for the row
    it wrote. *)
Fixpoint Tracks (p : Prog (Response DocumentVersion.Row)) (c : option DocumentVersion.Row)
  : Prop :=
  match p with
  | Ret r => forall v, data r = Some v -> c = Some v
  | Throw _ => True
  | Await r k =>
      match r in Request T return (T -> Prog (Response DocumentVersion.Row)) -> Prop with
      | InsertVersion _ _ _ _ _ _ _ _ => fun k => c = None /\ forall x, Tracks (k x) (data x)
      | InsertDocument _ _ _ => fun k => forall x, Tracks (k x) c
      | StorageUpload _ _ => fun k => forall x, Tracks (k x) c
      | InsertComment _ _ _ _ _ => fun k => forall x, Tracks (k x) c
      | InsertApproval _ _ _ _ _ => fun k => forall x, Tracks (k x) c
      | UpdateApproval _ _ _ _ => fun k => forall x, Tracks (k x) c
      | InsertActivity _ _ _ _ => fun k => forall x, Tracks (k x) c
      | UpsertShare _ _ _ _ => fun k => forall x, Tracks (k x) c
      | AuthGetUser => fun k => forall x, Tracks (k x) c
      | Uuidv4 => fun k => forall x, Tracks (k x) c
      | DateNow => fun k => forall x, Tracks (k x) c
      | SelectVersionNumbers _ => fun k => forall x, Tracks (k x) c
      | SelectDocuments => fun k => forall x, Tracks (k x) c
      | SelectDocument _ => fun k => forall x, Tracks (k x) c
      | SelectVersions _ => fun k => forall x, Tracks (k x) c
      | StorageDownload _ => fun k => forall x, Tracks (k x) c
      | SelectComments _ _ => fun k => forall x, Tracks (k x) c
      | SelectApprovals _ => fun k => forall x, Tracks (k x) c
      | SelectActivity _ => fun k => forall x, Tracks (k x) c
      end k
  end.

(** How the row a call has written evolves: it stays, or the call writes
    its one row, on a key that was free. *)
Definition advances (c c' : option DocumentVersion.Row) (w w' : World) : Prop :=
  incl (document_versions w) (document_versions w')
  /\ (c' = c
      \/ (c = None
          /\ exists v, c' = Some v /\ In v (document_versions w')
                       /\ ~ In (version_key v) (map version_key (document_versions w)))).

(** The rows two calls in flight have written are in the table, under
    different keys. *)
Definition apart (c1 c2 : option DocumentVersion.Row) (w : World) : Prop :=
  (forall v, c1 = Some v -> In v (document_versions w))
  /\ (forall v, c2 = Some v -> In v (document_versions w))
  /\ (forall v1 v2, c1 = Some v1 -> c2 = Some v2 -> version_key v1 <> version_key v2).

(** ** Shares *)




(** ** How a call ends *)

(** No user comes back from [auth.getUser()]. *)
Definition user_absent (jwt : option uuid) (w : World) : Prop :=
  jwt = None \/ hd false (faults w) = true.

(** An operation that throws exactly when there is no user, then writing
    nothing, and returns otherwise. *)
Definition throws_iff_unauthenticated {A} (p : Prog A) : Prop :=
  forall jwt w,
    (user_absent jwt w ->
     fst (run jwt p w) = Thrown "User not authenticated"
     /\ forall t, unchanged t w (snd (run jwt p w)))
    /\ (~ user_absent jwt w -> exists r, fst (run jwt p w) = Returned r).

(** An operation that returns, whatever the identity and the world. *)
Definition always_returns {A} (p : Prog A) : Prop :=
  forall jwt w, exists r, fst (run jwt p w) = Returned r.

(** ** Scenario worlds for the examples *)

(** Alice has created the private document ["id1"]. *)
Definition world_with_document : World :=
  Eval vm_compute in snd (run (Some alice) (createDocument "Spec v1" None) empty_world).

(** ... and uploaded its first version. *)
Definition world_with_version : World :=
  Eval vm_compute in
    snd (run (Some alice) (uploadDocumentVersion "id1" spec_pdf None) world_with_document).

(** A comment of 70 characters. *)
Definition long_comment : string :=
  "0123456789012345678901234567890123456789012345678901234567890123456789".

(** Alice has asked Bob to approve her document ... *)
Definition world_requested : World :=
  Eval vm_compute in
    snd (run (Some alice) (requestApproval "id1" bob None None) world_with_document).

(** ... and Bob has approved it. *)
Definition world_approved : World :=
  Eval vm_compute in
    snd (run (Some bob) (updateApprovalStatus "id3" approved (Some "ok")) world_requested).

(** Alice has shared her private document ["id1"], which has one version,
    with Bob. *)
Definition world_shared : World :=
  Eval vm_compute in snd (run (Some alice) (shareDocument "id1" bob view) world_with_version).

(** * The components that call [documents.ts]

    A handler of a component is a function of the state of the component
    and of the world: it makes its calls with [run], and what it hands to
    the [set...] functions of React is the state it returns.  The session
    [jwt] is the one the client library holds while the handler runs. *)

(** ** Strings, as the handlers use them

    A [string] lists the code units of a text; the model has the code
    units below 256. *)

(** [WhiteSpace] and [LineTerminator] of the language: tab, line feed,
    vertical tab, form feed, carriage return, space, no-break space. *)
Definition is_white (c : ascii) : bool :=
  let n := nat_of_ascii c in
  ((9 <=? n)%nat && (n <=? 13)%nat) || (n =? 32)%nat || (n =? 160)%nat.

(** [String.prototype.trimStart], [trimEnd] and [trim] *)
Fixpoint trimStart (s : string) : string :=
  match s with
  | EmptyString => EmptyString
  | String c r => if is_white c then trimStart r else s
  end.

Fixpoint trimEnd (s : string) : string :=
  match s with
  | EmptyString => EmptyString
  | String c r =>
      match trimEnd r with
      | EmptyString => if is_white c then EmptyString else String c EmptyString
      | r' => String c r'
      end
  end.

Definition trim (s : string) : string := trimEnd (trimStart s).




(** [s || undefined] and [s || null]: the empty string is falsy. *)
Definition or_undefined (s : string) : option string := truthy (Some s).

(** ** [src/components/Documents/UploadVersionModal.tsx] *)

Module UploadVersionModal.

(** What [setError] is given: the [message] of an error the backend
    answered, or a text of the component's own. *)
Inductive Notice :=
| MessageOf (e : BackendError)
| Text (s : string).

Record State := mk {
  file : option File.t;
  notes : string;
  loading : bool;
  error : option Notice;
  dragActive : bool }.

Definition setLoading (x : bool) (s : State) : State :=
  mk (file s) (notes s) x (error s) (dragActive s).
Definition setError (x : option Notice) (s : State) : State :=
  mk (file s) (notes s) (loading s) x (dragActive s).
(** The second component of the result tells whether [onSuccess] was
    called. *)
Definition handleSubmit (documentId : uuid) (jwt : option uuid) (s : State) (w : World)
  : State * bool * World :=
  match file s with
  | None => (s, false, w)
  | Some f =>
      let s := setError None (setLoading true s) in
      (* try *)
      match run jwt (uploadDocumentVersion documentId f (or_undefined (notes s))) w with
      | (Returned (mkResponse _ (Some e)), w') =>
          (setLoading false (setError (Some (MessageOf e)) s), false, w')
      | (Returned (mkResponse _ None), w') =>
          (setLoading false s, true, w')
      (* catch *)
      | (Thrown _, w') =>
          (setLoading false (setError (Some (Text "Failed to upload file")) s), false, w')
      end
  end.

End UploadVersionModal.

(** ** [src/components/Documents/VersionHistory.tsx] *)

Module VersionHistory.

Record State := mk {
  versions : list DocumentVersion.Row;
  loading : bool }.

Definition loadVersions (documentId : uuid) (jwt : option uuid) (s : State) (w : World)
  : Outcome unit * State * World :=
  match run jwt (getDocumentVersions documentId) w with
  | (Returned (mkResponse (Some rows) None), w') => (Returned tt, mk rows false, w')
  | (Returned _, w') => (Returned tt, mk (versions s) false, w')
  | (Thrown m, w') => (Thrown m, mk (versions s) true, w')
  end.

(** What the browser is made to save: the name of the file ([a.download])
    and its bytes. *)
Record Saved := save { name : string; bytes : string }.

Definition handleDownload (jwt : option uuid) (version : DocumentVersion.Row) (w : World)
  : option Saved * World :=
  (* try *)
  match run jwt (downloadDocumentVersion (DocumentVersion.file_path version)) w with
  | (Returned (mkResponse _ (Some _)), w') => (None, w')
  | (Returned (mkResponse (Some blob) None), w') =>
      (Some (save (DocumentVersion.file_name version) blob), w')
  | (Returned (mkResponse None None), w') => (None, w')
  (* catch *)
  | (Thrown _, w') => (None, w')
  end.

End VersionHistory.

(** ** [src/components/Documents/CommentsPanel.tsx] *)

Module CommentsPanel.

Record State := mk {
  comments : list Comment.Row;
  newComment : string;
  loading : bool;
  submitting : bool }.

Definition setComments (x : list Comment.Row) (s : State) : State :=
  mk x (newComment s) (loading s) (submitting s).
Definition setNewComment (x : string) (s : State) : State :=
  mk (comments s) x (loading s) (submitting s).
Definition setLoading (x : bool) (s : State) : State :=
  mk (comments s) (newComment s) x (submitting s).
Definition setSubmitting (x : bool) (s : State) : State :=
  mk (comments s) (newComment s) (loading s) x.

Definition loadComments (documentId : uuid) (jwt : option uuid) (s : State) (w : World)
  : Outcome unit * State * World :=
  let s := setLoading true s in
  match run jwt (getComments documentId None) w with
  | (Returned (mkResponse (Some rows) None), w') =>
      (Returned tt, setLoading false (setComments rows s), w')
  | (Returned _, w') => (Returned tt, setLoading false s, w')
  | (Thrown m, w') => (Thrown m, s, w')
  end.

(** Nothing catches what [addComment] throws: the handler then ends where
    it is, with the state as it is. *)
Definition handleSubmit (documentId : uuid) (jwt : option uuid) (s : State) (w : World)
  : Outcome unit * State * World :=
  match trim (newComment s) with
  | EmptyString => (Returned tt, s, w)
  | content =>
      let s := setSubmitting true s in
      match run jwt (addComment documentId content None None) w with
      | (Returned (mkResponse _ None), w') =>
          let s := setNewComment "" s in
          match loadComments documentId jwt s w' with
          | (Returned _, s, w'') => (Returned tt, setSubmitting false s, w'')
          | (Thrown m, s, w'') => (Thrown m, s, w'')
          end
      | (Returned (mkResponse _ (Some _)), w') => (Returned tt, setSubmitting false s, w')
      | (Thrown m, w') => (Thrown m, s, w')
      end
  end.

End CommentsPanel.

(** ** The [users] table (second migration) *)

Module User.
Record Row := mk {
  id : uuid;
  email : string;
  full_name : option string;
  avatar_url : option string;
  created_at : timestamp;
  updated_at : timestamp }.
End User.

(** The world, with the [users] table beside the other tables. *)
Record Site := mkSite {
  world : World;
  users : list User.Row }.

Module UsersTable.

(** "Users can read own profile", "Users can insert own profile", "Users
    can update own profile": all three are [auth.uid() = id]. *)
Definition own_profile (uid : uuid) (r : User.Row) : bool := (uid =? User.id r)%string.

(** [from('users').select('*').eq('id', ..).single()] *)
Definition select_single (jwt : option uuid) (id : uuid) (s : Site)
  : Response User.Row * Site :=
  let (lost, w1) := transport (world s) in
  let s1 := mkSite w1 (users s) in
  if lost then (failed NetworkFailure, s1)
  else
    let visible := match jwt with
                   | None => []
                   | Some uid => filter (own_profile uid) (users s)
                   end in
    (Backend.single (filter (fun r => (User.id r =? id)%string) visible), s1).

(** [from('users').insert({id, email, full_name, avatar_url}).select().single()] *)
Definition insert (jwt : option uuid) (id : uuid) (email : string)
    (full_name avatar_url : option string) (s : Site) : Response User.Row * Site :=
  let (lost, w1) := transport (world s) in
  let s1 := mkSite w1 (users s) in
  if lost then (failed NetworkFailure, s1)
  else
    match jwt with
    | None => (failed RowLevelSecurity, s1)
    | Some uid =>
        let row := User.mk id email full_name avatar_url (now w1) (now w1) in
        if negb (own_profile uid row) then (failed RowLevelSecurity, s1)
        else if mem id (map User.id (users s)) then (failed UniqueViolation, s1)
        else if negb (mem id (auth_users w1)) then (failed ForeignKeyViolation, s1)
        else (ok row, mkSite w1 (users s ++ [row]))
    end.


End UsersTable.

(** ** [src/components/Profile/ProfileModal.tsx] *)

Module ProfileModal.

(** The [user] the component is given: what it uses of it. *)
Record SessionUser := user {
  id : uuid;
  email : option string }.

Record State := mk {
  profile : option User.Row;
  fullName : string;
  loading : bool;
  saving : bool;
  error : option string }.

Definition setProfile (x : option User.Row) (s : State) : State :=
  mk x (fullName s) (loading s) (saving s) (error s).
Definition setFullName (x : string) (s : State) : State :=
  mk (profile s) x (loading s) (saving s) (error s).
Definition setLoading (x : bool) (s : State) : State :=
  mk (profile s) (fullName s) x (saving s) (error s).
Definition setError (x : option string) (s : State) : State :=
  mk (profile s) (fullName s) (loading s) (saving s) x.

(** The state the component starts in. *)
Definition initial : State := mk None "" true false None.

(** [x || ''] *)
Definition or_empty (x : option string) : string :=
  match x with
  | Some s => s
  | None => ""
  end.

Definition loadProfile (jwt : option uuid) (u : SessionUser) (st : State) (s : Site)
  : State * Site :=
  (* try *)
  let failure := setLoading false (setError (Some "Failed to load profile") st) in
  match UsersTable.select_single jwt (id u) s with
  | (mkResponse _ (Some NetworkFailure), s1)
  | (mkResponse _ (Some RowLevelSecurity), s1)
  | (mkResponse _ (Some UniqueViolation), s1)
  | (mkResponse _ (Some ForeignKeyViolation), s1)
  | (mkResponse _ (Some ObjectAlreadyExists), s1)
  | (mkResponse _ (Some ObjectNotFound), s1) => (failure, s1)
  | (mkResponse (Some row) _, s1) =>
      (setLoading false (setFullName (or_empty (User.full_name row))
                           (setProfile (Some row) st)), s1)
  | (mkResponse None _, s1) =>
      match UsersTable.insert jwt (id u) (or_empty (email u)) None None s1 with
      | (mkResponse _ (Some _), s2) => (failure, s2)
      | (mkResponse newProfile None, s2) => (setLoading false (setProfile newProfile st), s2)
      end
  end.


End ProfileModal.

(** * More vocabulary of the statements *)

(** ** The order of what is read *)

(** The order [.order(column, { ascending })] asks for, between two values
    of the column and along a list of rows. *)
Definition in_order (ascending : bool) (x y : Z) : Prop :=
  if ascending then x <= y else y <= x.

Definition ordered {A} (key : A -> Z) (ascending : bool) (l : list A) : Prop :=
  StronglySorted (fun a b => in_order ascending (key a) (key b)) l.

(** Strictly falling along the list. *)
Definition falling {A} (key : A -> Z) (l : list A) : Prop :=
  StronglySorted (fun a b => key b < key a) l.

(** ** What a call may write *)

(** Every request the program awaits writes one of the tables [ts], or none. *)
Fixpoint writes_only {A} (ts : list Table) (p : Prog A) : Prop :=
  match p with
  | Ret _ | Throw _ => True
  | Await r k =>
      match target r with
      | Some t => In t ts
      | None => True
      end
      /\ forall x, writes_only ts (k x)
  end.

(** Whoever calls and whatever the world, the tables outside [ts] are the
    same after the call. *)
Definition touches_only {A} (ts : list Table) (p : Prog A) : Prop :=
  forall jwt w t, ~ In t ts -> unchanged t w (snd (run jwt p w)).

(** [l'] is [l] with rows added at the end. *)
Definition extends {A} (l l' : list A) : Prop := exists t, l' = l ++ t.

(** From [w] to [w'] no row was removed, and the rows of the tables the
    client only inserts into are as they were. *)
Definition append_only (w w' : World) : Prop :=
  extends (documents w) (documents w')
  /\ extends (document_versions w) (document_versions w')
  /\ extends (comments w) (comments w')
  /\ extends (activity_logs w) (activity_logs w')
  /\ extends (objects w) (objects w')
  /\ extends (map Approval.id (approvals w)) (map Approval.id (approvals w'))
  /\ extends (map DocumentShare.id (document_shares w))
       (map DocumentShare.id (document_shares w')).

(** ** Calls that fail *)



(** ** What a call logs *)

(** From [w] to [w'] the activity log got at most one entry, and that one
    is the entry of [action] on document [d] with [details], in the name
    of the caller. *)
Definition logged (jwt : option uuid) (w w' : World) (d : uuid) (action : string)
    (details : Details) : Prop :=
  activity_logs w' = activity_logs w
  \/ exists e, activity_logs w' = activity_logs w ++ [e]
               /\ ActivityLog.document_id e = d
               /\ ActivityLog.action e = action
               /\ ActivityLog.details e = Some details
               /\ jwt = Some (ActivityLog.user_id e).

(** ** Who wrote what *)

(** Every row that is in [w'] and was not in [w] carries [u] as its
    author; a version, a comment or an approval request among them is on a
    document [u] created; an approval that was rewritten is assigned to
    [u]. *)
Definition written_by (u : uuid) (w w' : World) : Prop :=
  (forall doc, In doc (documents w') ->
     In doc (documents w) \/ Document.created_by doc = u)
  /\ (forall v, In v (document_versions w') ->
        In v (document_versions w)
        \/ (DocumentVersion.uploaded_by v = u /\ owns u (DocumentVersion.document_id v) w'))
  /\ (forall c, In c (comments w') ->
        In c (comments w)
        \/ (Comment.created_by c = u /\ owns u (Comment.document_id c) w'))
  /\ (forall a, In a (approvals w') ->
        In a (approvals w)
        \/ (Approval.requested_by a = u /\ owns u (Approval.document_id a) w')
        \/ Approval.assigned_to a = u)
  /\ (forall e, In e (activity_logs w') ->
        In e (activity_logs w) \/ ActivityLog.user_id e = u)
  /\ (forall s, In s (document_shares w') ->
        In s (document_shares w) \/ DocumentShare.shared_by s = u)
  /\ (forall o, In o (objects w') ->
        In o (objects w) \/ StorageObject.owner o = u).

(** ** Keys *)

(** The primary keys of the tables, and the names in the bucket, as
    properties of the world: no two rows share one. *)
Definition keys_unique (w : World) : Prop :=
  NoDup (map Document.id (documents w))
  /\ NoDup (map DocumentVersion.id (document_versions w))
  /\ NoDup (map Comment.id (comments w))
  /\ NoDup (map Approval.id (approvals w))
  /\ NoDup (map ActivityLog.id (activity_logs w))
  /\ NoDup (map DocumentShare.id (document_shares w))
  /\ NoDup (map (fun o => (StorageObject.bucket_id o, StorageObject.name o)) (objects w)).

(** The documents of [w'] are those of [w], followed by documents that are
    not public. *)
Definition only_private_added (w w' : World) : Prop :=
  exists added,
    documents w' = documents w ++ added
    /\ forall doc, In doc added -> Document.is_public doc = false.

(** ** References *)

(** An optional reference is to a row that is there. *)
Definition refers (x : option uuid) (ids : list uuid) : Prop :=
  forall y, x = Some y -> In y ids.

(** The foreign keys of the six tables, as a property of the world: every
    reference is to a row, or to a user, that is there. *)
Definition references_intact (w : World) : Prop :=
  (forall d, In d (documents w) -> In (Document.created_by d) (auth_users w))
  /\ (forall v, In v (document_versions w) ->
        In (DocumentVersion.document_id v) (map Document.id (documents w))
        /\ In (DocumentVersion.uploaded_by v) (auth_users w))
  /\ (forall c, In c (comments w) ->
        In (Comment.document_id c) (map Document.id (documents w))
        /\ refers (Comment.version_id c) (map DocumentVersion.id (document_versions w))
        /\ In (Comment.created_by c) (auth_users w)
        /\ refers (Comment.parent_id c) (map Comment.id (comments w)))
  /\ (forall a, In a (approvals w) ->
        In (Approval.document_id a) (map Document.id (documents w))
        /\ refers (Approval.version_id a) (map DocumentVersion.id (document_versions w))
        /\ In (Approval.requested_by a) (auth_users w)
        /\ In (Approval.assigned_to a) (auth_users w))
  /\ (forall e, In e (activity_logs w) ->
        In (ActivityLog.document_id e) (map Document.id (documents w))
        /\ In (ActivityLog.user_id e) (auth_users w))
  /\ (forall s, In s (document_shares w) ->
        In (DocumentShare.document_id s) (map Document.id (documents w))
        /\ In (DocumentShare.shared_with s) (auth_users w)
        /\ In (DocumentShare.shared_by s) (auth_users w)).

(** ** More scenario worlds for the examples *)

Definition spec2_pdf : File.t := File.mk "spec-v2.pdf" "application/pdf" "%PDF-2".

(** Alice has uploaded a second version of ["id1"]. *)
Definition world_with_two_versions : World :=
  Eval vm_compute in
    snd (run (Some alice) (uploadDocumentVersion "id1" spec2_pdf (Some "second draft"))
           world_with_version).

(** Alice has commented twice on ["id1"], the second time on its version. *)
Definition world_with_comments : World :=
  Eval vm_compute in
    snd (run (Some alice) (addComment "id1" "and page 2" (Some "id3") None)
           (snd (run (Some alice) (addComment "id1" "see page 1" None None)
                   world_with_version))).

(** The dialog with a file chosen and a note typed, and the history not
    yet loaded. *)
Definition dialog_with_file : UploadVersionModal.State :=
  UploadVersionModal.mk (Some spec_pdf) "first draft" false None false.

Definition history_not_loaded : VersionHistory.State := VersionHistory.mk [] true.

(** Alice's session, and a site where nobody has a profile yet. *)
Definition alice_session : ProfileModal.SessionUser :=
  ProfileModal.user alice (Some "alice@example.org").

Definition site_without_profiles : Site := mkSite world_with_document [].

(** Alice's document in the scenario worlds. *)
Definition alices_document : Document.Row :=
  Document.mk "id1" "Spec v1" None alice 2 2 false.

(** * Properties *)

(** ** Lists, sorting, strings *)

Lemma mem_In (x : uuid) (l : list uuid) : mem x l = true <-> In x l.
Proof.
  unfold mem. rewrite existsb_exists. split.
  - intros [y [Hy He]]. apply String.eqb_eq in He. now subst.
  - intros H. exists x. split; [assumption | apply String.eqb_refl].
Qed.

Lemma filter_filter_absorb {A} (f g : A -> bool) (l : list A) :
  (forall x, In x l -> f x = true -> g x = true) ->
  filter f (filter g l) = filter f l.
Proof.
  induction l as [|a l IH]; intros H; simpl; [reflexivity|].
  destruct (g a) eqn:Eg; simpl.
  - rewrite IH; [reflexivity | intros x Hx; apply H; now right].
  - destruct (f a) eqn:Ef.
    + rewrite (H a (or_introl eq_refl) Ef) in Eg. discriminate.
    + apply IH. intros x Hx. apply H. now right.
Qed.

Lemma insert_sorted_In {A} (le : A -> A -> bool) (x y : A) (l : list A) :
  In y (insert_sorted le x l) <-> y = x \/ In y l.
Proof.
  induction l as [|a l IH]; simpl.
  - intuition.
  - destruct (le x a); simpl; [intuition | rewrite IH; intuition].
Qed.

Lemma sort_by_In {A} (le : A -> A -> bool) (y : A) (l : list A) :
  In y (sort_by le l) <-> In y l.
Proof.
  induction l as [|a l IH]; simpl; [reflexivity|].
  rewrite insert_sorted_In, IH. intuition.
Qed.

Lemma order_by_In {A} (key : A -> Z) (asc : bool) (y : A) (l : list A) :
  In y (order_by key asc l) <-> In y l.
Proof. apply sort_by_In. Qed.

Lemma maximum_upper (l : list Z) (m : Z) :
  maximum l = Some m -> In m l /\ forall x, In x l -> x <= m.
Proof.
  revert m. induction l as [|a l IH]; simpl; intros m H; [discriminate|].
  destruct (maximum l) as [m'|] eqn:E.
  - injection H as <-. destruct (IH m' eq_refl) as [Hin Hle]. split.
    + destruct (Z.max_spec a m') as [[_ ->]|[_ ->]]; [now right | now left].
    + intros x [<-|Hx]; [lia | specialize (Hle x Hx); lia].
  - injection H as <-. destruct l; [|simpl in E; destruct (maximum l); discriminate].
    split; [now left | intros x [<-|[]]; lia].
Qed.

Lemma head_insert_descending {A} (key : A -> Z) (x : A) (l : list A) :
  map key (limit 1 (insert_sorted (fun a b => key b <=? key a) x l)) =
  match map key (limit 1 l) with
  | [] => [key x]
  | m :: _ => [Z.max (key x) m]
  end.
Proof.
  destruct l as [|y t]; simpl; [reflexivity|].
  destruct (Z.leb_spec (key y) (key x)); simpl; f_equal; lia.
Qed.

(** [order(.., descending).limit(1)] selects the maximum. *)
Lemma head_order_by_descending {A} (key : A -> Z) (l : list A) :
  map key (limit 1 (order_by key false l)) =
  match maximum (map key l) with
  | None => []
  | Some m => [m]
  end.
Proof.
  unfold order_by, sort_by. induction l as [|a l IH]; [reflexivity|].
  cbn [fold_right map maximum]. rewrite head_insert_descending. fold (sort_by (fun a b => key b <=? key a) l).
  unfold sort_by. rewrite IH. destruct (maximum (map key l)); reflexivity.
Qed.

Lemma split_plain (sep : ascii) (s : string) :
  occurs sep s = false -> split sep s = [s].
Proof.
  induction s as [|c r IH]; simpl; intros H; [reflexivity|].
  apply orb_false_iff in H as [Hc Hr]. rewrite Hc, (IH Hr). reflexivity.
Qed.

Lemma split_suffix (sep : ascii) (a b : string) :
  occurs sep b = false ->
  exists p pre, split sep (a ^^ String sep b) = (p :: pre) ++ [b].
Proof.
  intros Hb. induction a as [|c r [p [pre IH]]]; simpl.
  - rewrite Ascii.eqb_refl, (split_plain _ _ Hb). now exists "", [].
  - rewrite IH. destruct (Ascii.eqb c sep).
    + now exists "", (p :: pre).
    + now exists (String c p), pre.
Qed.

(** [name.split('.').pop()] is what follows the last dot of [name] ... *)
Lemma pop_split_suffix (sep : ascii) (a b : string) :
  occurs sep b = false -> pop (split sep (a ^^ String sep b)) = Some b.
Proof.
  intros Hb. destruct (split_suffix sep a b Hb) as [p [pre ->]].
  simpl. now rewrite last_last.
Qed.

(** ... and the whole of [name] when it has no dot. *)
Lemma pop_split_plain (sep : ascii) (s : string) :
  occurs sep s = false -> pop (split sep s) = Some s.
Proof. intros H. now rewrite (split_plain _ _ H). Qed.

Lemma substring0_spec (n : nat) (s : string) : substring0 n s = String.substring 0 n s.
Proof.
  revert s. induction n as [|n IH]; intros [|c r]; simpl; try reflexivity.
  now rewrite IH.
Qed.

Lemma substring0_length (n : nat) (s : string) :
  String.length (substring0 n s) = Nat.min n (String.length s).
Proof.
  revert s. induction n as [|n IH]; intros [|c r]; simpl; try reflexivity.
  now rewrite IH.
Qed.

Lemma substring0_prefix (n : nat) (s : string) :
  String.prefix (substring0 n s) s = true.
Proof.
  revert s. induction n as [|n IH]; intros [|c r]; simpl; try reflexivity.
  destruct (ascii_dec c c); [apply IH | congruence].
Qed.

Lemma substring0_short (n : nat) (s : string) :
  (String.length s <= n)%nat -> substring0 n s = s.
Proof.
  revert s. induction n as [|n IH]; intros [|c r]; simpl; intros H;
    try reflexivity; try lia.
  rewrite IH; [reflexivity | lia].
Qed.

(** ** Running programs *)

Arguments Backend.getUser : simpl never.
Arguments Backend.insert_document : simpl never.
Arguments Backend.select_version_numbers : simpl never.
Arguments Backend.storage_upload : simpl never.
Arguments Backend.insert_version : simpl never.
Arguments Backend.select_documents : simpl never.
Arguments Backend.select_document : simpl never.
Arguments Backend.select_versions : simpl never.
Arguments Backend.storage_download : simpl never.
Arguments Backend.insert_comment : simpl never.
Arguments Backend.select_comments : simpl never.
Arguments Backend.insert_approval : simpl never.
Arguments Backend.update_approval : simpl never.
Arguments Backend.select_approvals : simpl never.
Arguments Backend.insert_activity : simpl never.
Arguments Backend.select_activity : simpl never.
Arguments Backend.upsert_share : simpl never.
Arguments uuidv4 : simpl never.
Arguments mem : simpl never.
Arguments opt_mem : simpl never.
Arguments Backend.version_key_taken : simpl never.
Arguments Backend.share_key_taken : simpl never.
Arguments Backend.share_fk : simpl never.
Arguments Backend.update_target : simpl never.
Arguments Backend.updated_approval : simpl never.
Arguments Backend.same_object : simpl never.
Arguments Policy.documents_select : simpl never.
Arguments Policy.visible_documents : simpl never.
Arguments Policy.own_document_ids : simpl never.
Arguments Policy.public_document_ids : simpl never.
Arguments Policy.documents_insert : simpl never.
Arguments Policy.document_versions_select : simpl never.
Arguments Policy.document_versions_insert : simpl never.
Arguments Policy.comments_select : simpl never.
Arguments Policy.comments_insert : simpl never.
Arguments Policy.approvals_select : simpl never.
Arguments Policy.approvals_insert : simpl never.
Arguments Policy.approvals_update : simpl never.
Arguments Policy.activity_logs_select : simpl never.
Arguments Policy.activity_logs_insert : simpl never.
Arguments Policy.document_shares_all : simpl never.
Arguments Policy.document_shares_select : simpl never.
Arguments Policy.objects_insert : simpl never.
Arguments Policy.objects_select : simpl never.
Arguments order_by : simpl never.
Arguments substring0 : simpl never.
Arguments filePath : simpl never.
Arguments limit : simpl never.

Lemma run_bind {A B} (jwt : option uuid) (p : Prog A) (f : A -> Prog B) (w : World) :
  run jwt (bind p f) w =
  match run jwt p w with
  | (Returned a, w') => run jwt (f a) w'
  | (Thrown m, w') => (Thrown m, w')
  end.
Proof.
  revert w. induction p as [a|m|R r k IH]; intros w; simpl; try reflexivity.
  destruct (handle jwt r w) as [x w']. apply IH.
Qed.

Lemma logActivity_run (jwt : option uuid) (d : uuid) (a : string) (x : option Details)
    (w : World) :
  run jwt (logActivity d a x) w =
  let (user, w1) := Backend.getUser jwt w in
  match user with
  | None => (Returned tt, w1)
  | Some u => (Returned tt, snd (Backend.insert_activity jwt d u a x w1))
  end.
Proof.
  unfold logActivity. cbn. destruct (Backend.getUser jwt w) as [[u|] w1]; cbn;
    [destruct (Backend.insert_activity jwt d u a x w1)|]; reflexivity.
Qed.

Lemma createDocument_run (jwt : option uuid) (t : string) (d : option string) (w : World) :
  run jwt (createDocument t d) w =
  let (user, w1) := Backend.getUser jwt w in
  match user with
  | None => (Thrown "User not authenticated", w1)
  | Some u =>
      let (r, w2) := Backend.insert_document jwt t d u w1 in
      run jwt (and_log r (fun doc => logActivity (Document.id doc) "document_created"
                                       (Some [("title", JString t)]))) w2
  end.
Proof.
  unfold createDocument. cbn. destruct (Backend.getUser jwt w) as [[u|] w1]; cbn;
    [destruct (Backend.insert_document jwt t d u w1)|]; reflexivity.
Qed.

Lemma and_log_run {A} (jwt : option uuid) (r : Response A) (g : A -> uuid) (a : string)
    (x : option Details) (w : World) :
  run jwt (and_log r (fun d => logActivity (g d) a x)) w =
  (Returned r,
   match error r, data r with
   | None, Some d => snd (run jwt (logActivity (g d) a x) w)
   | _, _ => w
   end).
Proof.
  unfold and_log. rewrite run_bind.
  destruct (error r); [reflexivity|]. destruct (data r) as [d|]; [|reflexivity].
  rewrite logActivity_run. destruct (Backend.getUser jwt w) as [[u|] w1]; reflexivity.
Qed.

Lemma uploadDocumentVersion_run (jwt : option uuid) (d : uuid) (file : File.t)
    (notes : option string) (w : World) :
  run jwt (uploadDocumentVersion d file notes) w =
  let (user, w1) := Backend.getUser jwt w in
  match user with
  | None => (Thrown "User not authenticated", w1)
  | Some u =>
      let (versions, w2) := Backend.select_version_numbers jwt d w1 in
      let (token, w3) := uuidv4 w2 in
      let (uploadError, w4) := Backend.storage_upload jwt (filePath d token file) file w3 in
      match uploadError with
      | Some e => (Returned (mkResponse None (Some e)), w4)
      | None =>
          let (r, w5) := Backend.insert_version jwt d (nextVersion (data versions))
                           (filePath d token file) (File.name file) (File.size file)
                           (File.type file) u notes w4 in
          run jwt (and_log r (fun _ => logActivity d "version_uploaded"
                     (Some [("version", JNumber (nextVersion (data versions)));
                            ("fileName", JString (File.name file))]))) w5
      end
  end.
Proof.
  unfold uploadDocumentVersion. cbn.
  destruct (Backend.getUser jwt w) as [[u|] w1]; cbn; [|reflexivity].
  destruct (Backend.select_version_numbers jwt d w1) as [versions w2]; cbn.
  destruct (uuidv4 w2) as [token w3]; cbn.
  destruct (Backend.storage_upload jwt (filePath d token file) file w3) as [[e|] w4]; cbn;
    [reflexivity|].
  destruct (Backend.insert_version _ _ _ _ _ _ _ _ _ _); reflexivity.
Qed.

Lemma addComment_run (jwt : option uuid) (d : uuid) (content : string)
    (versionId parentId : option uuid) (w : World) :
  run jwt (addComment d content versionId parentId) w =
  let (user, w1) := Backend.getUser jwt w in
  match user with
  | None => (Thrown "User not authenticated", w1)
  | Some u =>
      let (r, w2) := Backend.insert_comment jwt d versionId content u parentId w1 in
      run jwt (and_log r (fun _ => logActivity d "comment_added"
                 (Some [("content", JString (substring0 50 content))]))) w2
  end.
Proof.
  unfold addComment. cbn. destruct (Backend.getUser jwt w) as [[u|] w1]; cbn;
    [destruct (Backend.insert_comment _ _ _ _ _ _ _)|]; reflexivity.
Qed.

Lemma requestApproval_run (jwt : option uuid) (d assignedTo : uuid)
    (versionId : option uuid) (notes : option string) (w : World) :
  run jwt (requestApproval d assignedTo versionId notes) w =
  let (user, w1) := Backend.getUser jwt w in
  match user with
  | None => (Thrown "User not authenticated", w1)
  | Some u =>
      let (r, w2) := Backend.insert_approval jwt d versionId u assignedTo notes w1 in
      run jwt (and_log r (fun _ => logActivity d "approval_requested"
                 (Some [("assignedTo", JString assignedTo)]))) w2
  end.
Proof.
  unfold requestApproval. cbn. destruct (Backend.getUser jwt w) as [[u|] w1]; cbn;
    [destruct (Backend.insert_approval _ _ _ _ _ _ _)|]; reflexivity.
Qed.

Lemma updateApprovalStatus_run (jwt : option uuid) (id : uuid) (status : Status)
    (notes : option string) (w : World) :
  run jwt (updateApprovalStatus id status notes) w =
  let (r, w1) := Backend.update_approval jwt id status notes (now w) w in
  run jwt (and_log r (fun a => logActivity (Approval.document_id a) "approval_updated"
             (Some [("status", JString (Status_text status))]))) w1.
Proof.
  unfold updateApprovalStatus. cbn.
  destruct (Backend.update_approval _ _ _ _ _ _); reflexivity.
Qed.

Lemma shareDocument_run (jwt : option uuid) (d sharedWith : uuid) (p : Permission)
    (w : World) :
  run jwt (shareDocument d sharedWith p) w =
  let (user, w1) := Backend.getUser jwt w in
  match user with
  | None => (Thrown "User not authenticated", w1)
  | Some u =>
      let (r, w2) := Backend.upsert_share jwt d sharedWith p u w1 in
      run jwt (and_log r (fun _ => logActivity d "document_shared"
                 (Some [("sharedWith", JString sharedWith);
                        ("permission", JString (Permission_text p))]))) w2
  end.
Proof.
  unfold shareDocument. cbn. destruct (Backend.getUser jwt w) as [[u|] w1]; cbn;
    [destruct (Backend.upsert_share _ _ _ _ _ _)|]; reflexivity.
Qed.

(** ** What a request can change *)

Ltac crack :=
  repeat (cbn in *;
    match goal with
    | H : (_, _) = (_, _) |- _ => inversion H; subst; clear H
    | |- context [if ?b then _ else _] => destruct b eqn:?
    | |- context [match ?x with _ => _ end] => destruct x eqn:?
    | H : context [if ?b then _ else _] |- _ => destruct b eqn:?
    | H : context [match ?x with _ => _ end] |- _ => destruct x eqn:?
    end);
  cbn in *.

Ltac bools :=
  repeat match goal with
    | H : negb _ = false |- _ => apply negb_false_iff in H
    | H : negb _ = true |- _ => apply negb_true_iff in H
    | H : _ && _ = true |- _ => apply andb_true_iff in H; destruct H
    | H : _ || _ = false |- _ => apply orb_false_iff in H; destruct H
    | H : (_ =? _)%string = true |- _ => apply String.eqb_eq in H
    end.

Ltac open_backend :=
  unfold Backend.getUser, Backend.insert_document, Backend.select_version_numbers,
    Backend.storage_upload, Backend.insert_version, Backend.select_documents,
    Backend.select_document, Backend.select_versions, Backend.storage_download,
    Backend.insert_comment, Backend.select_comments, Backend.insert_approval,
    Backend.update_approval, Backend.select_approvals, Backend.insert_activity,
    Backend.select_activity, Backend.upsert_share, Backend.remote, Backend.remote_error,
    uuidv4, gen_random_uuid, transport in *.

Lemma handle_frame (jwt : option uuid) {R} (r : Request R) (t : Table) (w : World) :
  target r <> Some t -> unchanged t w (snd (handle jwt r w)).
Proof.
  intros H. destruct r; destruct t; cbn in H; try congruence; cbn [handle];
    open_backend; unfold unchanged; crack; reflexivity.
Qed.

Lemma handle_auth_users (jwt : option uuid) {R} (r : Request R) (w : World) :
  auth_users (snd (handle jwt r w)) = auth_users w.
Proof.
  destruct r; cbn [handle]; open_backend; crack; reflexivity.
Qed.

(** ** Ownership, as the policies see it *)

Lemma own_document_ids_spec (uid d : uuid) (w : World) :
  mem d (Policy.own_document_ids uid w) = true <-> owns uid d w.
Proof.
  rewrite mem_In. unfold Policy.own_document_ids, Policy.visible_documents, owns.
  rewrite in_map_iff. split.
  - intros [doc [Hid Hin]]. apply filter_In in Hin as [Hin Hown].
    apply filter_In in Hin as [Hin _]. apply String.eqb_eq in Hown. now exists doc.
  - intros [doc [Hin [Hid Hown]]]. exists doc. split; [assumption|].
    apply String.eqb_eq in Hown.
    apply filter_In. split; [|assumption]. apply filter_In. split; [assumption|].
    unfold Policy.documents_select. now rewrite Hown.
Qed.

Lemma public_document_ids_spec (uid d : uuid) (w : World) :
  mem d (Policy.public_document_ids uid w) = true <-> is_public d w.
Proof.
  rewrite mem_In. unfold Policy.public_document_ids, Policy.visible_documents, is_public.
  rewrite in_map_iff. split.
  - intros [doc [Hid Hin]]. apply filter_In in Hin as [Hin Hpub].
    apply filter_In in Hin as [Hin _]. now exists doc.
  - intros [doc [Hin [Hid Hpub]]]. exists doc. split; [assumption|].
    apply filter_In. split; [|assumption]. apply filter_In. split; [assumption|].
    unfold Policy.documents_select. rewrite Hpub. apply orb_true_r.
Qed.

Lemma owns_ext (uid d : uuid) (w w' : World) :
  documents w' = documents w -> owns uid d w' <-> owns uid d w.
Proof. intros H. unfold owns. now rewrite H. Qed.

Lemma not_owns_false (uid d : uuid) (w : World) :
  ~ owns uid d w -> mem d (Policy.own_document_ids uid w) = false.
Proof.
  intros H. destruct (mem d (Policy.own_document_ids uid w)) eqn:E; [|reflexivity].
  apply own_document_ids_spec in E. contradiction.
Qed.

(** ** The answers of the backend, request by request *)

Lemma getUser_eq (jwt : option uuid) (w : World) :
  Backend.getUser jwt w = (if hd false (faults w) then None else jwt, snd (transport w)).
Proof. reflexivity. Qed.

Lemma getUser_Some (jwt : option uuid) (w w1 : World) (u : uuid) :
  Backend.getUser jwt w = (Some u, w1) -> jwt = Some u /\ hd false (faults w) = false.
Proof.
  rewrite getUser_eq. intros H. injection H as H _.
  destruct (hd false (faults w)); [discriminate | now split].
Qed.

Lemma getUser_None (jwt : option uuid) (w w1 : World) :
  Backend.getUser jwt w = (None, w1) -> jwt = None \/ hd false (faults w) = true.
Proof.
  rewrite getUser_eq. intros H. injection H as H _.
  destruct (hd false (faults w)); [now right | now left].
Qed.

(** A version is written only for the owner of the document, with the
    fields the client sent, and never on a key that is taken. *)
Lemma insert_version_ok (jwt : option uuid) (d : uuid) (n : Z) (p f : string) (s : Z)
    (m : string) (u : uuid) (nt : option string) (w w' : World)
    (r : Response DocumentVersion.Row) (v : DocumentVersion.Row) :
  Backend.insert_version jwt d n p f s m u nt w = (r, w') ->
  data r = Some v ->
  error r = None /\ jwt = Some u /\ owns u d w
  /\ v = DocumentVersion.mk (hd "" (rand_db w)) d n p f s m u (now w + 1) nt
  /\ document_versions w' = document_versions w ++ [v]
  /\ Backend.version_key_taken d n (document_versions w) = false
  /\ hd false (faults w) = false.
Proof.
  intros H Hv. open_backend. crack; try discriminate.
  injection Hv as <-. bools.
  match goal with
  | H : Policy.document_versions_insert _ _ _ = true |- _ =>
      unfold Policy.document_versions_insert in H; cbn in H; bools
  end.
  subst. repeat split; try reflexivity; try assumption.
  match goal with
  | H : mem _ (Policy.own_document_ids _ _) = true |- _ =>
      apply own_document_ids_spec in H; exact H
  end.
Qed.

Lemma insert_version_failed (jwt : option uuid) (d : uuid) (n : Z) (p f : string) (s : Z)
    (m : string) (u : uuid) (nt : option string) (w w' : World)
    (r : Response DocumentVersion.Row) :
  Backend.insert_version jwt d n p f s m u nt w = (r, w') ->
  data r = None ->
  document_versions w' = document_versions w /\ exists e, error r = Some e.
Proof.
  intros H Hv. open_backend. crack; try discriminate; split; try reflexivity;
    unfold failed; cbn; eauto.
Qed.

Lemma frame_eq (jwt : option uuid) {R} (r : Request R) (t : Table) (w w' : World) (x : R) :
  handle jwt r w = (x, w') -> target r <> Some t -> unchanged t w w'.
Proof.
  intros H Ht. pose proof (handle_frame jwt r t w Ht) as F. now rewrite H in F.
Qed.

Lemma select_version_numbers_eq (jwt : option uuid) (d : uuid) (w : World) :
  Backend.select_version_numbers jwt d w =
  (if hd false (faults w) then failed NetworkFailure
   else ok (map DocumentVersion.version_number
              (limit 1 (order_by DocumentVersion.version_number false
                          (Backend.versions_of d (Backend.visible_versions jwt w))))),
   snd (transport w)).
Proof.
  unfold Backend.select_version_numbers, Backend.remote. cbn.
  destruct (hd false (faults w)); [reflexivity|]. destruct jwt; reflexivity.
Qed.

(** The owner of a document sees every version of it. *)
Lemma visible_versions_owner (u d : uuid) (w : World) :
  owns u d w ->
  Backend.versions_of d (Backend.visible_versions (Some u) w) =
  Backend.versions_of d (document_versions w).
Proof.
  intros H. unfold Backend.versions_of, Backend.visible_versions.
  apply filter_filter_absorb. intros v _ Hv. apply String.eqb_eq in Hv.
  unfold Policy.document_versions_select. rewrite Hv.
  apply own_document_ids_spec in H. now rewrite H.
Qed.

Lemma storage_upload_cases (u : uuid) (p : string) (file : File.t) (w : World) :
  fst (Backend.storage_upload (Some u) p file w) =
  if hd false (faults w) then Some NetworkFailure
  else if existsb (Backend.same_object "documents" p) (objects w)
       then Some ObjectAlreadyExists else None.
Proof.
  open_backend. unfold Policy.objects_insert. crack; reflexivity.
Qed.

Lemma logActivity_frame (jwt : option uuid) (d : uuid) (a : string) (x : option Details)
    (t : Table) (w : World) :
  t <> T_activity_logs -> unchanged t w (snd (run jwt (logActivity d a x) w)).
Proof.
  intros Ht. rewrite logActivity_run.
  destruct (Backend.getUser jwt w) as [user w1] eqn:E1.
  pose proof (frame_eq jwt AuthGetUser t _ _ _ E1 ltac:(discriminate)) as F1.
  destruct user as [u|]; cbn [snd]; [|exact F1].
  pose proof (handle_frame jwt (InsertActivity d u a x) t w1) as F2. cbn [handle] in F2.
  destruct t; cbn in *; try congruence; rewrite F2; congruence.
Qed.

(** * The claims *)

(** ** C8: a failed storage upload *)

(** C8.  When the storage-upload step of [uploadDocumentVersion] answers with
    an error [e] (the steps before it having gone through), the call returns
    [{ data: null, error: e }], and neither the version ledger nor the
    activity log has changed. *)
Theorem upload_error_branch (jwt : option uuid) (d : uuid) (file : File.t)
    (notes : option string) (w w1 w2 w3 w4 : World) (u token : uuid)
    (versions : Response (list Z)) (e : BackendError) :
  Backend.getUser jwt w = (Some u, w1) ->
  Backend.select_version_numbers jwt d w1 = (versions, w2) ->
  uuidv4 w2 = (token, w3) ->
  Backend.storage_upload jwt (filePath d token file) file w3 = (Some e, w4) ->
  run jwt (uploadDocumentVersion d file notes) w
    = (Returned (mkResponse None (Some e)), w4)
  /\ document_versions w4 = document_versions w
  /\ activity_logs w4 = activity_logs w.
Proof.
  intros E1 E2 E3 E4. rewrite uploadDocumentVersion_run, E1, E2, E3, E4.
  split; [reflexivity|].
  pose proof (frame_eq jwt AuthGetUser T_document_versions _ _ _ E1 ltac:(discriminate)).
  pose proof (frame_eq jwt (SelectVersionNumbers d) T_document_versions _ _ _ E2
                ltac:(discriminate)).
  pose proof (frame_eq jwt Uuidv4 T_document_versions _ _ _ E3 ltac:(discriminate)).
  pose proof (frame_eq jwt (StorageUpload _ file) T_document_versions _ _ _ E4
                ltac:(discriminate)).
  pose proof (frame_eq jwt AuthGetUser T_activity_logs _ _ _ E1 ltac:(discriminate)).
  pose proof (frame_eq jwt (SelectVersionNumbers d) T_activity_logs _ _ _ E2
                ltac:(discriminate)).
  pose proof (frame_eq jwt Uuidv4 T_activity_logs _ _ _ E3 ltac:(discriminate)).
  pose proof (frame_eq jwt (StorageUpload _ file) T_activity_logs _ _ _ E4
                ltac:(discriminate)).
  cbn in *. split; congruence.
Qed.

(** The storage request of Alice's upload is lost on the way. *)
Lemma upload_error_branch_witness :
  let w := set_faults [false; false; true] world_with_document in
  fst (run (Some alice) (uploadDocumentVersion "id1" spec_pdf None) w)
    = Returned (mkResponse None (Some NetworkFailure))
  /\ document_versions (snd (run (Some alice) (uploadDocumentVersion "id1" spec_pdf None) w))
     = document_versions w
  /\ activity_logs (snd (run (Some alice) (uploadDocumentVersion "id1" spec_pdf None) w))
     = activity_logs w.
Proof.
  intros w.
  destruct (upload_error_branch (Some alice) "id1" spec_pdf None w
              (snd (Backend.getUser (Some alice) w))
              (snd (Backend.select_version_numbers (Some alice) "id1"
                      (snd (Backend.getUser (Some alice) w))))
              (snd (uuidv4 (snd (Backend.select_version_numbers (Some alice) "id1"
                      (snd (Backend.getUser (Some alice) w))))))
              (snd (Backend.storage_upload (Some alice) "id1/t1.pdf" spec_pdf
                 (snd (uuidv4 (snd (Backend.select_version_numbers (Some alice) "id1"
                      (snd (Backend.getUser (Some alice) w))))))))
              alice "t1" (ok []) NetworkFailure
              eq_refl eq_refl eq_refl eq_refl) as [H1 [H2 H3]].
  rewrite H1. repeat split; assumption.
Defined.

(** ** C3: who may upload a version *)

Lemma handle_faults (jwt : option uuid) {R} (r : Request R) (w : World) :
  faults (snd (handle jwt r w)) = if local r then faults w else tl (faults w).
Proof.
  destruct r; cbn [handle local]; open_backend; crack; reflexivity.
Qed.

Lemma handle_rand_client (jwt : option uuid) {R} (r : Request R) (w : World) :
  rand_client (snd (handle jwt r w)) =
  match r with
  | Uuidv4 => tl (rand_client w)
  | _ => rand_client w
  end.
Proof.
  destruct r; cbn [handle]; open_backend; crack; reflexivity.
Qed.

Lemma insert_version_denied (u d : uuid) (n : Z) (p f : string) (s : Z)
    (m : string) (u' : uuid) (nt : option string) (w : World) :
  ~ owns u d w ->
  fst (Backend.insert_version (Some u) d n p f s m u' nt w) =
  if hd false (faults w) then failed NetworkFailure else failed RowLevelSecurity.
Proof.
  intros H. apply not_owns_false in H.
  open_backend. unfold Policy.document_versions_insert. cbn.
  destruct (hd false (faults w)); [reflexivity|]. cbn.
  change (Policy.own_document_ids u _) with (Policy.own_document_ids u w).
  rewrite H. reflexivity.
Qed.

(** C3.  A call of [uploadDocumentVersion] on document [d] by identity [u]
    succeeds only if [u] is the owner of [d] or holds an edit share on it
    (in fact only if [u] is the owner).  For any other identity no version
    row is written and the call fails: with the row-level-security
    (Forbidden) error of the insert, unless it already failed before the
    insert was decided (user lookup or a request lost, storage object
    already there). *)
Theorem upload_requires_owner_or_edit_share (u d : uuid) (file : File.t)
    (notes : option string) (w : World) :
  (forall r v, fst (run (Some u) (uploadDocumentVersion d file notes) w) = Returned r ->
               data r = Some v ->
               (owns u d w \/ holds_edit_share u d w) /\ owns u d w)
  /\ (~ (owns u d w \/ holds_edit_share u d w) ->
      document_versions (snd (run (Some u) (uploadDocumentVersion d file notes) w))
        = document_versions w
      /\ (fst (run (Some u) (uploadDocumentVersion d file notes) w)
            = Thrown "User not authenticated"
          \/ exists e, fst (run (Some u) (uploadDocumentVersion d file notes) w)
                         = Returned (failed e)
                       /\ (e = RowLevelSecurity \/ e = NetworkFailure
                           \/ e = ObjectAlreadyExists))
      /\ (faults w = [] ->
          existsb (Backend.same_object "documents"
                     (filePath d (hd "" (rand_client w)) file)) (objects w) = false ->
          fst (run (Some u) (uploadDocumentVersion d file notes) w)
            = Returned (failed RowLevelSecurity))).
Proof.
  rewrite uploadDocumentVersion_run.
  destruct (Backend.getUser (Some u) w) as [user w1] eqn:E1.
  destruct user as [u0|].
  2:{ pose proof (frame_eq _ AuthGetUser T_document_versions _ _ _ E1 ltac:(discriminate)) as F.
      apply getUser_None in E1 as [E1|E1]; [discriminate|].
      split; [intros r v Hr; discriminate|]. intros _. cbn [fst snd].
      split; [exact F|]. split; [now left|]. intros Hf. rewrite Hf in E1. discriminate. }
  destruct (getUser_Some _ _ _ _ E1) as [Hu Hf1]. injection Hu as <-.
  destruct (Backend.select_version_numbers (Some u) d w1) as [versions w2] eqn:E2.
  destruct (uuidv4 w2) as [token w3] eqn:E3.
  destruct (Backend.storage_upload (Some u) (filePath d token file) file w3)
    as [uploadError w4] eqn:E4.
  pose proof (frame_eq _ AuthGetUser T_document_versions _ _ _ E1 ltac:(discriminate)) as V1.
  pose proof (frame_eq _ (SelectVersionNumbers d) T_document_versions _ _ _ E2
                ltac:(discriminate)) as V2.
  pose proof (frame_eq (Some u) Uuidv4 T_document_versions _ _ _ E3 ltac:(discriminate)) as V3.
  pose proof (frame_eq _ (StorageUpload _ file) T_document_versions _ _ _ E4
                ltac:(discriminate)) as V4.
  pose proof (frame_eq _ AuthGetUser T_documents _ _ _ E1 ltac:(discriminate)) as D1.
  pose proof (frame_eq _ (SelectVersionNumbers d) T_documents _ _ _ E2
                ltac:(discriminate)) as D2.
  pose proof (frame_eq (Some u) Uuidv4 T_documents _ _ _ E3 ltac:(discriminate)) as D3.
  pose proof (frame_eq _ (StorageUpload _ file) T_documents _ _ _ E4
                ltac:(discriminate)) as D4.
  pose proof (frame_eq _ AuthGetUser T_objects _ _ _ E1 ltac:(discriminate)) as O1.
  pose proof (frame_eq _ (SelectVersionNumbers d) T_objects _ _ _ E2
                ltac:(discriminate)) as O2.
  pose proof (frame_eq (Some u) Uuidv4 T_objects _ _ _ E3 ltac:(discriminate)) as O3.
  pose proof (handle_faults (Some u) AuthGetUser w) as Z1.
  pose proof (handle_faults (Some u) (SelectVersionNumbers d) w1) as Z2.
  pose proof (handle_faults (Some u) Uuidv4 w2) as Z3.
  pose proof (handle_faults (Some u) (StorageUpload (filePath d token file) file) w3) as Z4.
  pose proof (handle_rand_client (Some u) AuthGetUser w) as R1.
  pose proof (handle_rand_client (Some u) (SelectVersionNumbers d) w1) as R2.
  cbn [handle local] in Z1, Z2, Z3, Z4, R1, R2.
  rewrite E1 in Z1, R1. rewrite E2 in Z2, R2. rewrite E3 in Z3. rewrite E4 in Z4.
  assert (Htoken : token = hd "" (rand_client w)).
  { unfold uuidv4 in E3. injection E3 as <- _. cbn in R1, R2. congruence. }
  cbn in V1, V2, V3, V4, D1, D2, D3, D4, O1, O2, O3, Z1, Z2, Z3, Z4.
  assert (Hdocs : documents w4 = documents w) by congruence.
  pose proof (storage_upload_cases u (filePath d token file) file w3) as C4.
  rewrite E4 in C4. cbn [fst] in C4.
  destruct uploadError as [e|].
  - split; [intros r v Hr Hv; injection Hr as <-; discriminate|].
    intros _. cbn [fst snd]. split; [congruence|]. split.
    + right. exists e. split; [reflexivity|].
      destruct (hd false (faults w3)); [injection C4 as <-; tauto|].
      destruct (existsb _ (objects w3)); [injection C4 as <-; tauto | discriminate].
    + intros Hf Hobj. exfalso.
      replace (faults w3) with (@nil bool) in C4 by (rewrite Z3, Z2, Z1, Hf; reflexivity).
      replace (objects w3) with (objects w) in C4 by congruence.
      rewrite Htoken in C4. cbn [hd] in C4. rewrite Hobj in C4. discriminate.
  - destruct (Backend.insert_version (Some u) d (nextVersion (data versions))
                (filePath d token file) (File.name file) (File.size file)
                (File.type file) u notes w4) as [r w5] eqn:E5.
    rewrite and_log_run. cbn [fst snd]. split.
    + intros r0 v Hr Hv. injection Hr as <-.
      destruct (insert_version_ok _ _ _ _ _ _ _ _ _ _ _ _ _ E5 Hv) as (_ & _ & Hown & _).
      split; [left|]; exact (proj1 (owns_ext u d w w4 Hdocs) Hown).
    + intros Hno.
      assert (Hnown : ~ owns u d w4).
      { intros Hown. apply Hno. left. exact (proj1 (owns_ext u d w w4 Hdocs) Hown). }
      pose proof (insert_version_denied u d (nextVersion (data versions))
                    (filePath d token file) (File.name file) (File.size file)
                    (File.type file) u notes w4 Hnown) as Hden.
      rewrite E5 in Hden. cbn [fst] in Hden.
      assert (Hdata : data r = None) by (rewrite Hden; destruct (hd false (faults w4)); reflexivity).
      destruct (insert_version_failed _ _ _ _ _ _ _ _ _ _ _ _ E5 Hdata) as [V5 _].
      rewrite Hdata. replace (match error r with Some _ | _ => w5 end) with w5
        by (destruct (error r); reflexivity).
      split; [congruence|]. split.
      * right. destruct (hd false (faults w4)); subst r; eauto.
      * intros Hf _. rewrite Hden.
        replace (faults w4) with (@nil bool) by (rewrite Z4, Z3, Z2, Z1, Hf; reflexivity).
        reflexivity.
Qed.

Lemma bob_is_a_stranger :
  ~ (owns bob "id1" world_with_document \/ holds_edit_share bob "id1" world_with_document).
Proof.
  intros [[doc [Hin [_ Hc]]] | [s [Hin _]]]; vm_compute in Hin.
  - destruct Hin as [<-|[]]. discriminate.
  - destruct Hin.
Qed.

(** Alice owns ["id1"] and uploads; Bob, a stranger, is refused. *)
Lemma upload_requires_owner_or_edit_share_witness :
  (owns alice "id1" world_with_document \/ holds_edit_share alice "id1" world_with_document)
  /\ document_versions
       (snd (run (Some bob) (uploadDocumentVersion "id1" spec_pdf None) world_with_document))
     = document_versions world_with_document
  /\ fst (run (Some bob) (uploadDocumentVersion "id1" spec_pdf None) world_with_document)
     = Returned (failed RowLevelSecurity).
Proof.
  destruct (upload_requires_owner_or_edit_share alice "id1" spec_pdf None world_with_document)
    as [Ha _].
  destruct (upload_requires_owner_or_edit_share bob "id1" spec_pdf None world_with_document)
    as [_ Hb].
  destruct (Hb bob_is_a_stranger) as [Hv [_ Hf]].
  split; [|split].
  - eapply proj1, Ha; vm_compute; reflexivity.
  - exact Hv.
  - apply Hf; reflexivity.
Defined.

(** ** C1: version numbers *)

Lemma hd_tl_nth (l : list bool) : hd false (tl l) = nth 1 l false.
Proof. destruct l as [|a [|b l]]; reflexivity. Qed.

Lemma nextVersion_expected (d : uuid) (w : World) :
  nextVersion
    (Some (map DocumentVersion.version_number
             (limit 1 (order_by DocumentVersion.version_number false
                         (Backend.versions_of d (document_versions w))))))
  = expected_version_number d w.
Proof.
  rewrite head_order_by_descending. unfold expected_version_number.
  destruct (maximum _); unfold nextVersion; lia.
Qed.

(** The number a successful upload gives to its version, when the query for
    the current maximum was answered. *)
Lemma upload_version_number (jwt : option uuid) (d : uuid) (file : File.t)
    (notes : option string) (w : World) (r : Response DocumentVersion.Row)
    (v : DocumentVersion.Row) :
  fst (run jwt (uploadDocumentVersion d file notes) w) = Returned r ->
  data r = Some v ->
  nth 1 (faults w) false = false ->
  DocumentVersion.document_id v = d
  /\ DocumentVersion.version_number v = expected_version_number d w.
Proof.
  rewrite uploadDocumentVersion_run.
  destruct (Backend.getUser jwt w) as [[u|] w1] eqn:E1; [|discriminate].
  destruct (getUser_Some _ _ _ _ E1) as [-> _].
  destruct (Backend.select_version_numbers (Some u) d w1) as [versions w2] eqn:E2.
  destruct (uuidv4 w2) as [token w3] eqn:E3.
  destruct (Backend.storage_upload (Some u) (filePath d token file) file w3)
    as [[e|] w4] eqn:E4.
  { cbn. intros H Hv. injection H as <-. discriminate. }
  destruct (Backend.insert_version (Some u) d (nextVersion (data versions))
              (filePath d token file) (File.name file) (File.size file)
              (File.type file) u notes w4) as [r' w5] eqn:E5.
  rewrite and_log_run. cbn [fst]. intros H Hv Hq. injection H as ->.
  destruct (insert_version_ok _ _ _ _ _ _ _ _ _ _ _ _ _ E5 Hv) as (_ & _ & Hown & -> & _).
  cbn. split; [reflexivity|].
  pose proof (frame_eq _ AuthGetUser T_document_versions _ _ _ E1 ltac:(discriminate)) as V1.
  pose proof (frame_eq _ AuthGetUser T_documents _ _ _ E1 ltac:(discriminate)) as D1.
  pose proof (frame_eq _ (SelectVersionNumbers d) T_documents _ _ _ E2
                ltac:(discriminate)) as D2.
  pose proof (frame_eq (Some u) Uuidv4 T_documents _ _ _ E3 ltac:(discriminate)) as D3.
  pose proof (frame_eq _ (StorageUpload _ file) T_documents _ _ _ E4
                ltac:(discriminate)) as D4.
  pose proof (handle_faults (Some u) AuthGetUser w) as Z1.
  cbn [handle local] in Z1. rewrite E1 in Z1. cbn in V1, D1, D2, D3, D4, Z1.
  assert (Hown1 : owns u d w1).
  { apply (proj1 (owns_ext u d w1 w4 ltac:(congruence)) Hown). }
  rewrite select_version_numbers_eq in E2. injection E2 as <- _.
  rewrite Z1, hd_tl_nth, Hq. cbn [data ok].
  pose proof (visible_versions_owner u d w1 Hown1) as Hvis.
  unfold Backend.visible_versions in Hvis. rewrite Hvis.
  unfold expected_version_number. rewrite <- V1. apply nextVersion_expected.
Qed.

Lemma versions_unique_pairwise (w : World) :
  versions_unique w <->
  forall i j v1 v2,
    nth_error (document_versions w) i = Some v1 ->
    nth_error (document_versions w) j = Some v2 ->
    i <> j ->
    DocumentVersion.document_id v1 = DocumentVersion.document_id v2 ->
    DocumentVersion.version_number v1 <> DocumentVersion.version_number v2.
Proof.
  unfold versions_unique. rewrite NoDup_nth_error. split.
  - intros H i j v1 v2 H1 H2 Hij Hd Hn. apply Hij. apply H.
    + rewrite length_map. apply nth_error_Some. congruence.
    + rewrite !nth_error_map, H1, H2. cbn. unfold version_key. congruence.
  - intros H i j Hi Hij. rewrite !nth_error_map in Hij.
    rewrite length_map in Hi. apply nth_error_Some in Hi.
    destruct (nth_error (document_versions w) i) as [v1|] eqn:E1; [|congruence].
    destruct (nth_error (document_versions w) j) as [v2|] eqn:E2; [|discriminate].
    cbn in Hij. injection Hij as Hd Hn.
    destruct (Nat.eq_dec i j) as [|Hne]; [assumption|].
    exfalso. exact (H i j v1 v2 E1 E2 Hne Hd Hn).
Qed.

Lemma version_key_free (d : uuid) (n : Z) (l : list DocumentVersion.Row) :
  Backend.version_key_taken d n l = false -> ~ In (d, n) (map version_key l).
Proof.
  unfold Backend.version_key_taken. intros H Hin.
  apply in_map_iff in Hin as [v [Hk Hv]]. unfold version_key in Hk. injection Hk as Hd Hn.
  assert (E : existsb (fun v => (DocumentVersion.document_id v =? d)%string
                                && (DocumentVersion.version_number v =? n))%bool l = true).
  { apply existsb_exists. exists v. split; [assumption|].
    rewrite Hd, Hn, String.eqb_refl, Z.eqb_refl. reflexivity. }
  congruence.
Qed.

Lemma handle_ledger_step (jwt : option uuid) {R} (r : Request R) (w : World) :
  ledger_step w (snd (handle jwt r w)).
Proof.
  destruct (target r) as [t|] eqn:Et.
  2:{ left. apply (handle_frame jwt r T_document_versions). congruence. }
  destruct t; try (left; apply (handle_frame jwt r T_document_versions); congruence).
  destruct r; try discriminate. cbn [handle].
  destruct (Backend.insert_version jwt document_id version_number file_path file_name
              file_size mime_type uploaded_by notes w) as [x w'] eqn:E.
  cbn [snd]. destruct (data x) as [v|] eqn:Ev.
  - destruct (insert_version_ok _ _ _ _ _ _ _ _ _ _ _ _ _ E Ev) as (_ & _ & _ & Hv & Hl & Hk & _).
    right. exists v. split; [assumption|]. apply version_key_free in Hk.
    subst v. exact Hk.
  - left. apply (insert_version_failed _ _ _ _ _ _ _ _ _ _ _ _ E Ev).
Qed.

Lemma ledger_step_unique (w w' : World) :
  ledger_step w w' -> versions_unique w -> versions_unique w'.
Proof.
  unfold versions_unique. intros [->|[v [-> Hv]]] H; [assumption|].
  rewrite map_app. cbn. apply NoDup_app; [assumption | repeat constructor; intros [] | ].
  intros k Hk [<-|[]]. contradiction.
Qed.

Lemma run_versions_unique {A} (jwt : option uuid) (p : Prog A) (w : World) :
  versions_unique w -> versions_unique (snd (run jwt p w)).
Proof.
  revert w. induction p as [a|m|R r k IH]; intros w H; cbn; try assumption.
  pose proof (handle_ledger_step jwt r w) as S.
  destruct (handle jwt r w) as [x w1]. apply IH. exact (ledger_step_unique _ _ S H).
Qed.

Lemma step_versions_unique {A} (jwt : option uuid) (p : Prog A) (w : World) :
  versions_unique w -> versions_unique (snd (step jwt p w)).
Proof.
  destruct p as [a|m|R r k]; intros H; cbn; try assumption.
  pose proof (handle_ledger_step jwt r w) as S.
  destruct (handle jwt r w) as [x w1]. exact (ledger_step_unique _ _ S H).
Qed.

Lemma interleave_versions_unique {A B} (schedule : list bool) (jwt1 jwt2 : option uuid)
    (p1 : Prog A) (p2 : Prog B) (w : World) :
  versions_unique w -> versions_unique (snd (interleave schedule jwt1 jwt2 p1 p2 w)).
Proof.
  revert p1 p2 w. induction schedule as [|[|] rest IH]; intros p1 p2 w H; cbn.
  - pose proof (run_versions_unique jwt1 p1 w H) as H1.
    destruct (run jwt1 p1 w) as [o1 w1]. cbn in H1.
    pose proof (run_versions_unique jwt2 p2 w1 H1) as H2.
    destruct (run jwt2 p2 w1) as [o2 w2]. exact H2.
  - pose proof (step_versions_unique jwt1 p1 w H) as H1.
    destruct (step jwt1 p1 w) as [p1' w1]. apply IH. exact H1.
  - pose proof (step_versions_unique jwt2 p2 w H) as H1.
    destruct (step jwt2 p2 w) as [p2' w1]. apply IH. exact H1.
Qed.

(** *** Uploads in flight at the same time *)

Lemma uploadDocumentVersion_tracks (d : uuid) (file : File.t) (notes : option string) :
  Tracks (uploadDocumentVersion d file notes) None.
Proof.
  unfold uploadDocumentVersion, and_log, logActivity. cbn.
  intros [u|]; cbn; [|exact I]. intros versions token [e|]; cbn.
  - intros v Hv. discriminate.
  - split; [reflexivity|]. intros r.
    destruct (error r); cbn; [intros v Hv; exact Hv|].
    destruct (data r) as [v0|] eqn:Ed; cbn; [|intros v Hv; congruence].
    intros [u'|]; cbn; intros; congruence.
Qed.

Lemma ledger_step_incl (w w' : World) :
  ledger_step w w' -> incl (document_versions w) (document_versions w').
Proof.
  intros [->|[v [-> _]]]; [apply incl_refl | apply incl_appl, incl_refl].
Qed.

Lemma advances_refl (c : option DocumentVersion.Row) (w : World) : advances c c w w.
Proof. split; [apply incl_refl | now left]. Qed.

Lemma advances_trans (c c' c'' : option DocumentVersion.Row) (w w' w'' : World) :
  advances c c' w w' -> advances c' c'' w' w'' -> advances c c'' w w''.
Proof.
  intros [I1 H1] [I2 H2]. split; [eapply incl_tran; eassumption|].
  destruct H1 as [->|[-> [v [-> [Hin Hk]]]]].
  - destruct H2 as [->|[-> [v [-> [Hin Hk]]]]]; [now left|].
    right. split; [reflexivity|]. exists v. repeat split; try assumption.
    intros Hk'. apply Hk. revert Hk'. apply incl_map. exact I1.
  - destruct H2 as [->|[Hc _]]; [|discriminate].
    right. split; [reflexivity|]. exists v. repeat split; try assumption.
    apply I2. exact Hin.
Qed.

Lemma step_tracks (jwt : option uuid) (p : Prog (Response DocumentVersion.Row))
    (c : option DocumentVersion.Row) (w : World) :
  Tracks p c ->
  exists c', Tracks (fst (step jwt p w)) c' /\ advances c c' w (snd (step jwt p w)).
Proof.
  intros T. destruct p as [r|m|R r k].
  - exists c. split; [exact T | apply advances_refl].
  - exists c. split; [exact I | apply advances_refl].
  - cbn [step]. pose proof (handle_ledger_step jwt r w) as S.
    destruct r; cbn [Tracks] in T;
      try (destruct (handle jwt _ w) as [x w1] eqn:E; cbn [fst snd] in *;
           exists c; split; [apply T|];
           split; [exact (ledger_step_incl _ _ S) | now left]).
    destruct T as [-> T]. cbn [handle] in *.
    destruct (Backend.insert_version jwt document_id version_number file_path file_name
                file_size mime_type uploaded_by notes w) as [x w1] eqn:E.
    cbn [fst snd] in *. exists (data x). split; [apply T|].
    split; [exact (ledger_step_incl _ _ S)|].
    destruct (data x) as [v|] eqn:Ev; [|now left].
    right. split; [reflexivity|]. exists v. split; [reflexivity|].
    destruct (insert_version_ok _ _ _ _ _ _ _ _ _ _ _ _ _ E Ev) as (_ & _ & _ & Hv & Hl & Hk & _).
    split; [rewrite Hl; apply in_or_app; right; now left|].
    apply version_key_free in Hk. subst v. exact Hk.
Qed.

Lemma run_step {A} (jwt : option uuid) (p : Prog A) (w : World) :
  run jwt p w = run jwt (fst (step jwt p w)) (snd (step jwt p w)).
Proof.
  destruct p as [a|m|R r k]; cbn; try reflexivity.
  destruct (handle jwt r w); reflexivity.
Qed.

Lemma run_tracks (jwt : option uuid) (p : Prog (Response DocumentVersion.Row))
    (c : option DocumentVersion.Row) (w : World) :
  Tracks p c ->
  exists c', advances c c' w (snd (run jwt p w))
             /\ forall r v, fst (run jwt p w) = Returned r -> data r = Some v -> c' = Some v.
Proof.
  revert c w. induction p as [r|m|R r k IH]; intros c w T.
  - exists c. split; [apply advances_refl|]. cbn. intros r0 v Hr Hv. injection Hr as <-.
    exact (T v Hv).
  - exists c. split; [apply advances_refl|]. cbn. intros r0 v Hr. discriminate.
  - destruct (step_tracks jwt (Await r k) c w T) as [c1 [T1 A1]].
    rewrite (run_step jwt (Await r k) w). cbn [step] in *.
    destruct (handle jwt r w) as [x w1]. cbn [fst snd] in *.
    destruct (IH x c1 w1 T1) as [c2 [A2 H2]].
    exists c2. split; [exact (advances_trans _ _ _ _ _ _ A1 A2) | exact H2].
Qed.

Lemma apart_sym (c1 c2 : option DocumentVersion.Row) (w : World) :
  apart c1 c2 w -> apart c2 c1 w.
Proof.
  intros (H1 & H2 & H3). repeat split; try assumption.
  intros v1 v2 E1 E2 E. exact (H3 v2 v1 E2 E1 (eq_sym E)).
Qed.

Lemma apart_advances (c1 c1' c2 : option DocumentVersion.Row) (w w' : World) :
  apart c1 c2 w -> advances c1 c1' w w' -> apart c1' c2 w'.
Proof.
  intros (H1 & H2 & H3) [I [->|[-> [v [-> [Hin Hk]]]]]].
  - repeat split; try assumption; intros; apply I; auto.
  - repeat split.
    + intros v' E. injection E as <-. exact Hin.
    + intros v' E. apply I. auto.
    + intros v1 v2 E1 E2 E. injection E1 as <-. apply Hk. rewrite E.
      apply in_map. auto.
Qed.

Lemma interleave_tracks (schedule : list bool) (jwt1 jwt2 : option uuid)
    (p1 p2 : Prog (Response DocumentVersion.Row)) (c1 c2 : option DocumentVersion.Row)
    (w : World) (r1 r2 : Response DocumentVersion.Row) (v1 v2 : DocumentVersion.Row) :
  Tracks p1 c1 -> Tracks p2 c2 -> apart c1 c2 w ->
  fst (interleave schedule jwt1 jwt2 p1 p2 w) = (Returned r1, Returned r2) ->
  data r1 = Some v1 -> data r2 = Some v2 ->
  version_key v1 <> version_key v2.
Proof.
  revert p1 p2 c1 c2 w. induction schedule as [|[|] rest IH]; intros p1 p2 c1 c2 w T1 T2 Ap.
  - cbn [interleave].
    destruct (run_tracks jwt1 p1 c1 w T1) as [c1' [A1 H1]].
    destruct (run jwt1 p1 w) as [o1 w1]. cbn [fst snd] in *.
    destruct (run_tracks jwt2 p2 c2 w1 T2) as [c2' [A2 H2]].
    destruct (run jwt2 p2 w1) as [o2 w2]. cbn [fst snd] in *.
    intros E Hv1 Hv2. injection E as -> ->.
    pose proof (apart_advances _ _ _ _ _ Ap A1) as Ap1.
    pose proof (apart_sym _ _ _ (apart_advances _ _ _ _ _ (apart_sym _ _ _ Ap1) A2)) as Ap2.
    destruct Ap2 as (_ & _ & Hd). apply Hd; eauto.
  - cbn [interleave]. destruct (step_tracks jwt1 p1 c1 w T1) as [c1' [T1' A1]].
    destruct (step jwt1 p1 w) as [p1' w']. cbn [fst snd] in *.
    apply (IH p1' p2 c1' c2 w' T1' T2). exact (apart_advances _ _ _ _ _ Ap A1).
  - cbn [interleave]. destruct (step_tracks jwt2 p2 c2 w T2) as [c2' [T2' A2]].
    destruct (step jwt2 p2 w) as [p2' w']. cbn [fst snd] in *.
    apply (IH p1 p2' c1 c2' w' T1 T2').
    exact (apart_sym _ _ _ (apart_advances _ _ _ _ _ (apart_sym _ _ _ Ap) A2)).
Qed.

(** The insert of a version whose (document, number) is already in the
    table: nothing is written; the error is the unique violation as soon
    as the request arrives and comes from the owner. *)
Lemma insert_version_conflict (jwt : option uuid) (d : uuid) (n : Z) (p f : string) (s : Z)
    (m : string) (u : uuid) (nt : option string) (w : World) :
  Backend.version_key_taken d n (document_versions w) = true ->
  document_versions (snd (Backend.insert_version jwt d n p f s m u nt w))
    = document_versions w
  /\ (exists e, fst (Backend.insert_version jwt d n p f s m u nt w) = failed e
                /\ (e = UniqueViolation \/ e = RowLevelSecurity \/ e = NetworkFailure))
  /\ (hd false (faults w) = false -> jwt = Some u -> owns u d w ->
      fst (Backend.insert_version jwt d n p f s m u nt w) = failed UniqueViolation).
Proof.
  intros Hk. open_backend. cbn.
  destruct (hd false (faults w)) eqn:Hf; cbn.
  { split; [reflexivity|]. split; [eauto|]. discriminate. }
  destruct jwt as [uid|]; cbn.
  2:{ split; [reflexivity|]. split; [eauto|]. discriminate. }
  match goal with
  | |- context [negb ?b] => destruct b eqn:Hp
  end; cbn.
  - rewrite Hk, orb_true_r. cbn. split; [reflexivity|]. split; eauto.
  - split; [reflexivity|]. split; [eauto|]. intros _ Hu Hown. exfalso.
    injection Hu as ->. apply own_document_ids_spec in Hown.
    unfold Policy.document_versions_insert, Policy.document_versions_select in Hp.
    cbn in Hp.
    change (Policy.own_document_ids u _) with (Policy.own_document_ids u w) in Hp.
    rewrite Hown, String.eqb_refl in Hp. discriminate.
Qed.

(** *** A ledger without gaps

    The state the application itself keeps the ledger in: numbers start
    at 1 and every number above 1 has its predecessor. *)

Lemma version_key_taken_iff (d : uuid) (n : Z) (l : list DocumentVersion.Row) :
  Backend.version_key_taken d n l = true <->
  exists v, In v l /\ DocumentVersion.document_id v = d
            /\ DocumentVersion.version_number v = n.
Proof.
  unfold Backend.version_key_taken. rewrite existsb_exists. split.
  - intros [v [Hin H]]. apply andb_true_iff in H as [Hd Hn].
    apply String.eqb_eq in Hd. apply Z.eqb_eq in Hn. now exists v.
  - intros [v [Hin [Hd Hn]]]. exists v. split; [assumption|].
    now rewrite Hd, Hn, String.eqb_refl, Z.eqb_refl.
Qed.

Lemma dense_has_first (w : World) (k : nat) :
  ledger_dense w ->
  forall v, In v (document_versions w) ->
    DocumentVersion.version_number v = 1 + Z.of_nat k ->
    Backend.version_key_taken (DocumentVersion.document_id v) 1 (document_versions w) = true.
Proof.
  intros Hd. induction k as [|k IH]; intros v Hin Hn.
  - apply version_key_taken_iff. exists v. repeat split; [assumption | lia].
  - destruct (Hd v Hin) as [_ Hp].
    apply version_key_taken_iff in Hp as [v' [Hin' [Hd' Hn']]]; [|lia].
    rewrite <- Hd'. apply IH; [assumption | lia].
Qed.

Lemma dense_first_free (w : World) (d : uuid) :
  ledger_dense w ->
  Backend.version_key_taken d 1 (document_versions w) = false ->
  Backend.versions_of d (document_versions w) = [].
Proof.
  intros Hd Hk. destruct (Backend.versions_of d (document_versions w)) as [|v l] eqn:E;
    [reflexivity|]. exfalso.
  assert (Hin : In v (Backend.versions_of d (document_versions w))) by (rewrite E; now left).
  apply filter_In in Hin as [Hin Hv]. apply String.eqb_eq in Hv.
  destruct (Hd v Hin) as [Hge _].
  pose proof (dense_has_first w (Z.to_nat (DocumentVersion.version_number v - 1)) Hd v Hin
                ltac:(lia)) as H.
  rewrite Hv in H. congruence.
Qed.

Lemma expected_version_number_dense (w : World) (d : uuid) :
  ledger_dense w ->
  1 <= expected_version_number d w
  /\ (1 < expected_version_number d w ->
      Backend.version_key_taken d (expected_version_number d w - 1) (document_versions w)
      = true).
Proof.
  intros Hd. unfold expected_version_number.
  destruct (maximum _) as [m|] eqn:E; [|split; lia].
  apply maximum_upper in E as [Hin _]. apply in_map_iff in Hin as [v [Hn Hin]].
  apply filter_In in Hin as [Hin Hv]. apply String.eqb_eq in Hv.
  destruct (Hd v Hin) as [Hge _]. split; [lia|]. intros _.
  apply version_key_taken_iff. exists v. repeat split; [assumption | assumption | lia].
Qed.

Lemma version_key_taken_app (d : uuid) (n : Z) (l l' : list DocumentVersion.Row) :
  Backend.version_key_taken d n l = true -> Backend.version_key_taken d n (l ++ l') = true.
Proof.
  unfold Backend.version_key_taken. rewrite existsb_app. intros ->. reflexivity.
Qed.

(** With a dense ledger the number is the expected one even when the query
    for the maximum went unanswered: the client then tries 1, which the
    unique constraint accepts only on an empty ledger. *)
Lemma upload_version_number_dense (jwt : option uuid) (d : uuid) (file : File.t)
    (notes : option string) (w : World) (r : Response DocumentVersion.Row)
    (v : DocumentVersion.Row) :
  ledger_dense w ->
  fst (run jwt (uploadDocumentVersion d file notes) w) = Returned r ->
  data r = Some v ->
  DocumentVersion.version_number v = expected_version_number d w.
Proof.
  intros Hd Hr Hv.
  destruct (nth 1 (faults w) false) eqn:Hq;
    [|exact (proj2 (upload_version_number jwt d file notes w r v Hr Hv Hq))].
  revert Hr. rewrite uploadDocumentVersion_run.
  destruct (Backend.getUser jwt w) as [[u|] w1] eqn:E1; [|discriminate].
  destruct (Backend.select_version_numbers jwt d w1) as [versions w2] eqn:E2.
  destruct (uuidv4 w2) as [token w3] eqn:E3.
  destruct (Backend.storage_upload jwt (filePath d token file) file w3)
    as [[e|] w4] eqn:E4.
  { cbn. intros H. injection H as <-. discriminate. }
  destruct (Backend.insert_version jwt d (nextVersion (data versions))
              (filePath d token file) (File.name file) (File.size file)
              (File.type file) u notes w4) as [r' w5] eqn:E5.
  rewrite and_log_run. cbn [fst]. intros H. injection H as ->.
  destruct (insert_version_ok _ _ _ _ _ _ _ _ _ _ _ _ _ E5 Hv) as (_ & _ & _ & -> & _ & Hk & _).
  pose proof (frame_eq _ AuthGetUser T_document_versions _ _ _ E1 ltac:(discriminate)) as V1.
  pose proof (frame_eq _ (SelectVersionNumbers d) T_document_versions _ _ _ E2
                ltac:(discriminate)) as V2.
  pose proof (frame_eq jwt Uuidv4 T_document_versions _ _ _ E3 ltac:(discriminate)) as V3.
  pose proof (frame_eq _ (StorageUpload _ file) T_document_versions _ _ _ E4
                ltac:(discriminate)) as V4.
  pose proof (handle_faults jwt AuthGetUser w) as Z1.
  cbn [handle local] in Z1. rewrite E1 in Z1. cbn in V1, V2, V3, V4, Z1.
  rewrite select_version_numbers_eq in E2. injection E2 as <- _.
  rewrite Z1, hd_tl_nth, Hq in Hk |- *. cbn in Hk |- *.
  replace (document_versions w4) with (document_versions w) in Hk by congruence.
  unfold expected_version_number. now rewrite (dense_first_free w d Hd Hk).
Qed.

(** An upload keeps the ledger dense. *)
Lemma upload_keeps_dense (jwt : option uuid) (d : uuid) (file : File.t)
    (notes : option string) (w : World) :
  ledger_dense w ->
  ledger_dense (snd (run jwt (uploadDocumentVersion d file notes) w)).
Proof.
  intros Hd.
  pose proof (upload_version_number_dense jwt d file notes w) as Hnum.
  revert Hnum. rewrite uploadDocumentVersion_run.
  destruct (Backend.getUser jwt w) as [[u|] w1] eqn:E1.
  2:{ intros _. cbn.
      pose proof (frame_eq _ AuthGetUser T_document_versions _ _ _ E1 ltac:(discriminate)) as V1.
      cbn in V1. unfold ledger_dense. now rewrite V1. }
  destruct (Backend.select_version_numbers jwt d w1) as [versions w2] eqn:E2.
  destruct (uuidv4 w2) as [token w3] eqn:E3.
  destruct (Backend.storage_upload jwt (filePath d token file) file w3)
    as [uploadError w4] eqn:E4.
  pose proof (frame_eq _ AuthGetUser T_document_versions _ _ _ E1 ltac:(discriminate)) as V1.
  pose proof (frame_eq _ (SelectVersionNumbers d) T_document_versions _ _ _ E2
                ltac:(discriminate)) as V2.
  pose proof (frame_eq jwt Uuidv4 T_document_versions _ _ _ E3 ltac:(discriminate)) as V3.
  pose proof (frame_eq _ (StorageUpload _ file) T_document_versions _ _ _ E4
                ltac:(discriminate)) as V4.
  cbn in V1, V2, V3, V4.
  assert (V : document_versions w4 = document_versions w) by congruence.
  destruct uploadError as [e|].
  { intros _. cbn. unfold ledger_dense. now rewrite V. }
  destruct (Backend.insert_version jwt d (nextVersion (data versions))
              (filePath d token file) (File.name file) (File.size file)
              (File.type file) u notes w4) as [r w5] eqn:E5.
  rewrite and_log_run. cbn [fst snd]. intros Hnum.
  assert (Hd5 : ledger_dense w5).
  { destruct (data r) as [v|] eqn:Ev.
    - specialize (Hnum r v Hd eq_refl Ev).
      destruct (insert_version_ok _ _ _ _ _ _ _ _ _ _ _ _ _ E5 Ev) as (_ & _ & _ & Hv & Hl & _).
      assert (Hdv : DocumentVersion.document_id v = d) by (subst v; reflexivity).
      unfold ledger_dense. rewrite Hl, V. intros v' Hin.
      apply in_app_or in Hin as [Hin|[<-|[]]].
      + destruct (Hd v' Hin) as [H1 H2]. split; [assumption|].
        intros Hlt. apply version_key_taken_app. auto.
      + rewrite Hnum, Hdv. destruct (expected_version_number_dense w d Hd) as [H1 H2].
        split; [assumption|]. intros Hlt. apply version_key_taken_app. auto.
    - destruct (insert_version_failed _ _ _ _ _ _ _ _ _ _ _ _ E5 Ev) as [V5 _].
      unfold ledger_dense. now rewrite V5, V. }
  assert (F : forall w6, document_versions w6 = document_versions w5 -> ledger_dense w6).
  { intros w6 E. unfold ledger_dense. now rewrite E. }
  destruct (error r); [exact Hd5|]. destruct (data r); [|exact Hd5].
  apply F. apply (logActivity_frame jwt d _ _ T_document_versions w5). discriminate.
Qed.

(** The number a call computes from the answer to its query is the expected
    one for the ledger as it is when the query is served. *)
Lemma computed_version_number (u d : uuid) (w : World) :
  owns u d w -> hd false (faults w) = false ->
  nextVersion (data (fst (Backend.select_version_numbers (Some u) d w)))
  = expected_version_number d w.
Proof.
  intros Ho Hf. rewrite select_version_numbers_eq, Hf. cbn [fst data ok].
  rewrite (visible_versions_owner u d w Ho). apply nextVersion_expected.
Qed.

(** C1.  (1) A successful [uploadDocumentVersion] on [d] gives its version
    the number 1 + the maximum number among [d]'s versions, or 1 when [d]
    has none: the number is computed from the answer to the query for the
    maximum, which for the owner is the maximum of the ledger at that time;
    the row written carries it whenever that query was answered, and in any
    case on a ledger without gaps, which is how uploads leave the ledger.
    (2) Rows at different positions of the ledger never share (document,
    number), whatever programs run and however their requests interleave.
    (3) Two uploads in flight at once never both succeed on the same
    (document, number); an insert on a taken number writes nothing and
    fails, with the unique-violation (Conflict) error as soon as it arrives
    and comes from the owner. *)
Theorem version_numbers_next_and_unique :
  (forall u d w,
      owns u d w -> hd false (faults w) = false ->
      nextVersion (data (fst (Backend.select_version_numbers (Some u) d w)))
      = expected_version_number d w)
  /\ (forall jwt d file notes w r v,
      fst (run jwt (uploadDocumentVersion d file notes) w) = Returned r ->
      data r = Some v ->
      nth 1 (faults w) false = false \/ ledger_dense w ->
      DocumentVersion.document_id v = d
      /\ DocumentVersion.version_number v = expected_version_number d w)
  /\ (forall jwt d file notes w,
         ledger_dense w ->
         ledger_dense (snd (run jwt (uploadDocumentVersion d file notes) w)))
  /\ (forall (A B : Type) schedule jwt1 jwt2 (p1 : Prog A) (p2 : Prog B) w,
         versions_unique w ->
         forall i j v1 v2,
           nth_error (document_versions (snd (interleave schedule jwt1 jwt2 p1 p2 w))) i
             = Some v1 ->
           nth_error (document_versions (snd (interleave schedule jwt1 jwt2 p1 p2 w))) j
             = Some v2 ->
           i <> j ->
           DocumentVersion.document_id v1 = DocumentVersion.document_id v2 ->
           DocumentVersion.version_number v1 <> DocumentVersion.version_number v2)
  /\ (forall schedule jwt1 jwt2 d1 file1 notes1 d2 file2 notes2 w r1 r2 v1 v2,
         fst (interleave schedule jwt1 jwt2 (uploadDocumentVersion d1 file1 notes1)
                (uploadDocumentVersion d2 file2 notes2) w) = (Returned r1, Returned r2) ->
         data r1 = Some v1 -> data r2 = Some v2 ->
         DocumentVersion.document_id v1 = DocumentVersion.document_id v2 ->
         DocumentVersion.version_number v1 <> DocumentVersion.version_number v2)
  /\ (forall jwt d n p f s m u nt w,
         Backend.version_key_taken d n (document_versions w) = true ->
         document_versions (snd (Backend.insert_version jwt d n p f s m u nt w))
           = document_versions w
         /\ (exists e, fst (Backend.insert_version jwt d n p f s m u nt w) = failed e
                       /\ (e = UniqueViolation \/ e = RowLevelSecurity
                           \/ e = NetworkFailure))
         /\ (hd false (faults w) = false -> jwt = Some u -> owns u d w ->
             fst (Backend.insert_version jwt d n p f s m u nt w) = failed UniqueViolation)).
Proof.
  split; [exact computed_version_number|].
  split; [|split; [exact upload_keeps_dense|split; [|split]]].
  - intros jwt d file notes w r v Hr Hv [Hq|Hd].
    + exact (upload_version_number jwt d file notes w r v Hr Hv Hq).
    + split; [|exact (upload_version_number_dense jwt d file notes w r v Hd Hr Hv)].
      revert Hr. rewrite uploadDocumentVersion_run.
      destruct (Backend.getUser jwt w) as [[u|] w1]; [|discriminate].
      destruct (Backend.select_version_numbers jwt d w1) as [versions w2].
      destruct (uuidv4 w2) as [token w3].
      destruct (Backend.storage_upload jwt (filePath d token file) file w3) as [[e|] w4].
      { cbn. intros H. injection H as <-. discriminate. }
      destruct (Backend.insert_version jwt d (nextVersion (data versions))
                  (filePath d token file) (File.name file) (File.size file)
                  (File.type file) u notes w4) as [r' w5] eqn:E5.
      rewrite and_log_run. cbn [fst]. intros H. injection H as ->.
      destruct (insert_version_ok _ _ _ _ _ _ _ _ _ _ _ _ _ E5 Hv) as (_ & _ & _ & -> & _).
      reflexivity.
  - intros A B schedule jwt1 jwt2 p1 p2 w H.
    apply versions_unique_pairwise. now apply interleave_versions_unique.
  - intros schedule jwt1 jwt2 d1 file1 notes1 d2 file2 notes2 w r1 r2 v1 v2 E Hv1 Hv2 Hd Hn.
    apply (interleave_tracks schedule jwt1 jwt2 _ _ None None w r1 r2 v1 v2
             (uploadDocumentVersion_tracks d1 file1 notes1)
             (uploadDocumentVersion_tracks d2 file2 notes2)); try assumption.
    + repeat split; intros; discriminate.
    + unfold version_key. now rewrite Hd, Hn.
  - intros jwt d n p f s m u nt w. apply insert_version_conflict.
Qed.

Lemma alice_owns_id1 (w : World) :
  documents w = documents world_with_document -> owns alice "id1" w.
Proof.
  intros H. unfold owns. rewrite H. vm_compute.
  eexists. split; [left; reflexivity | split; reflexivity].
Qed.

(** Alice's second upload gets number 2; her two uploads in a row get
    different numbers; a second insert of number 1 is a Conflict. *)
Lemma version_numbers_next_and_unique_witness :
  (forall v,
      fst (run (Some alice) (uploadDocumentVersion "id1" spec_pdf None) world_with_version)
        = Returned (ok v) ->
      DocumentVersion.version_number v = 2)
  /\ nextVersion (data (fst (Backend.select_version_numbers (Some alice) "id1"
                              world_with_version))) = 2
  /\ (forall v1 v2,
        fst (interleave [] (Some alice) (Some alice)
               (uploadDocumentVersion "id1" spec_pdf None)
               (uploadDocumentVersion "id1" spec_pdf None) world_with_document)
          = (Returned (ok v1), Returned (ok v2)) ->
        DocumentVersion.document_id v1 = DocumentVersion.document_id v2 ->
        DocumentVersion.version_number v1 <> DocumentVersion.version_number v2)
  /\ versions_unique
       (snd (interleave [true; true; false; false] (Some alice) (Some alice)
               (uploadDocumentVersion "id1" spec_pdf None)
               (uploadDocumentVersion "id1" spec_pdf None) world_with_document))
  /\ ledger_dense
       (snd (run (Some alice) (uploadDocumentVersion "id1" spec_pdf None)
               world_with_document))
  /\ fst (Backend.insert_version (Some alice) "id1" 1 "id1/t2.pdf" "spec.pdf" 4
            "application/pdf" alice None world_with_version)
     = failed UniqueViolation.
Proof.
  destruct version_numbers_next_and_unique as (H0 & Ha & Hk & Hb & Hc & Hd).
  split; [|split; [|split; [|split; [|split]]]].
  - intros v Hv.
    destruct (Ha (Some alice) "id1" spec_pdf None world_with_version (ok v) v Hv eq_refl
                (or_introl eq_refl)) as [_ Hn].
    rewrite Hn. reflexivity.
  - rewrite (H0 alice "id1" world_with_version);
      [reflexivity | apply alice_owns_id1; reflexivity | reflexivity].
  - intros v1 v2 E. exact (Hc _ _ _ _ _ _ _ _ _ _ _ _ v1 v2 E eq_refl eq_refl).
  - apply versions_unique_pairwise. apply Hb. constructor.
  - apply Hk. intros v [].
  - destruct (Hd (Some alice) "id1" 1 "id1/t2.pdf" "spec.pdf" 4 "application/pdf" alice None
                world_with_version eq_refl) as (_ & _ & H).
    apply H; [reflexivity | reflexivity | apply alice_owns_id1; reflexivity].
Defined.

(** ** C9: logging never reaches the caller *)

Ltac open_policy :=
  unfold Backend.update_target, Backend.share_fk, Backend.visible_versions,
    Backend.visible_documents,
    Policy.document_versions_select, Policy.document_versions_insert,
    Policy.comments_select, Policy.comments_insert, Policy.approvals_select,
    Policy.approvals_insert, Policy.activity_logs_select, Policy.objects_select,
    Policy.own_document_ids, Policy.public_document_ids, Policy.visible_documents in *.

Ltac same_answer :=
  open_backend; open_policy; cbn -[run and_log logActivity];
  repeat (match goal with
          | |- context [match ?x with _ => _ end] =>
              lazymatch x with
              | context [match _ with _ => _ end] => fail
              | _ => destruct x eqn:?
              end
          end; cbn -[run and_log logActivity]);
  rewrite ?and_log_run; reflexivity.

Lemma logActivity_returns (jwt : option uuid) (d : uuid) (a : string) (x : option Details)
    (w : World) :
  fst (run jwt (logActivity d a x) w) = Returned tt.
Proof.
  rewrite logActivity_run. destruct (Backend.getUser jwt w) as [[u|] w1]; reflexivity.
Qed.

Lemma logActivity_without_user (jwt : option uuid) (d : uuid) (a : string)
    (x : option Details) (w : World) (t : Table) :
  jwt = None \/ hd false (faults w) = true ->
  unchanged t w (snd (run jwt (logActivity d a x) w)).
Proof.
  intros H. rewrite logActivity_run, getUser_eq.
  assert (E : (if hd false (faults w) then None else jwt) = None).
  { destruct H as [->| ->]; [destruct (hd false (faults w))|]; reflexivity. }
  rewrite E. destruct t; reflexivity.
Qed.

(** What [logActivity] does to the log: nothing, or one more entry, which
    is the one it was asked to write. *)
Lemma logActivity_log (jwt : option uuid) (d : uuid) (a : string) (x : option Details)
    (w : World) :
  activity_logs (snd (run jwt (logActivity d a x) w)) = activity_logs w
  \/ exists e, activity_logs (snd (run jwt (logActivity d a x) w)) = activity_logs w ++ [e]
               /\ ActivityLog.document_id e = d /\ ActivityLog.action e = a
               /\ ActivityLog.details e = x /\ jwt = Some (ActivityLog.user_id e).
Proof.
  rewrite logActivity_run, getUser_eq. open_backend. cbn.
  destruct (hd false (faults w)); [now left|]. destruct jwt as [u|]; [|now left]. cbn.
  destruct (hd false (tl (faults w))); [now left|]. cbn.
  repeat match goal with
         | |- context [if ?b then _ else _] => destruct b eqn:?
         end; cbn; try (now left).
  right. eexists. split; [reflexivity|]. cbn. bools.
  unfold Policy.activity_logs_insert in *. cbn in *. bools. now subst.
Qed.

(** C9.  [logActivity] always returns normally, whatever the backend answers;
    without an authenticated identity it writes nothing; and what each of
    its six callers returns does not depend on the state of the activity log
    nor on how the transport behaves after the caller's main request, that
    is, on whether the entry gets written. *)
Theorem logging_never_reaches_caller :
  (forall jwt d a x w, fst (run jwt (logActivity d a x) w) = Returned tt)
  /\ (forall jwt d a x w t,
         jwt = None \/ hd false (faults w) = true ->
         unchanged t w (snd (run jwt (logActivity d a x) w)))
  /\ (forall jwt title description w f1 f2 fs fs' l l',
         fst (run jwt (createDocument title description)
                (set_activity_logs l (set_faults (f1 :: f2 :: fs) w)))
         = fst (run jwt (createDocument title description)
                  (set_activity_logs l' (set_faults (f1 :: f2 :: fs') w))))
  /\ (forall jwt d file notes w f1 f2 f3 f4 fs fs' l l',
         fst (run jwt (uploadDocumentVersion d file notes)
                (set_activity_logs l (set_faults (f1 :: f2 :: f3 :: f4 :: fs) w)))
         = fst (run jwt (uploadDocumentVersion d file notes)
                  (set_activity_logs l' (set_faults (f1 :: f2 :: f3 :: f4 :: fs') w))))
  /\ (forall jwt d content versionId parentId w f1 f2 fs fs' l l',
         fst (run jwt (addComment d content versionId parentId)
                (set_activity_logs l (set_faults (f1 :: f2 :: fs) w)))
         = fst (run jwt (addComment d content versionId parentId)
                  (set_activity_logs l' (set_faults (f1 :: f2 :: fs') w))))
  /\ (forall jwt d assignedTo versionId notes w f1 f2 fs fs' l l',
         fst (run jwt (requestApproval d assignedTo versionId notes)
                (set_activity_logs l (set_faults (f1 :: f2 :: fs) w)))
         = fst (run jwt (requestApproval d assignedTo versionId notes)
                  (set_activity_logs l' (set_faults (f1 :: f2 :: fs') w))))
  /\ (forall jwt id status notes w f1 fs fs' l l',
         fst (run jwt (updateApprovalStatus id status notes)
                (set_activity_logs l (set_faults (f1 :: fs) w)))
         = fst (run jwt (updateApprovalStatus id status notes)
                  (set_activity_logs l' (set_faults (f1 :: fs') w))))
  /\ (forall jwt d sharedWith permission w f1 f2 fs fs' l l',
         fst (run jwt (shareDocument d sharedWith permission)
                (set_activity_logs l (set_faults (f1 :: f2 :: fs) w)))
         = fst (run jwt (shareDocument d sharedWith permission)
                  (set_activity_logs l' (set_faults (f1 :: f2 :: fs') w)))).
Proof.
  split; [exact logActivity_returns|].
  split; [intros; now apply logActivity_without_user|].
  split; [intros; rewrite !createDocument_run; same_answer|].
  split; [intros; rewrite !uploadDocumentVersion_run; same_answer|].
  split; [intros; rewrite !addComment_run; same_answer|].
  split; [intros; rewrite !requestApproval_run; same_answer|].
  split; [intros; rewrite !updateApprovalStatus_run; same_answer|].
  intros; rewrite !shareDocument_run; same_answer.
Qed.

(** Without a session nothing is logged; and [createDocument] answers the
    same whether or not the transport then fails under [logActivity]. *)
Lemma logging_never_reaches_caller_witness :
  unchanged T_activity_logs world_with_document
    (snd (run None (logActivity "id1" "document_created" None) world_with_document))
  /\ fst (run (Some alice) (createDocument "Spec v1" None)
            (set_activity_logs [] (set_faults [false; false] empty_world)))
     = fst (run (Some alice) (createDocument "Spec v1" None)
              (set_activity_logs [] (set_faults [false; false; true] empty_world))).
Proof.
  destruct logging_never_reaches_caller as (_ & H2 & H3 & _).
  split; [apply H2; left; reflexivity | apply H3].
Defined.

(** ** C7: results, errors and the one thrown error *)

Lemma getUser_absent (jwt : option uuid) (w : World) :
  user_absent jwt w -> Backend.getUser jwt w = (None, snd (transport w)).
Proof.
  intros [->| H]; rewrite getUser_eq; [destruct (hd false (faults w))|rewrite H]; reflexivity.
Qed.

Lemma getUser_present (jwt : option uuid) (w : World) :
  ~ user_absent jwt w -> exists u, Backend.getUser jwt w = (Some u, snd (transport w)).
Proof.
  unfold user_absent. intros H. rewrite getUser_eq.
  destruct jwt as [u|]; [|tauto]. destruct (hd false (faults w)); [tauto|]. now exists u.
Qed.

Lemma transport_unchanged (t : Table) (w : World) : unchanged t w (snd (transport w)).
Proof. destruct t; reflexivity. Qed.

Lemma createDocument_throws (title : string) (description : option string) :
  throws_iff_unauthenticated (createDocument title description).
Proof.
  intros jwt w. rewrite createDocument_run. split; intros H.
  - rewrite (getUser_absent _ _ H). split; [reflexivity | intros t; apply transport_unchanged].
  - destruct (getUser_present _ _ H) as [u ->].
    destruct (Backend.insert_document _ _ _ _ _). rewrite and_log_run. eexists; reflexivity.
Qed.

Lemma uploadDocumentVersion_throws (d : uuid) (file : File.t) (notes : option string) :
  throws_iff_unauthenticated (uploadDocumentVersion d file notes).
Proof.
  intros jwt w. rewrite uploadDocumentVersion_run. split; intros H.
  - rewrite (getUser_absent _ _ H). split; [reflexivity | intros t; apply transport_unchanged].
  - destruct (getUser_present _ _ H) as [u ->].
    destruct (Backend.select_version_numbers _ _ _). destruct (uuidv4 _).
    destruct (Backend.storage_upload _ _ _ _) as [[e|] w4]; [eexists; reflexivity|].
    destruct (Backend.insert_version _ _ _ _ _ _ _ _ _ _). rewrite and_log_run. eexists; reflexivity.
Qed.

Lemma addComment_throws (d : uuid) (content : string) (versionId parentId : option uuid) :
  throws_iff_unauthenticated (addComment d content versionId parentId).
Proof.
  intros jwt w. rewrite addComment_run. split; intros H.
  - rewrite (getUser_absent _ _ H). split; [reflexivity | intros t; apply transport_unchanged].
  - destruct (getUser_present _ _ H) as [u ->].
    destruct (Backend.insert_comment _ _ _ _ _ _ _). rewrite and_log_run. eexists; reflexivity.
Qed.

Lemma requestApproval_throws (d assignedTo : uuid) (versionId : option uuid)
    (notes : option string) :
  throws_iff_unauthenticated (requestApproval d assignedTo versionId notes).
Proof.
  intros jwt w. rewrite requestApproval_run. split; intros H.
  - rewrite (getUser_absent _ _ H). split; [reflexivity | intros t; apply transport_unchanged].
  - destruct (getUser_present _ _ H) as [u ->].
    destruct (Backend.insert_approval _ _ _ _ _ _ _). rewrite and_log_run. eexists; reflexivity.
Qed.

Lemma shareDocument_throws (d sharedWith : uuid) (p : Permission) :
  throws_iff_unauthenticated (shareDocument d sharedWith p).
Proof.
  intros jwt w. rewrite shareDocument_run. split; intros H.
  - rewrite (getUser_absent _ _ H). split; [reflexivity | intros t; apply transport_unchanged].
  - destruct (getUser_present _ _ H) as [u ->].
    destruct (Backend.upsert_share _ _ _ _ _ _). rewrite and_log_run. eexists; reflexivity.
Qed.

Lemma await_returns {R} (r : Request R) : always_returns (await r).
Proof.
  intros jwt w. unfold await. cbn [run]. destruct (handle jwt r w) as [x w']. now exists x.
Qed.

Lemma updateApprovalStatus_returns (id : uuid) (status : Status) (notes : option string) :
  always_returns (updateApprovalStatus id status notes).
Proof.
  intros jwt w. rewrite updateApprovalStatus_run.
  destruct (Backend.update_approval _ _ _ _ _ _). rewrite and_log_run. eexists; reflexivity.
Qed.

(** C7, as the code has it.  [createDocument], [uploadDocumentVersion],
    [addComment], [requestApproval] and [shareDocument] throw the error
    "User not authenticated", having written nothing, exactly when no
    authenticated user is obtained, and return a [{ data, error }] pair in
    every other case; [updateApprovalStatus], [logActivity] and the read
    operations return for every input. *)
Theorem operations_return_or_throw_unauthenticated :
  (forall title description, throws_iff_unauthenticated (createDocument title description))
  /\ (forall d file notes, throws_iff_unauthenticated (uploadDocumentVersion d file notes))
  /\ (forall d content versionId parentId,
         throws_iff_unauthenticated (addComment d content versionId parentId))
  /\ (forall d assignedTo versionId notes,
         throws_iff_unauthenticated (requestApproval d assignedTo versionId notes))
  /\ (forall d sharedWith p, throws_iff_unauthenticated (shareDocument d sharedWith p))
  /\ (forall id status notes, always_returns (updateApprovalStatus id status notes))
  /\ (forall d a x, always_returns (logActivity d a x))
  /\ always_returns getDocuments
  /\ (forall d, always_returns (getDocument d))
  /\ (forall d, always_returns (getDocumentVersions d))
  /\ (forall p, always_returns (downloadDocumentVersion p))
  /\ (forall d v, always_returns (getComments d v))
  /\ (forall d, always_returns (getApprovals d))
  /\ (forall d, always_returns (getActivityLog d)).
Proof.
  split; [exact createDocument_throws|].
  split; [exact uploadDocumentVersion_throws|].
  split; [exact addComment_throws|].
  split; [exact requestApproval_throws|].
  split; [exact shareDocument_throws|].
  split; [exact updateApprovalStatus_returns|].
  split; [intros d a x jwt w; exists tt; apply logActivity_returns|].
  split; [apply await_returns|].
  split; [intros; apply await_returns|].
  split; [intros; apply await_returns|].
  split; [intros; apply await_returns|].
  split; [intros; apply await_returns|].
  split; intros; apply await_returns.
Qed.

(** Without a session, Alice's document is not created and the call throws;
    with one, the call returns. *)
Lemma operations_return_or_throw_unauthenticated_witness :
  fst (run None (createDocument "Spec v1" None) empty_world) = Thrown "User not authenticated"
  /\ exists r, fst (run (Some alice) (createDocument "Spec v1" None) empty_world) = Returned r.
Proof.
  destruct operations_return_or_throw_unauthenticated as (H & _).
  destruct (H "Spec v1" None None empty_world) as [Ha _].
  destruct (H "Spec v1" None (Some alice) empty_world) as [_ Hp].
  split.
  - apply Ha. left. reflexivity.
  - apply Hp. intros [E|E]; discriminate.
Defined.

(** The claim as it was stated fails: with no authenticated identity
    [createDocument] does not return a pair, it throws. *)
Lemma createDocument_unauthenticated_throws :
  ~ (forall jwt title description w,
        exists r, fst (run jwt (createDocument title description) w) = Returned r).
Proof.
  intros H. destruct (H None "Spec v1" None empty_world) as [r Hr]. discriminate.
Qed.

(** ** C10: the preview of a comment in the activity log *)

Lemma insert_comment_ok (jwt : option uuid) (d : uuid) (versionId : option uuid)
    (content : string) (u : uuid) (parentId : option uuid) (w w' : World)
    (r : Response Comment.Row) (c : Comment.Row) :
  Backend.insert_comment jwt d versionId content u parentId w = (r, w') ->
  data r = Some c ->
  error r = None /\ jwt = Some u
  /\ c = Comment.mk (hd "" (rand_db w)) d versionId content u (now w + 1) (now w + 1) parentId
  /\ comments w' = comments w ++ [c]
  /\ mem d (map Document.id (documents w)) = true
  /\ mem u (auth_users w) = true.
Proof.
  intros H Hc. open_backend. crack; try discriminate.
  injection Hc as <-. bools.
  match goal with
  | H : Policy.comments_insert _ _ _ = true |- _ =>
      unfold Policy.comments_insert in H; cbn in H; bools
  end.
  subst. repeat split; try reflexivity; assumption.
Qed.

(** When the transport works and the generated id is free, the entry is
    written. *)
Lemma logActivity_writes (u d : uuid) (a : string) (x : option Details) (w : World) :
  hd false (faults w) = false ->
  nth 1 (faults w) false = false ->
  mem (hd "" (rand_db w)) (map ActivityLog.id (activity_logs w)) = false ->
  mem d (map Document.id (documents w)) = true ->
  mem u (auth_users w) = true ->
  activity_logs (snd (run (Some u) (logActivity d a x) w))
  = activity_logs w ++ [ActivityLog.mk (hd "" (rand_db w)) d u a x (now w + 1 + 1)].
Proof.
  intros H1 H2 H3 H4 H5. rewrite logActivity_run, getUser_eq, H1.
  open_backend. cbn. rewrite <- hd_tl_nth in H2. rewrite H2. cbn.
  unfold Policy.activity_logs_insert. cbn. rewrite String.eqb_refl. cbn.
  rewrite H3, H4, H5. reflexivity.
Qed.

(** C10.  After a successful [addComment] the stored comment holds the whole
    content, and the activity entry the call writes (it writes at most one)
    is tagged [comment_added] and holds exactly the first 50 characters of
    the content: the whole content when that is no longer than 50.  The
    entry is written whenever the transport works and the generated id is
    free. *)
Theorem comment_preview_is_first_50 (jwt : option uuid) (d : uuid) (content : string)
    (versionId parentId : option uuid) (w : World) (r : Response Comment.Row)
    (c : Comment.Row) :
  fst (run jwt (addComment d content versionId parentId) w) = Returned r ->
  data r = Some c ->
  let w' := snd (run jwt (addComment d content versionId parentId) w) in
  let preview := String.substring 0 50 content in
  Comment.content c = content
  /\ In c (comments w')
  /\ (activity_logs w' = activity_logs w
      \/ exists e, activity_logs w' = activity_logs w ++ [e]
                   /\ ActivityLog.document_id e = d
                   /\ ActivityLog.action e = "comment_added"
                   /\ ActivityLog.details e = Some [("content", JString preview)])
  /\ (nth 2 (faults w) false = false -> nth 3 (faults w) false = false ->
      mem (hd "" (tl (rand_db w))) (map ActivityLog.id (activity_logs w)) = false ->
      exists e, activity_logs w' = activity_logs w ++ [e]
                /\ ActivityLog.action e = "comment_added"
                /\ ActivityLog.details e = Some [("content", JString preview)])
  /\ String.length preview = Nat.min 50 (String.length content)
  /\ String.prefix preview content = true
  /\ ((String.length content <= 50)%nat -> preview = content).
Proof.
  intros Hr Hc w' preview. subst w' preview. revert Hr.
  rewrite <- !substring0_spec. rewrite addComment_run.
  destruct (Backend.getUser jwt w) as [[u|] w1] eqn:E1; [|discriminate].
  destruct (Backend.insert_comment jwt d versionId content u parentId w1) as [r' w2] eqn:E2.
  rewrite and_log_run. cbn [fst snd]. intros H. injection H as ->.
  destruct (insert_comment_ok _ _ _ _ _ _ _ _ _ _ E2 Hc) as (He & Hj & Hv & Hl & Hd & Hu).
  rewrite He, Hc.
  pose proof (frame_eq _ AuthGetUser T_activity_logs _ _ _ E1 ltac:(discriminate)) as A1.
  pose proof (frame_eq _ (InsertComment d versionId content u parentId) T_activity_logs
                _ _ _ E2 ltac:(discriminate)) as A2.
  pose proof (frame_eq _ (InsertComment d versionId content u parentId) T_documents
                _ _ _ E2 ltac:(discriminate)) as D2.
  pose proof (handle_auth_users jwt (InsertComment d versionId content u parentId) w1) as U2.
  pose proof (handle_faults jwt AuthGetUser w) as Z1.
  pose proof (handle_faults jwt (InsertComment d versionId content u parentId) w1) as Z2.
  cbn [handle local] in U2, Z1, Z2. rewrite E1 in Z1. rewrite E2 in U2, Z2.
  cbn in A1, A2, D2, U2, Z1, Z2.
  assert (R2 : rand_db w2 = tl (rand_db w)).
  { clear - E1 E2 Hc. rewrite getUser_eq in E1. injection E1 as _ <-.
    open_backend. crack; try discriminate; reflexivity. }
  split; [subst c; reflexivity|].
  split.
  { pose proof (logActivity_frame jwt d "comment_added"
                  (Some [("content", JString (substring0 50 content))]) T_comments w2
                  ltac:(discriminate)) as F.
    unfold unchanged in F. rewrite F, Hl. apply in_or_app. right. now left. }
  split.
  { destruct (logActivity_log jwt d "comment_added"
                (Some [("content", JString (substring0 50 content))]) w2)
      as [E|[e (E & H1 & H2 & H3 & _)]].
    - left. congruence.
    - right. exists e. repeat split; try assumption. congruence. }
  split.
  { intros F2 F3 Hid. subst jwt.
    rewrite logActivity_writes.
    - eexists. split; [rewrite A2, A1; reflexivity|]. split; reflexivity.
    - rewrite Z2, Z1. destruct (faults w) as [|? [|? [|? ?]]]; cbn in *; congruence.
    - rewrite Z2, Z1. destruct (faults w) as [|? [|? [|? [|? ?]]]]; cbn in *; congruence.
    - rewrite R2, A2, A1. exact Hid.
    - rewrite D2. exact Hd.
    - rewrite U2. exact Hu. }
  split; [apply substring0_length|].
  split; [apply substring0_prefix | apply substring0_short].
Qed.

(** A comment of 70 characters on Alice's document: the row has all 70, the
    log entry the first 50. *)
Lemma comment_preview_is_first_50_witness :
  exists c e,
    fst (run (Some alice) (addComment "id1" long_comment None None) world_with_document)
      = Returned (ok c)
    /\ Comment.content c = long_comment
    /\ activity_logs (snd (run (Some alice) (addComment "id1" long_comment None None)
                             world_with_document))
       = activity_logs world_with_document ++ [e]
    /\ ActivityLog.details e
       = Some [("content", JString "01234567890123456789012345678901234567890123456789")].
Proof.
  assert (E : exists c,
             fst (run (Some alice) (addComment "id1" long_comment None None)
                    world_with_document) = Returned (ok c))
    by (vm_compute; eexists; reflexivity).
  destruct E as [c E].
  destruct (comment_preview_is_first_50 (Some alice) "id1" long_comment None None
              world_with_document (ok c) c E eq_refl)
    as (Hc & _ & _ & Hw & _).
  assert (F2 : nth 2 (faults world_with_document) false = false) by (vm_compute; reflexivity).
  assert (F3 : nth 3 (faults world_with_document) false = false) by (vm_compute; reflexivity).
  assert (Hid : mem (hd "" (tl (rand_db world_with_document)))
                  (map ActivityLog.id (activity_logs world_with_document)) = false)
    by (vm_compute; reflexivity).
  destruct (Hw F2 F3 Hid) as [e (He & _ & Hd)].
  exists c, e. split; [exact E|]. split; [exact Hc|]. split; [exact He | exact Hd].
Defined.

(** ** C6: where the bytes are stored *)

Lemma storage_upload_stored (jwt : option uuid) (p : string) (file : File.t)
    (w w' : World) :
  Backend.storage_upload jwt p file w = (None, w') ->
  exists u, jwt = Some u
            /\ objects w' = objects w ++ [StorageObject.mk "documents" p u (File.bytes file)].
Proof.
  intros H. open_backend. crack; try discriminate. eexists. split; reflexivity.
Qed.

(** C6, as the code has it.  A successful [uploadDocumentVersion] stores the
    bytes at [<documentId>/<token>.<ext>], where [token] is the identifier
    just generated and [ext] is what [file.name.split('.').pop()] gives: the
    part of the original file name after its last dot, or the whole name
    when it has no dot.  Nothing else of the file (the rest of its name, its
    media type, its bytes) enters the path.  The original file name and the
    declared media type are kept in the version row. *)
Theorem storage_path_is_document_token_extension :
  (forall jwt d file notes w r v,
      fst (run jwt (uploadDocumentVersion d file notes) w) = Returned r ->
      data r = Some v ->
      DocumentVersion.file_path v
        = d ^^ "/" ^^ hd "" (rand_client w) ^^ "." ^^ template (fileExt file)
      /\ DocumentVersion.file_name v = File.name file
      /\ DocumentVersion.mime_type v = File.type file
      /\ exists o, In o (objects (snd (run jwt (uploadDocumentVersion d file notes) w)))
                   /\ StorageObject.name o = DocumentVersion.file_path v
                   /\ StorageObject.body o = File.bytes file)
  /\ (forall stem ext type bytes,
         occurs "." ext = false ->
         fileExt (File.mk (stem ^^ "." ^^ ext) type bytes) = Some ext)
  /\ (forall name type bytes,
         occurs "." name = false -> fileExt (File.mk name type bytes) = Some name)
  /\ (forall d token file1 file2,
         fileExt file1 = fileExt file2 -> filePath d token file1 = filePath d token file2).
Proof.
  split; [|split; [|split]].
  - intros jwt d file notes w r v. rewrite uploadDocumentVersion_run.
    destruct (Backend.getUser jwt w) as [[u|] w1] eqn:E1; [|discriminate].
    destruct (Backend.select_version_numbers jwt d w1) as [versions w2] eqn:E2.
    destruct (uuidv4 w2) as [token w3] eqn:E3.
    destruct (Backend.storage_upload jwt (filePath d token file) file w3)
      as [[e|] w4] eqn:E4.
    { cbn. intros H Hv. injection H as <-. discriminate. }
    destruct (Backend.insert_version jwt d (nextVersion (data versions))
                (filePath d token file) (File.name file) (File.size file)
                (File.type file) u notes w4) as [r' w5] eqn:E5.
    rewrite and_log_run. cbn [fst snd]. intros H Hv. injection H as ->.
    destruct (insert_version_ok _ _ _ _ _ _ _ _ _ _ _ _ _ E5 Hv) as (He & _ & _ & -> & _).
    pose proof (handle_rand_client jwt AuthGetUser w) as R1.
    pose proof (handle_rand_client jwt (SelectVersionNumbers d) w1) as R2.
    cbn [handle] in R1, R2. rewrite E1 in R1. rewrite E2 in R2. cbn in R1, R2.
    assert (Htoken : token = hd "" (rand_client w)).
    { unfold uuidv4 in E3. injection E3 as <- _. congruence. }
    cbn [DocumentVersion.file_path DocumentVersion.file_name DocumentVersion.mime_type].
    split; [rewrite <- Htoken; reflexivity|]. split; [reflexivity|]. split; [reflexivity|].
    destruct (storage_upload_stored _ _ _ _ _ E4) as [u' [_ Ho]].
    pose proof (frame_eq _ (InsertVersion d (nextVersion (data versions))
                  (filePath d token file) (File.name file) (File.size file)
                  (File.type file) u notes) T_objects _ _ _ E5 ltac:(discriminate)) as O5.
    cbn in O5. rewrite He, Hv.
    pose proof (logActivity_frame jwt d "version_uploaded"
                  (Some [("version", JNumber (nextVersion (data versions)));
                         ("fileName", JString (File.name file))]) T_objects w5
                  ltac:(discriminate)) as O6.
    unfold unchanged in O6.
    exists (StorageObject.mk "documents" (filePath d token file) u' (File.bytes file)).
    split; [|split; reflexivity].
    rewrite O6, O5, Ho. apply in_or_app. right. now left.
  - intros stem ext type bytes H. unfold fileExt. cbn [File.name].
    change (stem ^^ "." ^^ ext) with (stem ^^ String "." ext).
    now apply pop_split_suffix.
  - intros name type bytes H. unfold fileExt. cbn [File.name]. now apply pop_split_plain.
  - intros d token file1 file2 H. unfold filePath. now rewrite H.
Qed.

(** Alice's "spec.pdf" is stored under its document, the token and "pdf". *)
Lemma storage_path_is_document_token_extension_witness :
  (forall v,
      fst (run (Some alice) (uploadDocumentVersion "id1" spec_pdf None) world_with_document)
        = Returned (ok v) ->
      DocumentVersion.file_path v = "id1/t1.pdf")
  /\ fileExt (File.mk "archive.tar.gz" "application/gzip" "") = Some "gz"
  /\ fileExt (File.mk "README" "text/plain" "") = Some "README"
  /\ filePath "id1" "t1" (File.mk "a.pdf" "application/pdf" "x")
     = filePath "id1" "t1" (File.mk "b.c.pdf" "text/plain" "y").
Proof.
  destruct storage_path_is_document_token_extension as (H1 & H2 & H3 & H4).
  split; [|split; [|split]].
  - intros v Hv.
    destruct (H1 (Some alice) "id1" spec_pdf None world_with_document (ok v) v Hv eq_refl)
      as [Hp _].
    rewrite Hp. reflexivity.
  - apply (H2 "archive.tar" "gz"). reflexivity.
  - apply H3. reflexivity.
  - apply H4. reflexivity.
Defined.

(** The claim as it was stated fails: the storage location does depend on
    the original file name.  Same document, same token, two names. *)
Lemma storage_path_depends_on_file_name :
  filePath "id1" "t1" (File.mk "report.pdf" "application/pdf" "x") = "id1/t1.pdf"
  /\ filePath "id1" "t1" (File.mk "report.docx" "application/pdf" "x") = "id1/t1.docx"
  /\ filePath "id1" "t1" (File.mk "../../etc/passwd" "application/pdf" "x")
     = "id1/t1./etc/passwd"
  /\ filePath "id1" "t1" (File.mk "report.pdf" "application/pdf" "x")
     <> filePath "id1" "t1" (File.mk "report.docx" "application/pdf" "x").
Proof.
  repeat split; try reflexivity. vm_compute. discriminate.
Qed.

(** ** C4: resolving an approval *)

Lemma filter_unique {A} (key : A -> uuid) (P : A -> bool) (l : list A) (x : A) :
  NoDup (map key l) -> In x l -> P x = true ->
  (forall y, In y l -> P y = true -> key y = key x) ->
  filter P l = [x].
Proof.
  induction l as [|a l IH]; intros Hnd Hin Hx Hk; [destruct Hin|].
  cbn in Hnd. inversion Hnd as [|k ks Hnotin Hnd']. subst. cbn [filter].
  destruct Hin as [->|Hin].
  - rewrite Hx. f_equal.
    destruct (filter P l) as [|y t] eqn:E; [reflexivity|]. exfalso.
    assert (Hy : In y (filter P l)) by (rewrite E; now left).
    apply filter_In in Hy as [Hy Py]. apply Hnotin.
    rewrite <- (Hk y (or_intror Hy) Py). now apply in_map.
  - destruct (P a) eqn:Pa.
    + exfalso. apply Hnotin. rewrite (Hk a (or_introl eq_refl) Pa). now apply in_map.
    + apply IH; try assumption. intros y Hy. apply Hk. now right.
Qed.

Lemma NoDup_key_inj {A} (key : A -> uuid) (l : list A) (x y : A) :
  NoDup (map key l) -> In x l -> In y l -> key x = key y -> x = y.
Proof.
  induction l as [|a l IH]; intros Hnd Hx Hy Hk; [destruct Hx|].
  cbn in Hnd. inversion Hnd as [|k ks Hno Hnd']. subst.
  destruct Hx as [->|Hx], Hy as [->|Hy]; try reflexivity.
  - exfalso. apply Hno. rewrite Hk. now apply in_map.
  - exfalso. apply Hno. rewrite <- Hk. now apply in_map.
  - now apply IH.
Qed.

Lemma update_approval_ok (jwt : option uuid) (id : uuid) (status : Status)
    (notes : option string) (t : timestamp) (w w' : World) (r : Response Approval.Row)
    (a : Approval.Row) :
  Backend.update_approval jwt id status notes t w = (r, w') ->
  data r = Some a ->
  exists old, In old (approvals w) /\ Approval.id old = id
              /\ jwt = Some (Approval.assigned_to old)
              /\ a = Backend.updated_approval status notes t old.
Proof.
  intros H Ha. open_backend. crack; try discriminate.
  injection Ha as <-.
  match goal with
  | H : filter ?P ?l = [?x] |- _ =>
      assert (Hin : In x (filter P l)) by (rewrite H; now left)
  end.
  apply filter_In in Hin as [Hin Ht]. unfold Backend.update_target in Ht.
  unfold Policy.approvals_update in Ht. bools. subst.
  eexists. repeat split; try eassumption; reflexivity.
Qed.

Lemma update_approval_failed (jwt : option uuid) (id : uuid) (status : Status)
    (notes : option string) (t : timestamp) (w w' : World) (r : Response Approval.Row) :
  Backend.update_approval jwt id status notes t w = (r, w') ->
  data r = None ->
  approvals w' = approvals w /\ exists e, error r = Some e.
Proof.
  intros H Ha. open_backend. crack; try discriminate; split; try reflexivity;
    unfold failed; cbn; eauto.
Qed.

Lemma update_approval_stranger (jwt : option uuid) (id : uuid) (status : Status)
    (notes : option string) (t : timestamp) (w : World) :
  (forall old, In old (approvals w) -> Approval.id old = id ->
               jwt <> Some (Approval.assigned_to old)) ->
  fst (Backend.update_approval jwt id status notes t w)
  = if hd false (faults w) then failed NetworkFailure else failed NoRows.
Proof.
  intros H. unfold Backend.update_approval, Backend.remote. cbn.
  destruct (hd false (faults w)); [reflexivity|]. cbn.
  destruct jwt as [u|]; [|reflexivity].
  match goal with
  | |- context [filter ?P ?l] => assert (E : filter P l = [])
  end.
  { match goal with
    | |- filter ?P ?l = [] => destruct (filter P l) as [|x l'] eqn:E; [reflexivity|];
        exfalso; assert (Hin : In x (filter P l)) by (rewrite E; now left)
    end.
    apply filter_In in Hin as [Hin Ht]. unfold Backend.update_target in Ht.
    unfold Policy.approvals_update in Ht. bools. apply (H x Hin); congruence. }
  cbn in E |- *. now rewrite E.
Qed.

Lemma update_approval_assignee (u id : uuid) (status : Status) (notes : option string)
    (t : timestamp) (w : World) (old : Approval.Row) :
  NoDup (map Approval.id (approvals w)) ->
  In old (approvals w) -> Approval.id old = id -> Approval.assigned_to old = u ->
  hd false (faults w) = false ->
  Backend.update_approval (Some u) id status notes t w
  = (ok (Backend.updated_approval status notes t old),
     set_approvals
       (map (fun x => if Backend.update_target u id w x
                      then Backend.updated_approval status notes t x else x)
          (approvals w)) (snd (transport w))).
Proof.
  intros Hnd Hin Hid Hu Hf. unfold Backend.update_approval, Backend.remote. cbn.
  rewrite Hf. cbn.
  assert (Ht : forall w0, documents w0 = documents w ->
                          Backend.update_target u id w0 old = true).
  { intros w0 _. unfold Backend.update_target, Policy.approvals_update, Policy.approvals_select.
    rewrite Hid, Hu, !String.eqb_refl, orb_true_r. reflexivity. }
  match goal with
  | |- context [filter ?P (approvals w)] =>
      assert (E : filter P (approvals w) = [old])
  end.
  { apply (filter_unique Approval.id); try assumption.
    - apply Ht. reflexivity.
    - intros y Hy Py. unfold Backend.update_target in Py. bools. congruence. }
  rewrite E.
  assert (Hc : Policy.approvals_update u (Backend.updated_approval status notes t old)
               && Policy.approvals_select u
                    (snd (transport w)) (Backend.updated_approval status notes t old) = true).
  { unfold Policy.approvals_update, Policy.approvals_select, Backend.updated_approval.
    cbn. rewrite Hu, !String.eqb_refl, orb_true_r. reflexivity. }
  cbn in Hc. rewrite Hc. reflexivity.
Qed.

(** C4, as the code has it.  [updateApprovalStatus] succeeds only when it is
    invoked by the assignee of the approval; a call by anyone else changes
    no approval and fails.  For the assignee it succeeds whatever the
    current status of the approval is, pending or already resolved, and
    the stored status becomes the one given: nothing guards the
    transition. *)
Theorem approval_status_set_by_assignee_in_any_state :
  (forall jwt id status notes w r a,
      fst (run jwt (updateApprovalStatus id status notes) w) = Returned r ->
      data r = Some a ->
      exists old, In old (approvals w) /\ Approval.id old = id
                  /\ jwt = Some (Approval.assigned_to old)
                  /\ a = Backend.updated_approval status notes (now w) old)
  /\ (forall jwt id status notes w,
         (forall old, In old (approvals w) -> Approval.id old = id ->
                      jwt <> Some (Approval.assigned_to old)) ->
         approvals (snd (run jwt (updateApprovalStatus id status notes) w)) = approvals w
         /\ exists e, fst (run jwt (updateApprovalStatus id status notes) w)
                        = Returned (failed e)
                      /\ (e = NoRows \/ e = NetworkFailure))
  /\ (forall u id status notes w old,
         NoDup (map Approval.id (approvals w)) ->
         In old (approvals w) -> Approval.id old = id -> Approval.assigned_to old = u ->
         hd false (faults w) = false ->
         fst (run (Some u) (updateApprovalStatus id status notes) w)
           = Returned (ok (Backend.updated_approval status notes (now w) old))
         /\ Approval.status (Backend.updated_approval status notes (now w) old) = status
         /\ forall a, In a (approvals (snd (run (Some u)
                                              (updateApprovalStatus id status notes) w))) ->
                      Approval.id a = id -> Approval.status a = status).
Proof.
  split; [|split].
  - intros jwt id status notes w r a. rewrite updateApprovalStatus_run.
    destruct (Backend.update_approval jwt id status notes (now w) w) as [r' w1] eqn:E.
    rewrite and_log_run. cbn [fst]. intros H Ha. injection H as ->.
    exact (update_approval_ok _ _ _ _ _ _ _ _ _ E Ha).
  - intros jwt id status notes w H. rewrite updateApprovalStatus_run.
    pose proof (update_approval_stranger jwt id status notes (now w) w H) as S.
    destruct (Backend.update_approval jwt id status notes (now w) w) as [r w1] eqn:E.
    rewrite and_log_run. cbn [fst snd] in *.
    assert (Hd : data r = None) by (rewrite S; destruct (hd false (faults w)); reflexivity).
    destruct (update_approval_failed _ _ _ _ _ _ _ _ E Hd) as [Ha _].
    rewrite Hd. replace (match error r with Some _ | _ => w1 end) with w1
      by (destruct (error r); reflexivity).
    split; [exact Ha|]. rewrite S. destruct (hd false (faults w)); eauto.
  - intros u id status notes w old Hnd Hin Hid Hu Hf. rewrite updateApprovalStatus_run.
    rewrite (update_approval_assignee u id status notes (now w) w old Hnd Hin Hid Hu Hf).
    rewrite and_log_run. cbn [fst snd error data ok].
    split; [reflexivity|]. split; [reflexivity|]. intros a Ha Hida.
    pose proof (logActivity_frame (Some u)
                  (Approval.document_id (Backend.updated_approval status notes (now w) old))
                  "approval_updated" (Some [("status", JString (Status_text status))])
                  T_approvals
                  (set_approvals
                     (map (fun x => if Backend.update_target u id w x
                                    then Backend.updated_approval status notes (now w) x
                                    else x) (approvals w)) (snd (transport w)))
                  ltac:(discriminate)) as F.
    unfold unchanged in F. rewrite F in Ha. cbn [approvals set_approvals] in Ha.
    apply in_map_iff in Ha as [x [Hx Hinx]].
    destruct (Backend.update_target u id w x) eqn:Ht.
    + subst a. reflexivity.
    + subst a. exfalso.
      assert (x = old) by (apply (NoDup_key_inj Approval.id (approvals w)); congruence).
      subst x. unfold Backend.update_target, Policy.approvals_update,
        Policy.approvals_select in Ht.
      rewrite Hid, Hu, !String.eqb_refl, orb_true_r in Ht. discriminate.
Qed.

Lemma bob_is_assignee :
  exists old, In old (approvals world_approved) /\ Approval.id old = "id3"
              /\ Approval.assigned_to old = bob /\ Approval.status old = approved.
Proof. vm_compute. eexists. split; [left; reflexivity | repeat split]. Qed.

(** Bob, the assignee, turns his approval into a rejection; Alice, who is
    not the assignee, cannot. *)
Lemma approval_status_set_by_assignee_in_any_state_witness :
  (exists a, fst (run (Some bob) (updateApprovalStatus "id3" rejected None) world_approved)
             = Returned (ok a) /\ Approval.status a = rejected)
  /\ (forall a,
        fst (run (Some bob) (updateApprovalStatus "id3" rejected None) world_approved)
          = Returned (ok a) ->
        exists old, In old (approvals world_approved)
                    /\ Some bob = Some (Approval.assigned_to old))
  /\ approvals (snd (run (Some alice) (updateApprovalStatus "id3" rejected None)
                       world_approved))
     = approvals world_approved.
Proof.
  destruct approval_status_set_by_assignee_in_any_state as (H1 & H2 & H3).
  destruct bob_is_assignee as [old (Hin & Hid & Hu & _)].
  split; [|split].
  - destruct (H3 bob "id3" rejected None world_approved old) as (Hr & Hs & _);
      try assumption.
    + vm_compute. repeat constructor. intros [].
    + vm_compute. reflexivity.
    + eexists. split; [exact Hr | exact Hs].
  - intros a Ha.
    destruct (H1 (Some bob) "id3" rejected None world_approved (ok a) a Ha eq_refl)
      as [old' (Hin' & _ & Hj & _)].
    exists old'. split; assumption.
  - assert (Hs : forall old', In old' (approvals world_approved) ->
                             Approval.id old' = "id3" ->
                             Some alice <> Some (Approval.assigned_to old')).
    { intros old' Hin' _. vm_compute in Hin'. destruct Hin' as [<-|[]]. discriminate. }
    exact (proj1 (H2 (Some alice) "id3" rejected None world_approved Hs)).
Defined.

(** The claim as it was stated fails: an approval that is already approved
    is resolved again, to rejected, and the stored status changes. *)
Lemma resolved_approval_is_resolved_again :
  map Approval.status (approvals world_approved) = [approved]
  /\ (exists a,
         fst (run (Some bob) (updateApprovalStatus "id3" rejected None) world_approved)
           = Returned (ok a)
         /\ Approval.status a = rejected)
  /\ map Approval.status
       (approvals (snd (run (Some bob) (updateApprovalStatus "id3" rejected None)
                          world_approved)))
     = [rejected].
Proof.
  split; [vm_compute; reflexivity|]. split; [|vm_compute; reflexivity].
  vm_compute. eexists. split; reflexivity.
Qed.

(** ** C2: who can read a document *)

Lemma filter_filter {A} (f g : A -> bool) (l : list A) :
  filter f (filter g l) = filter (fun x => g x && f x) l.
Proof.
  induction l as [|a l IH]; cbn; [reflexivity|].
  destruct (g a); cbn; [destruct (f a); now rewrite IH | exact IH].
Qed.

Lemma limit_In {A} (n : nat) (l : list A) (x : A) : In x (limit n l) -> In x l.
Proof.
  unfold limit. intros H. rewrite <- (firstn_skipn n l). apply in_or_app. now left.
Qed.

Lemma documents_select_spec (u : uuid) (doc : Document.Row) :
  Policy.documents_select u doc = true <->
  Document.created_by doc = u \/ Document.is_public doc = true.
Proof.
  unfold Policy.documents_select. rewrite orb_true_iff, String.eqb_eq. reflexivity.
Qed.

Lemma select_document_eq (u d : uuid) (w : World) :
  fst (run (Some u) (getDocument d) w) =
  Returned (if hd false (faults w) then failed NetworkFailure
            else Backend.single
                   (map (Backend.embed_versions (Some u) w)
                      (filter (fun doc => (Document.id doc =? d)%string)
                         (Policy.visible_documents u w)))).
Proof.
  unfold getDocument, await. cbn [run handle].
  unfold Backend.select_document, Backend.remote. cbn.
  destruct (hd false (faults w)); reflexivity.
Qed.

Lemma select_documents_eq (u : uuid) (w : World) :
  fst (run (Some u) getDocuments w) =
  Returned (if hd false (faults w) then failed NetworkFailure
            else ok (map (Backend.embed_versions (Some u) w)
                       (order_by Document.updated_at false (Policy.visible_documents u w)))).
Proof.
  unfold getDocuments, await. cbn [run handle].
  unfold Backend.select_documents, Backend.remote. cbn.
  destruct (hd false (faults w)); reflexivity.
Qed.

Lemma select_versions_eq (u d : uuid) (w : World) :
  fst (run (Some u) (getDocumentVersions d) w) =
  Returned (if hd false (faults w) then failed NetworkFailure
            else ok (order_by DocumentVersion.version_number false
                       (Backend.versions_of d
                          (filter (Policy.document_versions_select u w)
                             (document_versions w))))).
Proof.
  unfold getDocumentVersions, await. cbn [run handle].
  unfold Backend.select_versions, Backend.remote. cbn.
  destruct (hd false (faults w)); reflexivity.
Qed.

Lemma select_comments_eq (u d : uuid) (w : World) :
  fst (run (Some u) (getComments d None) w) =
  Returned (if hd false (faults w) then failed NetworkFailure
            else ok (order_by Comment.created_at true
                       (filter (fun c => (Comment.document_id c =? d)%string)
                          (filter (Policy.comments_select u w) (comments w))))).
Proof.
  unfold getComments, await. cbn [run handle truthy].
  unfold Backend.select_comments, Backend.remote. cbn.
  destruct (hd false (faults w)); reflexivity.
Qed.

Lemma select_approvals_eq (u d : uuid) (w : World) :
  fst (run (Some u) (getApprovals d) w) =
  Returned (if hd false (faults w) then failed NetworkFailure
            else ok (order_by Approval.created_at false
                       (filter (fun a => (Approval.document_id a =? d)%string)
                          (filter (Policy.approvals_select u w) (approvals w))))).
Proof.
  unfold getApprovals, await. cbn [run handle].
  unfold Backend.select_approvals, Backend.remote. cbn.
  destruct (hd false (faults w)); reflexivity.
Qed.

Lemma select_activity_eq (u d : uuid) (w : World) :
  fst (run (Some u) (getActivityLog d) w) =
  Returned (if hd false (faults w) then failed NetworkFailure
            else ok (limit 50
                       (order_by ActivityLog.created_at false
                          (filter (fun l => (ActivityLog.document_id l =? d)%string)
                             (filter (Policy.activity_logs_select u w) (activity_logs w)))))).
Proof.
  unfold getActivityLog, await. cbn [run handle].
  unfold Backend.select_activity, Backend.remote. cbn.
  destruct (hd false (faults w)); reflexivity.
Qed.

Lemma readable_spec (u d : uuid) (w : World) :
  mem d (Policy.own_document_ids u w) || mem d (Policy.public_document_ids u w) = true
  <-> readable u d w.
Proof.
  unfold readable. rewrite orb_true_iff, own_document_ids_spec, public_document_ids_spec.
  reflexivity.
Qed.

Lemma getDocument_spec (u d : uuid) (w : World) :
  NoDup (map Document.id (documents w)) -> hd false (faults w) = false ->
  (exists x, fst (run (Some u) (getDocument d) w) = Returned (ok x)) <-> readable u d w.
Proof.
  intros Hnd Hf. rewrite select_document_eq, Hf. unfold Policy.visible_documents.
  rewrite filter_filter. split.
  - intros [x Hx].
    destruct (filter _ (documents w)) as [|doc l] eqn:E; [discriminate|].
    assert (Hin : In doc (filter (fun x => Policy.documents_select u x
                                          && (Document.id x =? d)%string) (documents w)))
      by (rewrite E; now left).
    apply filter_In in Hin as [Hin Hp]. bools.
    match goal with
    | H : Policy.documents_select _ _ = true |- _ =>
        apply documents_select_spec in H; destruct H as [Hc|Hc]
    end; [left | right]; exists doc; auto.
  - assert (K : forall doc, In doc (documents w) -> Document.id doc = d ->
                            Policy.documents_select u doc = true ->
                            exists x, Returned (Backend.single
                              (map (Backend.embed_versions (Some u) w)
                                 (filter (fun x => Policy.documents_select u x
                                                   && (Document.id x =? d)%string)
                                    (documents w)))) = Returned (ok x)).
    { intros doc Hin Hid Hs.
      rewrite (filter_unique Document.id _ (documents w) doc Hnd Hin).
      - cbn. eauto.
      - now rewrite Hs, Hid, String.eqb_refl.
      - intros y _ Hy. bools. congruence. }
    intros [[doc (Hin & Hid & Hc)]|[doc (Hin & Hid & Hc)]];
      apply (K doc Hin Hid); apply documents_select_spec; auto.
Qed.

(** C2, as the code has it.  For an authenticated identity [u] (and a
    request that arrives): [getDocument] on [d] succeeds, and [getDocuments]
    lists [d], iff [u] created [d] or [d] is public; the versions and the
    comments of [d] are returned under the same condition; an approval on
    [d] is returned iff [u] created [d] or is its assignee; the activity
    entries of [d] are returned only to the creator of [d].  Shares play no
    part in any of this. *)
Theorem reads_need_owner_or_public (u d : uuid) (w : World) :
  hd false (faults w) = false ->
  (NoDup (map Document.id (documents w)) ->
   ((exists x, fst (run (Some u) (getDocument d) w) = Returned (ok x)) <-> readable u d w))
  /\ (exists rows, fst (run (Some u) getDocuments w) = Returned (ok rows)
                   /\ forall doc, In doc (map fst rows) <->
                                  In doc (documents w)
                                  /\ (Document.created_by doc = u
                                      \/ Document.is_public doc = true))
  /\ (exists rows, fst (run (Some u) (getDocumentVersions d) w) = Returned (ok rows)
                   /\ forall v, In v rows <->
                                In v (document_versions w)
                                /\ DocumentVersion.document_id v = d /\ readable u d w)
  /\ (exists rows, fst (run (Some u) (getComments d None) w) = Returned (ok rows)
                   /\ forall c, In c rows <->
                                In c (comments w)
                                /\ Comment.document_id c = d /\ readable u d w)
  /\ (exists rows, fst (run (Some u) (getApprovals d) w) = Returned (ok rows)
                   /\ forall a, In a rows <->
                                In a (approvals w)
                                /\ Approval.document_id a = d
                                /\ (owns u d w \/ Approval.assigned_to a = u))
  /\ (exists rows, fst (run (Some u) (getActivityLog d) w) = Returned (ok rows)
                   /\ (forall e, In e rows ->
                                 In e (activity_logs w)
                                 /\ ActivityLog.document_id e = d /\ owns u d w)
                   /\ (owns u d w ->
                       rows = limit 50
                                (order_by ActivityLog.created_at false
                                   (filter (fun l => (ActivityLog.document_id l =? d)%string)
                                      (activity_logs w))))).
Proof.
  intros Hf. split; [intros Hnd; now apply getDocument_spec|].
  split.
  { rewrite select_documents_eq, Hf. eexists. split; [reflexivity|]. intros doc.
    rewrite map_map. cbn. rewrite map_id, order_by_In. unfold Policy.visible_documents.
    rewrite filter_In, documents_select_spec. reflexivity. }
  split.
  { rewrite select_versions_eq, Hf. eexists. split; [reflexivity|]. intros v.
    rewrite order_by_In. unfold Backend.versions_of. rewrite !filter_In, String.eqb_eq.
    unfold Policy.document_versions_select.
    split.
    - intros [[Hin Hs] Hd]. rewrite Hd in Hs. apply readable_spec in Hs. auto.
    - intros (Hin & Hd & Hr). apply readable_spec in Hr. rewrite Hd. auto. }
  split.
  { rewrite select_comments_eq, Hf. eexists. split; [reflexivity|]. intros c.
    rewrite order_by_In. rewrite !filter_In, String.eqb_eq.
    unfold Policy.comments_select.
    split.
    - intros [[Hin Hs] Hd]. rewrite Hd in Hs. apply readable_spec in Hs. auto.
    - intros (Hin & Hd & Hr). apply readable_spec in Hr. rewrite Hd. auto. }
  split.
  { rewrite select_approvals_eq, Hf. eexists. split; [reflexivity|]. intros a.
    rewrite order_by_In. rewrite !filter_In, String.eqb_eq.
    unfold Policy.approvals_select. rewrite orb_true_iff, String.eqb_eq.
    split.
    - intros [[Hin Hs] Hd]. rewrite Hd, own_document_ids_spec in Hs. auto.
    - intros (Hin & Hd & Hr). rewrite Hd, own_document_ids_spec. auto. }
  rewrite select_activity_eq, Hf. eexists. split; [reflexivity|]. split.
  - intros e He. apply limit_In in He. apply order_by_In in He.
    rewrite !filter_In, String.eqb_eq in He. destruct He as [[Hin Hs] Hd].
    unfold Policy.activity_logs_select in Hs. rewrite Hd, own_document_ids_spec in Hs. auto.
  - intros Ho. f_equal. f_equal. rewrite filter_filter. apply filter_ext_in.
    intros e _. unfold Policy.activity_logs_select.
    destruct (ActivityLog.document_id e =? d)%string eqn:E; [|apply andb_false_r].
    apply String.eqb_eq in E. rewrite E. apply own_document_ids_spec in Ho.
    now rewrite Ho.
Qed.

(** Alice reads her document; the answer to Bob carries no version of it. *)
Lemma reads_need_owner_or_public_witness :
  (exists x, fst (run (Some alice) (getDocument "id1") world_shared) = Returned (ok x))
  /\ (exists rows, fst (run (Some bob) (getDocumentVersions "id1") world_shared)
                   = Returned (ok rows)
                   /\ forall v, In v rows -> readable bob "id1" world_shared).
Proof.
  split.
  - destruct (reads_need_owner_or_public alice "id1" world_shared eq_refl) as [H _].
    apply H.
    + vm_compute. repeat constructor. intros [].
    + left. vm_compute. eexists. split; [left; reflexivity | split; reflexivity].
  - destruct (reads_need_owner_or_public bob "id1" world_shared eq_refl)
      as (_ & _ & [rows [Hr Hv]] & _).
    exists rows. split; [exact Hr|]. intros v Hin. apply Hv in Hin. tauto.
Defined.

(** The claim as it was stated fails: Bob holds a share on ["id1"], and
    still cannot read the document, its versions or its activity. *)
Lemma share_gives_no_read_access :
  holds_share bob "id1" world_shared
  /\ fst (run (Some bob) (getDocument "id1") world_shared) = Returned (failed NoRows)
  /\ fst (run (Some bob) getDocuments world_shared) = Returned (ok [])
  /\ document_versions world_shared <> []
  /\ fst (run (Some bob) (getDocumentVersions "id1") world_shared) = Returned (ok [])
  /\ fst (run (Some bob) (getActivityLog "id1") world_shared) = Returned (ok []).
Proof.
  split.
  - vm_compute. eexists. split; [left; reflexivity | split; reflexivity].
  - repeat split; try (vm_compute; reflexivity). vm_compute. discriminate.
Qed.

(** ** C5: sharing a document *)



Lemma find_id_none (i : uuid) (l : list DocumentShare.Row) :
  find (fun s => (DocumentShare.id s =? i)%string) l = None ->
  ~ In i (map DocumentShare.id l).
Proof.
  intros H Hin. apply in_map_iff in Hin as [s [Hi Hin]].
  pose proof (find_none _ _ H s Hin) as E. cbn in E. rewrite Hi, String.eqb_refl in E.
  discriminate.
Qed.













(** *** Sharing again

    What the code does when the (document, identity) already has a share. *)

(** A second [upsert] for a (document, identity) that already has a share:
    the generated primary key meets no row, so the statement is an insert,
    and the unique constraint on (document_id, shared_with) refuses it. *)
Lemma upsert_share_again (jwt : option uuid) (d sharedWith : uuid) (p : Permission)
    (by_ : uuid) (w : World) :
  Backend.share_key_taken d sharedWith None (document_shares w) = true ->
  mem (hd "" (rand_db w)) (map DocumentShare.id (document_shares w)) = false ->
  document_shares (snd (Backend.upsert_share jwt d sharedWith p by_ w)) = document_shares w
  /\ exists e, fst (Backend.upsert_share jwt d sharedWith p by_ w) = failed e
               /\ (e = UniqueViolation \/ e = RowLevelSecurity \/ e = NetworkFailure).
Proof.
  intros Hk Hid. unfold Backend.upsert_share, Backend.remote. cbn.
  assert (E : find (fun s => (DocumentShare.id s =? hd "" (rand_db w))%string)
                (document_shares w) = None).
  { destruct (find _ (document_shares w)) as [s|] eqn:E; [|reflexivity]. exfalso.
    apply find_some in E as [Hin Hs]. apply String.eqb_eq in Hs.
    assert (mem (hd "" (rand_db w)) (map DocumentShare.id (document_shares w)) = true)
      by (apply mem_In; rewrite <- Hs; now apply in_map).
    congruence. }
  destruct (hd false (faults w)); cbn;
    [split; [reflexivity | eexists; split; [reflexivity | tauto]]|].
  destruct jwt as [u|]; cbn;
    [|split; [reflexivity | eexists; split; [reflexivity | tauto]]].
  match goal with
  | |- context [if ?b then _ else _] => destruct b
  end; cbn; [split; [reflexivity | eexists; split; [reflexivity | tauto]]|].
  rewrite E, Hk. cbn. split; [reflexivity | eexists; split; [reflexivity | tauto]].
Qed.

(** On the scenario: Alice, the owner, has shared ["id1"] with Bob for
    viewing and now shares it with him for editing.  The second call fails
    with the unique violation, and Bob's share still says [view]. *)
Lemma share_again_conflicts :
  map DocumentShare.permission (document_shares world_shared) = [view]
  /\ fst (run (Some alice) (shareDocument "id1" bob edit) world_shared)
     = Returned (failed UniqueViolation)
  /\ map DocumentShare.permission
       (document_shares (snd (run (Some alice) (shareDocument "id1" bob edit) world_shared)))
     = [view].
Proof. repeat split; vm_compute; reflexivity. Qed.

(** * Further properties *)

(** ** The scenario *)

Lemma alice_owns (w : World) :
  documents w = documents world_with_document -> owns alice "id1" w.
Proof.
  intros H. unfold owns. rewrite H. vm_compute.
  eexists. split; [left; reflexivity | split; reflexivity].
Qed.

Lemma bob_does_not_own (w : World) :
  documents w = documents world_with_document -> ~ owns bob "id1" w.
Proof.
  intros H [doc [Hin [_ Hc]]]. rewrite H in Hin. vm_compute in Hin.
  destruct Hin as [<-|[]]. discriminate.
Qed.

(** ** Sorting *)

Lemma insert_sorted_perm {A} (le : A -> A -> bool) (x : A) (l : list A) :
  Permutation (insert_sorted le x l) (x :: l).
Proof.
  induction l as [|y t IH]; cbn; [reflexivity|].
  destruct (le x y); [reflexivity|].
  rewrite IH. apply perm_swap.
Qed.

Lemma sort_by_perm {A} (le : A -> A -> bool) (l : list A) : Permutation (sort_by le l) l.
Proof.
  induction l as [|a l IH]; cbn; [reflexivity|].
  rewrite insert_sorted_perm. now constructor.
Qed.

Lemma order_by_perm {A} (key : A -> Z) (asc : bool) (l : list A) :
  Permutation (order_by key asc l) l.
Proof. apply sort_by_perm. Qed.

Lemma insert_sorted_sorted {A} (key : A -> Z) (asc : bool) (x : A) (l : list A) :
  StronglySorted (fun a b => in_order asc (key a) (key b)) l ->
  StronglySorted (fun a b => in_order asc (key a) (key b))
    (insert_sorted (fun a b => if asc then key a <=? key b else key b <=? key a) x l).
Proof.
  induction l as [|y t IH]; intros H; cbn.
  - repeat constructor.
  - inversion H as [|? ? Ht Hy]; subst.
    destruct (if asc then key x <=? key y else key y <=? key x) eqn:E.
    + constructor; [assumption|]. 
      assert (Hxy : in_order asc (key x) (key y))
        by (unfold in_order; destruct asc; lia).
      constructor; [exact Hxy|].
      rewrite Forall_forall in *. intros z Hz. specialize (Hy z Hz).
      unfold in_order in *. destruct asc; lia.
    + constructor; [now apply IH|].
      rewrite Forall_forall in *. intros z Hz.
      apply insert_sorted_In in Hz as [->|Hz]; [|now apply Hy].
      unfold in_order. destruct asc; lia.
Qed.

Lemma order_by_sorted {A} (key : A -> Z) (asc : bool) (l : list A) :
  ordered key asc (order_by key asc l).
Proof.
  unfold ordered, order_by, sort_by. induction l as [|a l IH]; cbn; [constructor|].
  now apply insert_sorted_sorted.
Qed.

Lemma NoDup_map_filter {A B} (f : A -> B) (P : A -> bool) (l : list A) :
  NoDup (map f l) -> NoDup (map f (filter P l)).
Proof.
  induction l as [|a l IH]; cbn; intros H; [constructor|].
  inversion H as [|? ? Hn Hd]; subst.
  destruct (P a); cbn; [constructor|]; auto.
  intros Hin. apply Hn. apply in_map_iff in Hin as [x [Hx Hin]].
  apply filter_In in Hin as [Hin _]. rewrite <- Hx. now apply in_map.
Qed.

Lemma ordered_falling {A} (key : A -> Z) (l : list A) :
  ordered key false l -> NoDup (map key l) -> falling key l.
Proof.
  unfold ordered, falling. induction 1 as [|a l Hs IH Ha]; cbn; intros Hnd; constructor.
  - apply IH. now inversion Hnd.
  - inversion Hnd as [|? ? Hn _]; subst.
    rewrite Forall_forall in *. intros x Hx. specialize (Ha x Hx). unfold in_order in Ha.
    assert (key x <> key a) by (intros E; apply Hn; rewrite <- E; now apply in_map).
    lia.
Qed.

Lemma ordered_head {A} (key : A -> Z) (asc : bool) (l : list A) (x : A) :
  ordered key asc l -> In x l -> in_order asc (key (hd x l)) (key x).
Proof.
  intros H Hin. destruct H as [|a l Hs Ha]; [destruct Hin|]. cbn.
  destruct Hin as [->|Hin].
  - unfold in_order. destruct asc; lia.
  - rewrite Forall_forall in Ha. now apply Ha.
Qed.

(** Within one document the version numbers identify the rows. *)
Lemma version_numbers_NoDup (d : uuid) (l : list DocumentVersion.Row) :
  NoDup (map version_key l) ->
  NoDup (map DocumentVersion.version_number (Backend.versions_of d l)).
Proof.
  unfold Backend.versions_of. induction l as [|a l IH]; cbn; intros H; [constructor|].
  inversion H as [|? ? Hn Hd]; subst.
  destruct (DocumentVersion.document_id a =? d)%string eqn:E; cbn; [constructor|]; auto.
  intros Hin. apply Hn. apply in_map_iff in Hin as [x [Hx Hin]].
  apply filter_In in Hin as [Hin Hxd]. apply String.eqb_eq in E, Hxd.
  apply in_map_iff. exists x. split; [|assumption].
  unfold version_key. congruence.
Qed.

(** ** Reading the versions of a document *)

(** X1.  [getDocumentVersions] answers with the versions of the document that
    the caller may read, each once, highest number first: all of them for
    the creator of the document and for a public one, none otherwise.  The
    first row is the latest version, and on a ledger with unique keys the
    numbers fall strictly. *)
Theorem versions_are_listed_latest_first (u d : uuid) (w : World) :
  hd false (faults w) = false ->
  exists rows,
    fst (run (Some u) (getDocumentVersions d) w) = Returned (ok rows)
    /\ ordered DocumentVersion.version_number false rows
    /\ (readable u d w ->
        Permutation rows (Backend.versions_of d (document_versions w)))
    /\ (~ readable u d w -> rows = [])
    /\ (forall v, In v rows ->
          DocumentVersion.version_number v
          <= DocumentVersion.version_number (hd v rows))
    /\ (versions_unique w -> falling DocumentVersion.version_number rows).
Proof.
  intros Hf. rewrite select_versions_eq, Hf. eexists. split; [reflexivity|].
  assert (Hr : readable u d w ->
               Backend.versions_of d (filter (Policy.document_versions_select u w)
                                        (document_versions w))
               = Backend.versions_of d (document_versions w)).
  { intros H. unfold Backend.versions_of. apply filter_filter_absorb.
    intros v _ Hv. apply String.eqb_eq in Hv. unfold Policy.document_versions_select.
    rewrite Hv. now apply readable_spec. }
  split; [apply order_by_sorted|]. split; [|split; [|split]].
  - intros H. rewrite order_by_perm. now rewrite Hr.
  - intros H.
    match goal with
    | |- order_by _ _ ?l = [] => assert (E : l = [])
    end.
    { unfold Backend.versions_of. rewrite filter_filter.
      match goal with
      | |- filter ?P ?l = [] => destruct (filter P l) as [|x t] eqn:E; [reflexivity|];
          exfalso; assert (Hin : In x (filter P l)) by (rewrite E; now left)
      end.
      apply filter_In in Hin as [_ Hp]. bools. apply H. subst d.
      apply readable_spec. assumption. }
    rewrite E. reflexivity.
  - intros v Hv. exact (ordered_head _ _ _ _ (order_by_sorted _ _ _) Hv).
  - intros Hu. apply ordered_falling; [apply order_by_sorted|].
    eapply Permutation_NoDup.
    + apply Permutation_map. symmetry. apply order_by_perm.
    + unfold Backend.versions_of. rewrite filter_filter.
      rewrite <- filter_filter.
      change (filter (fun v => (DocumentVersion.document_id v =? d)%string)
                (filter (Policy.document_versions_select u w) (document_versions w)))
        with (Backend.versions_of d (filter (Policy.document_versions_select u w)
                                       (document_versions w))).
      apply version_numbers_NoDup. apply NoDup_map_filter. exact Hu.
Qed.

(** Alice's two versions come back as 2, 1. *)
Lemma versions_are_listed_latest_first_witness :
  exists rows,
    fst (run (Some alice) (getDocumentVersions "id1") world_with_two_versions)
    = Returned (ok rows)
    /\ falling DocumentVersion.version_number rows
    /\ length rows = 2%nat.
Proof.
  destruct (versions_are_listed_latest_first alice "id1" world_with_two_versions eq_refl)
    as [rows (H1 & _ & H3 & _ & _ & H6)].
  exists rows. split; [exact H1|]. split.
  - apply H6. vm_compute. repeat constructor; cbn; intuition discriminate.
  - rewrite (Permutation_length (H3 (or_introl (alice_owns _ eq_refl)))). reflexivity.
Defined.

(** ** Reading the activity of a document *)

Lemma ordered_app {A} (key : A -> Z) (asc : bool) (l1 l2 : list A) :
  ordered key asc (l1 ++ l2) ->
  ordered key asc l1
  /\ forall a b, In a l1 -> In b l2 -> in_order asc (key a) (key b).
Proof.
  unfold ordered. induction l1 as [|x l1 IH]; cbn; intros H.
  - split; [constructor | intros a b []].
  - inversion H as [|? ? Hs Hx]; subst. destruct (IH Hs) as [H1 H2]. split.
    + constructor; [assumption|]. rewrite Forall_forall in *.
      intros y Hy. apply Hx. apply in_or_app. now left.
    + intros a b [<-|Ha] Hb; [|now apply H2].
      rewrite Forall_forall in Hx. apply Hx. apply in_or_app. now right.
Qed.

Lemma limit_ordered {A} (key : A -> Z) (asc : bool) (n : nat) (l : list A) :
  ordered key asc l ->
  ordered key asc (limit n l)
  /\ forall a b, In a (limit n l) -> In b l -> ~ In b (limit n l) ->
                 in_order asc (key a) (key b).
Proof.
  unfold limit. intros H. rewrite <- (firstn_skipn n l) in H.
  destruct (ordered_app _ _ _ _ H) as [H1 H2]. split; [exact H1|].
  intros a b Ha Hb Hn. apply H2; [exact Ha|].
  rewrite <- (firstn_skipn n l) in Hb. apply in_app_or in Hb as [Hb|Hb];
    [contradiction | exact Hb].
Qed.

(** X2.  [getActivityLog] shows the creator of a document the newest 50 entries
    of its activity, newest first: never more than 50, all of them when
    there are no more than 50, and no entry that is left out is newer than
    one that is shown. *)
Theorem activity_log_shows_the_newest_50 (u d : uuid) (w : World) :
  hd false (faults w) = false ->
  owns u d w ->
  let entries :=
    filter (fun l => (ActivityLog.document_id l =? d)%string) (activity_logs w) in
  exists rows,
    fst (run (Some u) (getActivityLog d) w) = Returned (ok rows)
    /\ length rows = Nat.min 50 (length entries)
    /\ ordered ActivityLog.created_at false rows
    /\ (forall e, In e rows -> In e entries)
    /\ (forall e r, In e entries -> ~ In e rows -> In r rows ->
                    ActivityLog.created_at e <= ActivityLog.created_at r)
    /\ ((length entries <= 50)%nat -> Permutation rows entries).
Proof.
  intros Hf Ho entries. rewrite select_activity_eq, Hf. eexists. split; [reflexivity|].
  assert (E : filter (fun l => (ActivityLog.document_id l =? d)%string)
                (filter (Policy.activity_logs_select u w) (activity_logs w)) = entries).
  { subst entries. rewrite filter_filter. apply filter_ext_in.
    intros e _. unfold Policy.activity_logs_select.
    destruct (ActivityLog.document_id e =? d)%string eqn:Ed; [|apply andb_false_r].
    apply String.eqb_eq in Ed. rewrite Ed. apply own_document_ids_spec in Ho.
    now rewrite Ho. }
  rewrite E.
  pose proof (order_by_sorted ActivityLog.created_at false entries) as Hs.
  pose proof (order_by_perm ActivityLog.created_at false entries) as Hp.
  destruct (limit_ordered _ _ 50 _ Hs) as [H1 H2].
  split; [|split; [exact H1|split; [|split]]].
  - unfold limit. rewrite length_firstn. now rewrite (Permutation_length Hp).
  - intros e He. apply limit_In in He. now apply order_by_In in He.
  - intros e r He Hn Hr. apply (H2 r e Hr); [now apply order_by_In | exact Hn].
  - intros Hl. unfold limit. rewrite firstn_all2; [exact Hp|].
    now rewrite (Permutation_length Hp).
Qed.

(** The two entries of Alice's document, the upload before the creation. *)
Lemma activity_log_shows_the_newest_50_witness :
  exists rows,
    fst (run (Some alice) (getActivityLog "id1") world_with_version) = Returned (ok rows)
    /\ length rows = 2%nat
    /\ ordered ActivityLog.created_at false rows.
Proof.
  destruct (activity_log_shows_the_newest_50 alice "id1" world_with_version eq_refl
              (alice_owns _ eq_refl))
    as [rows (H1 & H2 & H3 & _)].
  exists rows. split; [exact H1|]. split; [exact H2 | exact H3].
Defined.

(** ** Reading the comments of a document *)

Lemma select_comments_general (u d : uuid) (versionId : option uuid) (w : World) :
  fst (run (Some u) (getComments d versionId) w) =
  Returned (if hd false (faults w) then failed NetworkFailure
            else ok (order_by Comment.created_at true
                       (match truthy versionId with
                        | None => fun l => l
                        | Some v => filter (fun c => Backend.opt_eqb (Comment.version_id c) v)
                        end
                          (filter (fun c => (Comment.document_id c =? d)%string)
                             (filter (Policy.comments_select u w) (comments w)))))).
Proof.
  unfold getComments, await. cbn [run handle].
  unfold Backend.select_comments, Backend.remote. cbn.
  destruct (hd false (faults w)); [reflexivity|]. cbn.
  destruct (truthy versionId); reflexivity.
Qed.

Lemma opt_eqb_spec (x : option uuid) (y : uuid) : Backend.opt_eqb x y = true <-> x = Some y.
Proof.
  destruct x as [z|]; cbn; [|split; discriminate].
  rewrite String.eqb_eq. split; [now intros -> | now intros [= ->]].
Qed.

(** X3.  [getComments] answers with the comments of the document that the caller
    may read, oldest first.  A version id restricts them to the comments on
    that version; an empty version id is no restriction at all. *)
Theorem comments_are_listed_oldest_first (u d : uuid) (versionId : option uuid)
    (w : World) :
  hd false (faults w) = false ->
  exists rows,
    fst (run (Some u) (getComments d versionId) w) = Returned (ok rows)
    /\ ordered Comment.created_at true rows
    /\ (forall c, In c rows <->
                  In c (comments w) /\ Comment.document_id c = d /\ readable u d w
                  /\ match versionId with
                     | None | Some "" => True
                     | Some v => Comment.version_id c = Some v
                     end)
    /\ fst (run (Some u) (getComments d (Some "")) w)
       = fst (run (Some u) (getComments d None) w).
Proof.
  intros Hf. rewrite !select_comments_general, Hf. eexists. split; [reflexivity|].
  split; [apply order_by_sorted|]. split; [|reflexivity].
  intros c. rewrite order_by_In.
  assert (K : In c (filter (fun c => (Comment.document_id c =? d)%string)
                      (filter (Policy.comments_select u w) (comments w)))
              <-> In c (comments w) /\ Comment.document_id c = d /\ readable u d w).
  { rewrite !filter_In, String.eqb_eq. unfold Policy.comments_select. split.
    - intros [[Hin Hs] Hd]. rewrite Hd in Hs. apply readable_spec in Hs. auto.
    - intros (Hin & Hd & Hr). apply readable_spec in Hr. rewrite Hd. auto. }
  destruct versionId as [[|a v]|]; cbn [truthy].
  - rewrite K. tauto.
  - rewrite filter_In, K, opt_eqb_spec. tauto.
  - rewrite K. tauto.
Qed.

(** Of Alice's two comments, one is on version ["id3"]. *)
Lemma comments_are_listed_oldest_first_witness :
  exists rows,
    fst (run (Some alice) (getComments "id1" (Some "id3")) world_with_comments)
    = Returned (ok rows)
    /\ (forall c, In c rows -> Comment.version_id c = Some "id3")
    /\ fst (run (Some alice) (getComments "id1" (Some "")) world_with_comments)
       = fst (run (Some alice) (getComments "id1" None) world_with_comments).
Proof.
  destruct (comments_are_listed_oldest_first alice "id1" (Some "id3") world_with_comments
              eq_refl)
    as [rows (H1 & _ & H3 & H4)].
  exists rows. split; [exact H1|]. split; [|exact H4].
  intros c Hc. apply H3 in Hc. tauto.
Defined.

(** ** Listing the documents *)

(** X4.  [getDocuments] lists the documents the caller created and the public
    ones, each once, last updated first, and each with all the versions of
    that document and no others. *)
Theorem documents_are_listed_last_updated_first (u : uuid) (w : World) :
  hd false (faults w) = false ->
  exists rows,
    fst (run (Some u) getDocuments w) = Returned (ok rows)
    /\ ordered (fun row => Document.updated_at (fst row)) false rows
    /\ Permutation (map fst rows)
         (filter (fun doc => (Document.created_by doc =? u)%string || Document.is_public doc)
            (documents w))
    /\ (forall doc versions, In (doc, versions) rows ->
          forall v, In v versions <->
                    In v (document_versions w)
                    /\ DocumentVersion.document_id v = Document.id doc).
Proof.
  intros Hf. rewrite select_documents_eq, Hf. eexists. split; [reflexivity|].
  pose proof (order_by_sorted Document.updated_at false (Policy.visible_documents u w)) as Hs.
  pose proof (order_by_perm Document.updated_at false (Policy.visible_documents u w)) as Hp.
  split; [|split].
  - revert Hs. unfold ordered.
    generalize (order_by Document.updated_at false (Policy.visible_documents u w)).
    induction 1 as [|a l Hl IH Ha]; cbn; constructor; [exact IH|].
    rewrite Forall_forall in *. intros x Hx. apply in_map_iff in Hx as [y [<- Hy]].
    cbn. now apply Ha.
  - rewrite map_map. cbn. rewrite map_id. exact Hp.
  - intros doc versions Hin v. apply in_map_iff in Hin as [doc' [Heq Hin]].
    unfold Backend.embed_versions in Heq. injection Heq as -> <-.
    apply order_by_In in Hin. unfold Policy.visible_documents in Hin.
    apply filter_In in Hin as [Hin Hsel].
    unfold Backend.versions_of, Backend.visible_versions.
    rewrite !filter_In, String.eqb_eq. unfold Policy.document_versions_select.
    assert (Hr : readable u (Document.id doc) w).
    { apply documents_select_spec in Hsel as [Hc|Hc]; [left | right];
        exists doc; auto. }
    apply readable_spec in Hr. split.
    + intros [[Hv _] Hd]. auto.
    + intros [Hv Hd]. rewrite Hd. auto.
Qed.

(** Alice is shown her one document, with its one version. *)
Lemma documents_are_listed_last_updated_first_witness :
  exists rows,
    fst (run (Some alice) getDocuments world_with_version) = Returned (ok rows)
    /\ length rows = 1%nat
    /\ forall doc versions, In (doc, versions) rows ->
         forall v, In v versions -> DocumentVersion.document_id v = Document.id doc.
Proof.
  destruct (documents_are_listed_last_updated_first alice world_with_version eq_refl)
    as [rows (H1 & _ & H3 & H4)].
  exists rows. split; [exact H1|]. split.
  - rewrite <- (length_map fst), (Permutation_length H3). reflexivity.
  - intros doc versions Hin v Hv. apply (H4 doc versions Hin v). exact Hv.
Defined.

(** ** Creating a document *)

Lemma run_faults_nil {A} (jwt : option uuid) (p : Prog A) (w : World) :
  faults w = [] -> faults (snd (run jwt p w)) = [].
Proof.
  revert w. induction p as [a|m|R r k IH]; intros w H; cbn; try assumption.
  pose proof (handle_faults jwt r w) as F.
  destruct (handle jwt r w) as [x w1]. cbn in F. apply IH.
  rewrite F, H. now destruct (local r).
Qed.

Lemma insert_document_fresh (u : uuid) (title : string) (description : option string)
    (w : World) :
  hd false (faults w) = false ->
  In u (auth_users w) ->
  ~ In (hd "" (rand_db w)) (map Document.id (documents w)) ->
  let doc := Document.mk (hd "" (rand_db w)) title description u (now w + 1) (now w + 1)
               false in
  fst (Backend.insert_document (Some u) title description u w) = ok doc
  /\ documents (snd (Backend.insert_document (Some u) title description u w))
     = documents w ++ [doc].
Proof.
  intros Hf Hu Hfresh doc. subst doc. open_backend. cbn. rewrite Hf. cbn.
  unfold Policy.documents_insert, Policy.documents_select. cbn.
  rewrite String.eqb_refl. cbn.
  destruct (mem (hd "" (rand_db w)) (map Document.id (documents w))) eqn:E1.
  { apply mem_In in E1. contradiction. }
  apply mem_In in Hu. rewrite Hu. cbn. split; reflexivity.
Qed.

(** X5.  A document created by [u] is private: it belongs to [u], is not public,
    is the last row of the table, and [getDocument] on its id gives it back
    to [u] and gives nothing (the no-rows error) to any other identity. *)
Theorem created_document_is_private_and_read_back (u : uuid) (title : string)
    (description : option string) (w : World) :
  faults w = [] ->
  In u (auth_users w) ->
  ~ In (hd "" (rand_db w)) (map Document.id (documents w)) ->
  let w' := snd (run (Some u) (createDocument title description) w) in
  exists doc,
    fst (run (Some u) (createDocument title description) w) = Returned (ok doc)
    /\ Document.title doc = title
    /\ Document.description doc = description
    /\ Document.created_by doc = u
    /\ Document.is_public doc = false
    /\ Document.updated_at doc = Document.created_at doc
    /\ documents w' = documents w ++ [doc]
    /\ (exists versions,
          fst (run (Some u) (getDocument (Document.id doc)) w')
          = Returned (ok (doc, versions)))
    /\ (forall v, v <> u ->
          fst (run (Some v) (getDocument (Document.id doc)) w')
          = Returned (failed NoRows)).
Proof.
  intros Hf Hu Hfresh w'.
  pose proof (run_faults_nil (Some u) (createDocument title description) w Hf) as Hf'.
  fold w' in Hf'. subst w'. revert Hf'.
  rewrite createDocument_run, getUser_eq, Hf. cbn [hd].
  set (w1 := snd (transport w)).
  assert (Hf1 : hd false (faults w1) = false) by (subst w1; cbn; now rewrite Hf).
  assert (Hu1 : In u (auth_users w1)) by exact Hu.
  assert (Hfresh1 : ~ In (hd "" (rand_db w1)) (map Document.id (documents w1)))
    by exact Hfresh.
  destruct (insert_document_fresh u title description w1 Hf1 Hu1 Hfresh1) as [Hr Hd].
  destruct (Backend.insert_document (Some u) title description u w1) as [r w2].
  cbn [fst snd] in Hr, Hd. subst r. rewrite and_log_run. cbn [fst snd error data ok].
  set (doc := Document.mk (hd "" (rand_db w1)) title description u (now w1 + 1)
                (now w1 + 1) false) in *.
  set (w3 := snd (run (Some u) (logActivity (Document.id doc) "document_created"
                                  (Some [("title", JString title)])) w2)).
  intros Hf3.
  assert (Hd3 : documents w3 = documents w ++ [doc]).
  { pose proof (logActivity_frame (Some u) (Document.id doc) "document_created"
                  (Some [("title", JString title)]) T_documents w2 ltac:(discriminate)) as F.
    unfold unchanged in F. fold w3 in F. rewrite F. exact Hd. }
  exists doc. repeat (split; [reflexivity|]). split; [exact Hd3|].
  assert (K : forall v,
             filter (fun x => (Document.id x =? Document.id doc)%string)
               (Policy.visible_documents v w3)
             = if (u =? v)%string then [doc] else []).
  { intros v. unfold Policy.visible_documents. rewrite Hd3, filter_app, filter_app.
    assert (E : filter (fun x => (Document.id x =? Document.id doc)%string)
                  (filter (Policy.documents_select v) (documents w)) = []).
    { match goal with
      | |- filter ?P ?l = [] => destruct (filter P l) as [|x t] eqn:E; [reflexivity|];
          exfalso; assert (Hin : In x (filter P l)) by (rewrite E; now left)
      end.
      apply filter_In in Hin as [Hin Hid]. apply filter_In in Hin as [Hin _].
      apply String.eqb_eq in Hid. apply Hfresh.
      change (hd "" (rand_db w)) with (Document.id doc). rewrite <- Hid.
      now apply in_map. }
    rewrite E. cbn [filter app]. unfold Policy.documents_select. cbn.
    rewrite orb_false_r. destruct (u =? v)%string; cbn; [|reflexivity].
    now rewrite String.eqb_refl. }
  split.
  - eexists. rewrite select_document_eq, Hf3. cbn [hd]. rewrite K, String.eqb_refl.
    reflexivity.
  - intros v Hv. rewrite select_document_eq, Hf3. cbn [hd]. rewrite K.
    destruct (u =? v)%string eqn:E; [|reflexivity].
    apply String.eqb_eq in E. congruence.
Qed.

(** Alice creates a document in the empty world; Bob cannot read it. *)
Lemma created_document_is_private_and_read_back_witness :
  exists doc,
    fst (run (Some alice) (createDocument "Plan" (Some "draft")) empty_world)
    = Returned (ok doc)
    /\ Document.is_public doc = false
    /\ fst (run (Some bob) (getDocument (Document.id doc))
              (snd (run (Some alice) (createDocument "Plan" (Some "draft")) empty_world)))
       = Returned (failed NoRows).
Proof.
  assert (Hu : In alice (auth_users empty_world)) by (left; reflexivity).
  assert (Hfresh : ~ In (hd "" (rand_db empty_world)) (map Document.id (documents empty_world)))
    by (intros []).
  destruct (created_document_is_private_and_read_back alice "Plan" (Some "draft")
              empty_world eq_refl Hu Hfresh)
    as [doc (H1 & _ & _ & _ & H5 & _ & _ & _ & H9)].
  exists doc. split; [exact H1|]. split; [exact H5|].
  apply H9. discriminate.
Defined.

(** ** Downloading what was uploaded *)

Lemma split_prefix (sep : ascii) (a b : string) :
  occurs sep a = false -> split sep (a ^^ String sep b) = a :: split sep b.
Proof.
  induction a as [|c r IH]; cbn; intros H.
  - now rewrite Ascii.eqb_refl.
  - apply orb_false_iff in H as [Hc Hr]. rewrite Hc, (IH Hr). reflexivity.
Qed.

Lemma split_nonempty (sep : ascii) (s : string) : split sep s <> [].
Proof.
  destruct s as [|c r]; cbn; [discriminate|].
  destruct (Ascii.eqb c sep); [discriminate|]. destruct (split sep r); discriminate.
Qed.

(** The first folder of [<d>/<name>] is [d]. *)
Lemma foldername_prefix (d name : string) :
  occurs "/" d = false ->
  exists rest, Policy.foldername (d ^^ "/" ^^ name) = d :: rest.
Proof.
  intros H. unfold Policy.foldername.
  change (d ^^ "/" ^^ name) with (d ^^ String "/" name).
  rewrite (split_prefix "/" d name H).
  pose proof (split_nonempty "/" name) as Hn.
  destruct (split "/" name) as [|x t]; [congruence|].
  exists (removelast (x :: t)). reflexivity.
Qed.

(** The SELECT policy on [storage.objects], read as a condition on the
    object: it lies in the bucket, and its first folder is the id of a
    document the caller created or of a public one. *)
Lemma objects_select_spec (u : uuid) (w : World) (o : StorageObject.Row) :
  Policy.objects_select u w o = true <->
  StorageObject.bucket_id o = "documents"
  /\ exists d rest, Policy.foldername (StorageObject.name o) = d :: rest /\ readable u d w.
Proof.
  unfold Policy.objects_select. rewrite andb_true_iff, String.eqb_eq.
  assert (K : forall d,
             mem d (map Document.id
                      (filter
                         (fun doc =>
                            (Document.created_by doc =? u)%string
                            || Document.is_public doc
                            || mem (Document.id doc)
                                 (map DocumentShare.document_id
                                    (filter (fun s => (DocumentShare.shared_with s =? u)%string)
                                       (filter (Policy.document_shares_select u)
                                          (document_shares w)))))
                         (Policy.visible_documents u w))) = true
             <-> readable u d w).
  { intros d. rewrite mem_In, in_map_iff. unfold Policy.visible_documents. split.
    - intros [doc [Hid Hin]]. apply filter_In in Hin as [Hin _].
      apply filter_In in Hin as [Hin Hs].
      apply documents_select_spec in Hs as [Hc|Hc]; [left | right]; exists doc; auto.
    - intros [[doc (Hin & Hid & Hc)]|[doc (Hin & Hid & Hc)]]; exists doc;
        (split; [assumption|]); apply filter_In;
        (split; [apply filter_In; split; [assumption|]; apply documents_select_spec; auto|]).
      + apply String.eqb_eq in Hc. now rewrite Hc.
      + rewrite Hc, orb_true_r. reflexivity. }
  split.
  - intros [Hb Hm]. split; [assumption|].
    destruct (Policy.foldername (StorageObject.name o)) as [|d rest]; [discriminate|].
    exists d, rest. split; [reflexivity | now apply K].
  - intros [Hb [d [rest [Hf Hr]]]]. split; [assumption|]. rewrite Hf. now apply K.
Qed.

Lemma storage_download_eq (u : uuid) (path : string) (w : World) :
  fst (run (Some u) (downloadDocumentVersion path) w) =
  Returned (if hd false (faults w) then failed NetworkFailure
            else match filter (fun o => Backend.same_object "documents" path o
                                        && Policy.objects_select u w o) (objects w) with
                 | o :: _ => ok (StorageObject.body o)
                 | [] => failed ObjectNotFound
                 end).
Proof.
  unfold downloadDocumentVersion, await. cbn [run handle].
  unfold Backend.storage_download, Backend.remote. cbn.
  destruct (hd false (faults w)); [reflexivity|]. cbn.
  match goal with
  | |- context [Policy.objects_select u ?w1] =>
      change (Policy.objects_select u w1) with (Policy.objects_select u w)
  end.
  match goal with
  | |- context [filter ?P ?l] => destruct (filter P l)
  end; reflexivity.
Qed.

Lemma same_object_spec (b n : string) (o : StorageObject.Row) :
  Backend.same_object b n o = true <-> StorageObject.bucket_id o = b /\ StorageObject.name o = n.
Proof. unfold Backend.same_object. now rewrite andb_true_iff, !String.eqb_eq. Qed.

(** When [downloadDocumentVersion] gives bytes, and whose. *)
Lemma download_spec (u : uuid) (path : string) (w : World) :
  hd false (faults w) = false ->
  ((exists o, In o (objects w) /\ StorageObject.bucket_id o = "documents"
              /\ StorageObject.name o = path)
   /\ (exists d rest, Policy.foldername path = d :: rest /\ readable u d w) ->
   exists o, In o (objects w) /\ StorageObject.bucket_id o = "documents"
             /\ StorageObject.name o = path
             /\ fst (run (Some u) (downloadDocumentVersion path) w)
                = Returned (ok (StorageObject.body o)))
  /\ (~ ((exists o, In o (objects w) /\ StorageObject.bucket_id o = "documents"
                    /\ StorageObject.name o = path)
         /\ (exists d rest, Policy.foldername path = d :: rest /\ readable u d w)) ->
      fst (run (Some u) (downloadDocumentVersion path) w) = Returned (failed ObjectNotFound)).
Proof.
  intros Hf. rewrite storage_download_eq, Hf.
  match goal with
  | |- context [filter ?P ?l] => destruct (filter P l) as [|x t] eqn:E
  end.
  - split; [|reflexivity].
    intros [[o (Hin & Hb & Hn)] Hr]. exfalso.
    assert (Hx : In o []).
    { rewrite <- E. apply filter_In. split; [assumption|].
      apply andb_true_iff. split; [now apply same_object_spec|].
      apply objects_select_spec. rewrite Hn. auto. }
    destruct Hx.
  - match type of E with
    | filter ?P ?l = _ => assert (Hx : In x (filter P l)) by (rewrite E; now left)
    end.
    apply filter_In in Hx as [Hin Hp]. apply andb_true_iff in Hp as [Hs Hsel].
    apply same_object_spec in Hs as [Hb Hn].
    apply objects_select_spec in Hsel as [_ Hr]. rewrite Hn in Hr.
    split.
    + intros _. exists x. auto.
    + intros H. exfalso. apply H. split; [exists x; auto | exact Hr].
Qed.

Lemma download_inv (u : uuid) (path body : string) (w : World) :
  fst (run (Some u) (downloadDocumentVersion path) w) = Returned (ok body) ->
  exists o, In o (objects w) /\ StorageObject.bucket_id o = "documents"
            /\ StorageObject.name o = path /\ StorageObject.body o = body
            /\ exists d rest, Policy.foldername path = d :: rest /\ readable u d w.
Proof.
  intros Hb. rewrite storage_download_eq in Hb.
  destruct (hd false (faults w)); [discriminate|].
  match type of Hb with
  | context [filter ?F ?l] => destruct (filter F l) as [|x t] eqn:E
  end; [discriminate|].
  match type of E with
  | filter ?F ?l = _ => assert (Hx : In x (filter F l)) by (rewrite E; now left)
  end.
  apply filter_In in Hx as [Hin Hp]. apply andb_true_iff in Hp as [Hs Hsel].
  apply same_object_spec in Hs as [Hbk Hn].
  apply objects_select_spec in Hsel as [_ Hr]. rewrite Hn in Hr.
  injection Hb as <-. exists x. auto.
Qed.

(** X6.  [downloadDocumentVersion] gives the bytes of an object of the bucket
    exactly when the path names one and its first folder is the id of a
    document the caller created or of a public one; otherwise the answer
    is the object-not-found error, as it always is without a session.  The
    first folder of the path of an upload is the document id. *)
Theorem download_needs_a_readable_folder (u : uuid) (path : string) (w : World) :
  hd false (faults w) = false ->
  ((exists body,
      fst (run (Some u) (downloadDocumentVersion path) w) = Returned (ok body))
   <-> (exists o, In o (objects w) /\ StorageObject.bucket_id o = "documents"
                  /\ StorageObject.name o = path)
       /\ (exists d rest, Policy.foldername path = d :: rest /\ readable u d w))
  /\ (forall body,
        fst (run (Some u) (downloadDocumentVersion path) w) = Returned (ok body) ->
        exists o, In o (objects w) /\ StorageObject.name o = path
                  /\ StorageObject.body o = body)
  /\ (forall r,
        fst (run (Some u) (downloadDocumentVersion path) w) = Returned r ->
        data r = None -> error r = Some ObjectNotFound)
  /\ fst (run None (downloadDocumentVersion path) w) = Returned (failed ObjectNotFound)
  /\ (forall d token file,
        occurs "/" d = false ->
        exists rest, Policy.foldername (filePath d token file) = d :: rest).
Proof.
  intros Hf. destruct (download_spec u path w Hf) as [Hyes Hno].
  split; [|split; [|split; [|split]]].
  - split.
    + intros [body Hb]. destruct (download_inv _ _ _ _ Hb) as [o (H1 & H2 & H3 & _ & H5)].
      split; [exists o; auto | exact H5].
    + intros H. destruct (Hyes H) as [o (_ & _ & _ & Ho)]. eauto.
  - intros body Hb. destruct (download_inv _ _ _ _ Hb) as [o (H1 & _ & H3 & H4 & _)].
    eauto.
  - intros r Hr Hd. rewrite storage_download_eq, Hf in Hr. injection Hr as <-.
    match type of Hd with
    | context [filter ?F ?l] => destruct (filter F l)
    end; [reflexivity | discriminate].
  - unfold downloadDocumentVersion, await. cbn [run handle].
    unfold Backend.storage_download, Backend.remote. cbn. now rewrite Hf.
  - intros d token file Hd. unfold filePath. now apply foldername_prefix.
Qed.

(** Alice downloads her file; Bob is told there is no such object. *)
Lemma download_needs_a_readable_folder_witness :
  (exists body,
     fst (run (Some alice) (downloadDocumentVersion "id1/t1.pdf") world_with_version)
     = Returned (ok body))
  /\ (forall r,
        fst (run (Some bob) (downloadDocumentVersion "id1/t1.pdf") world_with_version)
        = Returned r ->
        data r = None -> error r = Some ObjectNotFound).
Proof.
  destruct (download_needs_a_readable_folder alice "id1/t1.pdf" world_with_version eq_refl)
    as (H1 & _).
  destruct (download_needs_a_readable_folder bob "id1/t1.pdf" world_with_version eq_refl)
    as (_ & _ & H3 & _).
  split; [|exact H3].
  apply H1. split.
  - eexists. split; [left; reflexivity | split; reflexivity].
  - exists "id1", []. split; [reflexivity|]. left. apply alice_owns. reflexivity.
Defined.

Lemma storage_upload_free (jwt : option uuid) (p : string) (file : File.t) (w w' : World) :
  Backend.storage_upload jwt p file w = (None, w') ->
  existsb (Backend.same_object "documents" p) (objects w) = false.
Proof.
  intros H. open_backend. crack; try discriminate. reflexivity.
Qed.

Lemma filter_none {A} (P Q : A -> bool) (l : list A) :
  existsb P l = false -> filter (fun x => P x && Q x) l = [].
Proof.
  induction l as [|a l IH]; cbn; intros H; [reflexivity|].
  apply orb_false_iff in H as [Ha Hl]. rewrite Ha. cbn. now apply IH.
Qed.

(** Where a successful upload has put the bytes. *)
Lemma uploadDocumentVersion_stored (jwt : option uuid) (d : uuid) (file : File.t)
    (notes : option string) (w : World) (r : Response DocumentVersion.Row)
    (v : DocumentVersion.Row) :
  fst (run jwt (uploadDocumentVersion d file notes) w) = Returned r ->
  data r = Some v ->
  let w' := snd (run jwt (uploadDocumentVersion d file notes) w) in
  exists u pre,
    jwt = Some u /\ owns u d w'
    /\ DocumentVersion.file_size v = File.size file
    /\ (exists token, DocumentVersion.file_path v = filePath d token file)
    /\ objects w'
       = pre ++ [StorageObject.mk "documents" (DocumentVersion.file_path v) u
                   (File.bytes file)]
    /\ existsb (Backend.same_object "documents" (DocumentVersion.file_path v)) pre = false.
Proof.
  intros Hr Hv w'. subst w'. revert Hr. rewrite uploadDocumentVersion_run.
  destruct (Backend.getUser jwt w) as [[u|] w1] eqn:E1; [|discriminate].
  destruct (Backend.select_version_numbers jwt d w1) as [versions w2] eqn:E2.
  destruct (uuidv4 w2) as [token w3] eqn:E3.
  destruct (Backend.storage_upload jwt (filePath d token file) file w3)
    as [[e|] w4] eqn:E4.
  { cbn. intros H. injection H as <-. discriminate. }
  destruct (Backend.insert_version jwt d (nextVersion (data versions))
              (filePath d token file) (File.name file) (File.size file)
              (File.type file) u notes w4) as [r' w5] eqn:E5.
  rewrite and_log_run. cbn [fst snd]. intros H. injection H as ->.
  destruct (insert_version_ok _ _ _ _ _ _ _ _ _ _ _ _ _ E5 Hv)
    as (He & -> & Hown & -> & _).
  rewrite He, Hv.
  set (w6 := snd (run (Some u) (logActivity d "version_uploaded"
                (Some [("version", JNumber (nextVersion (data versions)));
                       ("fileName", JString (File.name file))])) w5)).
  destruct (storage_upload_stored _ _ _ _ _ E4) as [u' [Hu' Ho]]. injection Hu' as <-.
  pose proof (storage_upload_free _ _ _ _ _ E4) as Hfree.
  pose proof (frame_eq _ (InsertVersion d (nextVersion (data versions))
                (filePath d token file) (File.name file) (File.size file)
                (File.type file) u notes) T_objects _ _ _ E5 ltac:(discriminate)) as O5.
  pose proof (frame_eq _ (InsertVersion d (nextVersion (data versions))
                (filePath d token file) (File.name file) (File.size file)
                (File.type file) u notes) T_documents _ _ _ E5 ltac:(discriminate)) as D5.
  pose proof (logActivity_frame (Some u) d "version_uploaded"
                (Some [("version", JNumber (nextVersion (data versions)));
                       ("fileName", JString (File.name file))]) T_objects w5
                ltac:(discriminate)) as O6.
  pose proof (logActivity_frame (Some u) d "version_uploaded"
                (Some [("version", JNumber (nextVersion (data versions)));
                       ("fileName", JString (File.name file))]) T_documents w5
                ltac:(discriminate)) as D6.
  unfold unchanged in O5, D5, O6, D6. fold w6 in O6, D6.
  exists u, (objects w3). cbn [DocumentVersion.file_path DocumentVersion.file_size].
  split; [reflexivity|]. split.
  { apply (owns_ext u d w6 w4); [congruence | exact Hown]. }
  split; [reflexivity|]. split; [now exists token|]. split; [congruence | exact Hfree].
Qed.

(** The first object of that name in the bucket is what a download gives,
    if the caller may read it. *)
Lemma download_object (u : uuid) (path : string) (o : StorageObject.Row)
    (pre post : list StorageObject.Row) (w : World) :
  objects w = pre ++ o :: post ->
  existsb (Backend.same_object "documents" path) pre = false ->
  Backend.same_object "documents" path o = true ->
  Policy.objects_select u w o = true ->
  hd false (faults w) = false ->
  fst (run (Some u) (downloadDocumentVersion path) w) = Returned (ok (StorageObject.body o)).
Proof.
  intros Ho Hfree Hsame Hsel Hf. rewrite storage_download_eq, Hf, Ho.
  rewrite filter_app, (filter_none _ _ _ Hfree). cbn [app filter].
  rewrite Hsame, Hsel. reflexivity.
Qed.

Lemma own_folder_selected (u d token : uuid) (file : File.t) (bytes : string) (w : World) :
  occurs "/" d = false -> owns u d w ->
  Policy.objects_select u w (StorageObject.mk "documents" (filePath d token file) u bytes)
  = true.
Proof.
  intros Hd Ho. apply objects_select_spec. split; [reflexivity|]. cbn [StorageObject.name].
  destruct (foldername_prefix d (token ^^ "." ^^ template (fileExt file)) Hd) as [rest Hrest].
  exists d, rest. split; [exact Hrest | now left].
Qed.

(** X7.  What a successful [uploadDocumentVersion] stored is what
    [downloadDocumentVersion] gives back to the uploader, byte for byte,
    under the path kept in the version row; the size kept in the row is
    the number of those bytes. *)
Theorem uploaded_bytes_are_downloaded (jwt : option uuid) (d : uuid) (file : File.t)
    (notes : option string) (w : World) (r : Response DocumentVersion.Row)
    (v : DocumentVersion.Row) :
  occurs "/" d = false ->
  fst (run jwt (uploadDocumentVersion d file notes) w) = Returned r ->
  data r = Some v ->
  let w' := snd (run jwt (uploadDocumentVersion d file notes) w) in
  hd false (faults w') = false ->
  fst (run jwt (downloadDocumentVersion (DocumentVersion.file_path v)) w')
  = Returned (ok (File.bytes file))
  /\ DocumentVersion.file_size v = Z.of_nat (String.length (File.bytes file)).
Proof.
  intros Hd Hr Hv w' Hf.
  destruct (uploadDocumentVersion_stored _ _ _ _ _ _ _ Hr Hv)
    as [u [pre (-> & Ho & Hsize & [token Hpath] & Hobj & Hfree)]].
  fold w' in Ho, Hobj. split; [|exact Hsize].
  apply (download_object u _ _ pre [] w' Hobj Hfree); [now apply same_object_spec| |exact Hf].
  rewrite Hpath. now apply own_folder_selected.
Qed.

(** Alice uploads "spec.pdf" and gets its four bytes back. *)
Lemma uploaded_bytes_are_downloaded_witness :
  exists v,
    fst (run (Some alice) (uploadDocumentVersion "id1" spec_pdf None) world_with_document)
    = Returned (ok v)
    /\ fst (run (Some alice) (downloadDocumentVersion (DocumentVersion.file_path v))
              world_with_version)
       = Returned (ok "%PDF")
    /\ DocumentVersion.file_size v = 4.
Proof.
  assert (E : exists v,
             fst (run (Some alice) (uploadDocumentVersion "id1" spec_pdf None)
                    world_with_document) = Returned (ok v))
    by (vm_compute; eexists; reflexivity).
  destruct E as [v E].
  destruct (uploaded_bytes_are_downloaded (Some alice) "id1" spec_pdf None
              world_with_document (ok v) v eq_refl E eq_refl eq_refl)
    as [H1 H2].
  exists v. split; [exact E|]. split; [exact H1 | exact H2].
Defined.

(** ** An upload that is refused *)

Lemma handle_faults_nil (jwt : option uuid) {R} (r : Request R) (w w' : World) (x : R) :
  handle jwt r w = (x, w') -> faults w = [] -> faults w' = [].
Proof.
  intros H Hf. pose proof (handle_faults jwt r w) as F. rewrite H in F. cbn in F.
  rewrite F, Hf. now destruct (local r).
Qed.

(** X8.  The file is uploaded before the version row is written, and nothing
    takes it back: when an identity that did not create the document
    uploads to it, the call fails with the row-level-security error and
    writes no version and no activity entry, but the bytes stay in the
    bucket, under the folder of that document. *)
Theorem refused_upload_leaves_the_object (u d : uuid) (file : File.t)
    (notes : option string) (w : World) :
  ~ owns u d w ->
  faults w = [] ->
  existsb (Backend.same_object "documents" (filePath d (hd "" (rand_client w)) file))
    (objects w) = false ->
  let w' := snd (run (Some u) (uploadDocumentVersion d file notes) w) in
  fst (run (Some u) (uploadDocumentVersion d file notes) w)
  = Returned (failed RowLevelSecurity)
  /\ objects w'
     = objects w ++ [StorageObject.mk "documents" (filePath d (hd "" (rand_client w)) file)
                       u (File.bytes file)]
  /\ document_versions w' = document_versions w
  /\ activity_logs w' = activity_logs w.
Proof.
  intros Hown Hf Hfree w'. subst w'. rewrite uploadDocumentVersion_run.
  destruct (Backend.getUser (Some u) w) as [user w1] eqn:E1.
  assert (Hu : user = Some u).
  { rewrite getUser_eq, Hf in E1. cbn in E1. now injection E1 as <- _. }
  subst user.
  destruct (Backend.select_version_numbers (Some u) d w1) as [versions w2] eqn:E2.
  destruct (uuidv4 w2) as [token w3] eqn:E3.
  pose proof (handle_faults_nil (Some u) AuthGetUser _ _ _ E1 Hf) as F1.
  pose proof (handle_faults_nil (Some u) (SelectVersionNumbers d) _ _ _ E2 F1) as F2.
  pose proof (handle_faults_nil (Some u) Uuidv4 _ _ _ E3 F2) as F3.
  pose proof (handle_rand_client (Some u) AuthGetUser w) as R1.
  pose proof (handle_rand_client (Some u) (SelectVersionNumbers d) w1) as R2.
  cbn [handle] in R1, R2. rewrite E1 in R1. rewrite E2 in R2. cbn in R1, R2.
  assert (Htoken : token = hd "" (rand_client w)).
  { unfold uuidv4 in E3. injection E3 as <- _. congruence. }
  subst token.
  pose proof (frame_eq _ AuthGetUser T_objects _ _ _ E1 ltac:(discriminate)) as O1.
  pose proof (frame_eq _ (SelectVersionNumbers d) T_objects _ _ _ E2 ltac:(discriminate)) as O2.
  pose proof (frame_eq (Some u) Uuidv4 T_objects _ _ _ E3 ltac:(discriminate)) as O3.
  pose proof (frame_eq _ AuthGetUser T_documents _ _ _ E1 ltac:(discriminate)) as D1.
  pose proof (frame_eq _ (SelectVersionNumbers d) T_documents _ _ _ E2 ltac:(discriminate)) as D2.
  pose proof (frame_eq (Some u) Uuidv4 T_documents _ _ _ E3 ltac:(discriminate)) as D3.
  pose proof (frame_eq _ AuthGetUser T_document_versions _ _ _ E1 ltac:(discriminate)) as V1.
  pose proof (frame_eq _ (SelectVersionNumbers d) T_document_versions _ _ _ E2
                ltac:(discriminate)) as V2.
  pose proof (frame_eq (Some u) Uuidv4 T_document_versions _ _ _ E3 ltac:(discriminate)) as V3.
  pose proof (frame_eq _ AuthGetUser T_activity_logs _ _ _ E1 ltac:(discriminate)) as A1.
  pose proof (frame_eq _ (SelectVersionNumbers d) T_activity_logs _ _ _ E2
                ltac:(discriminate)) as A2.
  pose proof (frame_eq (Some u) Uuidv4 T_activity_logs _ _ _ E3 ltac:(discriminate)) as A3.
  unfold unchanged in *.
  set (path := filePath d (hd "" (rand_client w)) file) in *.
  pose proof (storage_upload_cases u path file w3) as C4.
  rewrite F3 in C4. cbn [hd] in C4.
  replace (objects w3) with (objects w) in C4 by congruence. rewrite Hfree in C4.
  destruct (Backend.storage_upload (Some u) path file w3) as [uploadError w4] eqn:E4.
  cbn [fst] in C4. subst uploadError.
  destruct (storage_upload_stored _ _ _ _ _ E4) as [u' [Hu' O4]]. injection Hu' as <-.
  pose proof (handle_faults_nil (Some u) (StorageUpload path file) _ _ _ E4 F3) as F4.
  pose proof (frame_eq _ (StorageUpload path file) T_documents _ _ _ E4
                ltac:(discriminate)) as D4.
  pose proof (frame_eq _ (StorageUpload path file) T_document_versions _ _ _ E4
                ltac:(discriminate)) as V4.
  pose proof (frame_eq _ (StorageUpload path file) T_activity_logs _ _ _ E4
                ltac:(discriminate)) as A4.
  unfold unchanged in *.
  assert (Hown4 : ~ owns u d w4).
  { intros H. apply Hown. apply (owns_ext u d w4 w); [congruence | exact H]. }
  pose proof (insert_version_denied u d (nextVersion (data versions)) path (File.name file)
                (File.size file) (File.type file) u notes w4 Hown4) as C5.
  rewrite F4 in C5. cbn [hd] in C5.
  destruct (Backend.insert_version (Some u) d (nextVersion (data versions)) path
              (File.name file) (File.size file) (File.type file) u notes w4)
    as [r w5] eqn:E5.
  cbn [fst] in C5. subst r.
  destruct (insert_version_failed _ _ _ _ _ _ _ _ _ _ _ _ E5 eq_refl) as [V5 _].
  pose proof (frame_eq _ (InsertVersion d (nextVersion (data versions)) path
                (File.name file) (File.size file) (File.type file) u notes)
                T_objects _ _ _ E5 ltac:(discriminate)) as O5.
  pose proof (frame_eq _ (InsertVersion d (nextVersion (data versions)) path
                (File.name file) (File.size file) (File.type file) u notes)
                T_activity_logs _ _ _ E5 ltac:(discriminate)) as A5.
  unfold unchanged in *.
  rewrite and_log_run. cbn [fst snd error failed].
  split; [reflexivity|]. split; [congruence|]. split; congruence.
Qed.

(** Bob uploads to Alice's document: refused, and his file stays. *)
Lemma refused_upload_leaves_the_object_witness :
  fst (run (Some bob) (uploadDocumentVersion "id1" spec_pdf None) world_with_document)
  = Returned (failed RowLevelSecurity)
  /\ objects (snd (run (Some bob) (uploadDocumentVersion "id1" spec_pdf None)
                     world_with_document))
     = [StorageObject.mk "documents" "id1/t1.pdf" bob "%PDF"].
Proof.
  destruct (refused_upload_leaves_the_object bob "id1" spec_pdf None world_with_document
              (bob_does_not_own _ eq_refl) eq_refl eq_refl)
    as (H1 & H2 & _).
  split; [exact H1 | exact H2].
Defined.

(** ** What the operations write *)

Lemma unchanged_trans (t : Table) (w1 w2 w3 : World) :
  unchanged t w1 w2 -> unchanged t w2 w3 -> unchanged t w1 w3.
Proof. destruct t; cbn; congruence. Qed.

Lemma unchanged_refl (t : Table) (w : World) : unchanged t w w.
Proof. destruct t; reflexivity. Qed.

Lemma run_frame {A} (ts : list Table) (p : Prog A) :
  writes_only ts p -> touches_only ts p.
Proof.
  intros Hp jwt w t Ht. revert w.
  induction p as [a|m|R r k IH]; intros w; cbn; try apply unchanged_refl.
  destruct Hp as [Hr Hk].
  pose proof (handle_frame jwt r t w) as F.
  destruct (handle jwt r w) as [x w1]. cbn in F.
  eapply unchanged_trans; [|apply (IH x (Hk x))].
  apply F. intros E. rewrite E in Hr. contradiction.
Qed.

Ltac footprint :=
  repeat (cbn; intros;
          match goal with
          | |- _ /\ _ => split
          | |- True => exact I
          | |- _ \/ _ => tauto
          | |- writes_only _ (match ?x with _ => _ end) => destruct x
          | |- writes_only _ (bind (match ?x with _ => _ end) _) => destruct x
          end).

Lemma logActivity_writes_only (d : uuid) (a : string) (x : option Details) :
  writes_only [T_activity_logs] (logActivity d a x).
Proof. unfold logActivity. footprint. Qed.

(** X9.  The read operations write nothing; [logActivity] writes the activity
    log only; every other operation writes its own table and the activity
    log, and an upload the bucket besides.  In particular no operation on
    versions, comments, approvals or shares touches the row of the
    document. *)
Theorem operations_write_their_own_tables :
  touches_only [] getDocuments
  /\ (forall d, touches_only [] (getDocument d))
  /\ (forall d, touches_only [] (getDocumentVersions d))
  /\ (forall path, touches_only [] (downloadDocumentVersion path))
  /\ (forall d v, touches_only [] (getComments d v))
  /\ (forall d, touches_only [] (getApprovals d))
  /\ (forall d, touches_only [] (getActivityLog d))
  /\ (forall d a x, touches_only [T_activity_logs] (logActivity d a x))
  /\ (forall title description,
        touches_only [T_documents; T_activity_logs] (createDocument title description))
  /\ (forall d file notes,
        touches_only [T_objects; T_document_versions; T_activity_logs]
          (uploadDocumentVersion d file notes))
  /\ (forall d content versionId parentId,
        touches_only [T_comments; T_activity_logs] (addComment d content versionId parentId))
  /\ (forall d assignee versionId notes,
        touches_only [T_approvals; T_activity_logs]
          (requestApproval d assignee versionId notes))
  /\ (forall id status notes,
        touches_only [T_approvals; T_activity_logs] (updateApprovalStatus id status notes))
  /\ (forall d sharedWith permission,
        touches_only [T_document_shares; T_activity_logs]
          (shareDocument d sharedWith permission)).
Proof.
  repeat split; intros; apply run_frame;
    unfold getDocuments, getDocument, getDocumentVersions, downloadDocumentVersion,
      getComments, getApprovals, getActivityLog, logActivity, createDocument,
      uploadDocumentVersion, addComment, requestApproval, updateApprovalStatus,
      shareDocument, await;
    footprint.
Qed.

(** Table [t] is the same after a call of [p], by the footprint [ts] of [p]. *)
Ltac by_footprint ts :=
  apply (run_frame ts);
  [ unfold getDocuments, getDocument, getDocumentVersions, downloadDocumentVersion,
      getComments, getApprovals, getActivityLog, logActivity, createDocument,
      uploadDocumentVersion, addComment, requestApproval, updateApprovalStatus,
      shareDocument, await; footprint
  | cbn; intuition discriminate ].

(** ** Nothing is ever removed *)

Lemma extends_refl {A} (l : list A) : extends l l.
Proof. exists []. now rewrite app_nil_r. Qed.

Lemma extends_trans {A} (l1 l2 l3 : list A) : extends l1 l2 -> extends l2 l3 -> extends l1 l3.
Proof. intros [t1 ->] [t2 ->]. exists (t1 ++ t2). now rewrite app_assoc. Qed.

Lemma append_only_refl (w : World) : append_only w w.
Proof. unfold append_only. repeat split; apply extends_refl. Qed.

Lemma append_only_trans (w1 w2 w3 : World) :
  append_only w1 w2 -> append_only w2 w3 -> append_only w1 w3.
Proof.
  unfold append_only. intros (A1 & A2 & A3 & A4 & A5 & A6 & A7) (B1 & B2 & B3 & B4 & B5 & B6 & B7).
  repeat split; eapply extends_trans; eassumption.
Qed.

Lemma map_id_updated (P : Approval.Row -> bool) (s : Status) (n : option string)
    (t : timestamp) (l : list Approval.Row) :
  map Approval.id (map (fun x => if P x then Backend.updated_approval s n t x else x) l)
  = map Approval.id l.
Proof.
  rewrite map_map. apply map_ext. intros a. now destruct (P a).
Qed.

Lemma map_id_replaced (i : uuid) (row : DocumentShare.Row) (l : list DocumentShare.Row) :
  DocumentShare.id row = i ->
  map DocumentShare.id (map (fun s => if (DocumentShare.id s =? i)%string then row else s) l)
  = map DocumentShare.id l.
Proof.
  intros H. rewrite map_map. apply map_ext. intros a.
  destruct (DocumentShare.id a =? i)%string eqn:E; [|reflexivity].
  apply String.eqb_eq in E. congruence.
Qed.

Lemma handle_append_only (jwt : option uuid) {R} (r : Request R) (w : World) :
  append_only w (snd (handle jwt r w)).
Proof.
  destruct r; cbn [handle]; open_backend; crack; unfold append_only; cbn;
    rewrite ?map_id_updated, ?map_id_replaced by reflexivity; rewrite ?map_app;
    repeat split; first [apply extends_refl | eexists; reflexivity].
Qed.

Lemma run_append_only {A} (jwt : option uuid) (p : Prog A) (w : World) :
  append_only w (snd (run jwt p w)).
Proof.
  revert w. induction p as [a|m|R r k IH]; intros w; cbn; try apply append_only_refl.
  pose proof (handle_append_only jwt r w) as H.
  destruct (handle jwt r w) as [x w1]. cbn in H.
  eapply append_only_trans; [exact H | apply IH].
Qed.

Lemma step_append_only {A} (jwt : option uuid) (p : Prog A) (w : World) :
  append_only w (snd (step jwt p w)).
Proof.
  destruct p as [a|m|R r k]; cbn; try apply append_only_refl.
  pose proof (handle_append_only jwt r w) as H.
  now destruct (handle jwt r w) as [x w1].
Qed.

(** X10.  Whatever is called of what [documents.ts] asks of the backend,
    alone or with another call in flight, and whoever calls: no document,
    version, comment, activity entry or stored object is ever removed or
    rewritten (rows are only added at the end), and no approval and no
    share is ever removed. *)
Theorem no_call_removes_or_rewrites_history :
  (forall A (p : Prog A) jwt w, append_only w (snd (run jwt p w)))
  /\ (forall A B (p1 : Prog A) (p2 : Prog B) schedule jwt1 jwt2 w,
        append_only w (snd (interleave schedule jwt1 jwt2 p1 p2 w))).
Proof.
  split; [intros; apply run_append_only|].
  intros A B p1 p2 schedule jwt1 jwt2. revert p1 p2.
  induction schedule as [|b rest IH]; intros p1 p2 w; cbn.
  - pose proof (run_append_only jwt1 p1 w) as H1.
    destruct (run jwt1 p1 w) as [o1 w1].
    pose proof (run_append_only jwt2 p2 w1) as H2.
    destruct (run jwt2 p2 w1) as [o2 w2]. cbn in *.
    eapply append_only_trans; eassumption.
  - destruct b.
    + pose proof (step_append_only jwt1 p1 w) as H.
      destruct (step jwt1 p1 w) as [p1' w']. cbn in H.
      eapply append_only_trans; [exact H | apply IH].
    + pose proof (step_append_only jwt2 p2 w) as H.
      destruct (step jwt2 p2 w) as [p2' w']. cbn in H.
      eapply append_only_trans; [exact H | apply IH].
Qed.

(** ** Commenting *)

Lemma owns_document_exists (u d : uuid) (w : World) :
  owns u d w -> mem d (map Document.id (documents w)) = true.
Proof.
  intros [doc (Hin & Hid & _)]. apply mem_In. rewrite <- Hid. now apply in_map.
Qed.

Lemma mem_false (x : uuid) (l : list uuid) : ~ In x l -> mem x l = false.
Proof.
  intros H. destruct (mem x l) eqn:E; [|reflexivity]. apply mem_In in E. contradiction.
Qed.

(** What the insert of a comment answers to a caller with a session, once
    the request has arrived and the generated id is free. *)
Lemma insert_comment_cases (u d : uuid) (versionId : option uuid) (content : string)
    (parentId : option uuid) (w : World) :
  hd false (faults w) = false ->
  ~ In (hd "" (rand_db w)) (map Comment.id (comments w)) ->
  let row := Comment.mk (hd "" (rand_db w)) d versionId content u (now w + 1) (now w + 1)
               parentId in
  let refs := opt_mem versionId (map DocumentVersion.id (document_versions w))
              && mem u (auth_users w)
              && opt_mem parentId (map Comment.id (comments w)) in
  (~ owns u d w ->
   fst (Backend.insert_comment (Some u) d versionId content u parentId w)
   = failed RowLevelSecurity)
  /\ (owns u d w -> refs = false ->
      fst (Backend.insert_comment (Some u) d versionId content u parentId w)
      = failed ForeignKeyViolation)
  /\ (owns u d w -> refs = true ->
      fst (Backend.insert_comment (Some u) d versionId content u parentId w) = ok row).
Proof.
  intros Hf Hfresh row refs. subst row refs. apply mem_false in Hfresh.
  unfold Backend.insert_comment, Backend.remote, transport, gen_random_uuid. cbn.
  rewrite Hf. cbn. unfold Policy.comments_insert, Policy.comments_select. cbn.
  match goal with
  | |- context [Policy.own_document_ids u ?w1] =>
      change (Policy.own_document_ids u w1) with (Policy.own_document_ids u w)
  end.
  rewrite String.eqb_refl, Hfresh.
  split; [|split].
  - intros H. apply not_owns_false in H. rewrite H. reflexivity.
  - intros H Hr. pose proof (owns_document_exists _ _ _ H) as Hd.
    apply own_document_ids_spec in H. rewrite H, Hd. cbn.
    rewrite <- !andb_assoc. rewrite <- !andb_assoc in Hr. rewrite Hr. reflexivity.
  - intros H Hr. pose proof (owns_document_exists _ _ _ H) as Hd.
    apply own_document_ids_spec in H. rewrite H, Hd. cbn.
    rewrite <- !andb_assoc. rewrite <- !andb_assoc in Hr. rewrite Hr. reflexivity.
Qed.

Lemma insert_comment_failed (jwt : option uuid) (d : uuid) (versionId : option uuid)
    (content : string) (u : uuid) (parentId : option uuid) (w w' : World)
    (r : Response Comment.Row) :
  Backend.insert_comment jwt d versionId content u parentId w = (r, w') ->
  data r = None -> comments w' = comments w.
Proof. intros H Hd. open_backend. crack; try discriminate; reflexivity. Qed.

Lemma insert_comment_owner (jwt : option uuid) (d : uuid) (versionId : option uuid)
    (content : string) (u : uuid) (parentId : option uuid) (w w' : World)
    (r : Response Comment.Row) (c : Comment.Row) :
  Backend.insert_comment jwt d versionId content u parentId w = (r, w') ->
  data r = Some c -> owns u d w.
Proof.
  intros H Hc. open_backend. crack; try discriminate. bools.
  match goal with
  | H : Policy.comments_insert _ _ _ = true |- _ =>
      unfold Policy.comments_insert in H; cbn in H; bools
  end.
  subst.
  match goal with
  | H : mem _ (Policy.own_document_ids _ _) = true |- _ =>
      apply own_document_ids_spec in H; exact H
  end.
Qed.

Lemma opt_mem_spec (x : option uuid) (l : list uuid) :
  opt_mem x l = true <-> forall y, x = Some y -> In y l.
Proof.
  destruct x as [z|]; cbn.
  - unfold opt_mem. rewrite mem_In. split; [now intros H y [= <-] | auto].
  - split; [discriminate | reflexivity].
Qed.

Lemma addComment_success (jwt : option uuid) (d : uuid) (content : string)
    (versionId parentId : option uuid) (w : World) (r : Response Comment.Row)
    (c : Comment.Row) :
  fst (run jwt (addComment d content versionId parentId) w) = Returned r ->
  data r = Some c ->
  exists u,
    jwt = Some u /\ owns u d w
    /\ c = Comment.mk (Comment.id c) d versionId content u
             (Comment.created_at c) (Comment.created_at c) parentId
    /\ comments (snd (run jwt (addComment d content versionId parentId) w))
       = comments w ++ [c].
Proof.
  intros Hr Hc. revert Hr. rewrite addComment_run.
  destruct (Backend.getUser jwt w) as [[u|] w1] eqn:E1; [|discriminate].
  destruct (Backend.insert_comment jwt d versionId content u parentId w1)
    as [r' w2] eqn:E2.
  rewrite and_log_run. cbn [fst snd]. intros H. injection H as ->.
  destruct (insert_comment_ok _ _ _ _ _ _ _ _ _ _ E2 Hc) as (He & Hj & Hv & Hl & _).
  pose proof (insert_comment_owner _ _ _ _ _ _ _ _ _ _ E2 Hc) as Ho.
  pose proof (frame_eq _ AuthGetUser T_comments _ _ _ E1 ltac:(discriminate)) as C1.
  pose proof (frame_eq _ AuthGetUser T_documents _ _ _ E1 ltac:(discriminate)) as D1.
  unfold unchanged in C1, D1.
  rewrite He, Hc. exists u. split; [exact Hj|].
  split; [exact (proj1 (owns_ext u d w w1 D1) Ho)|].
  split; [rewrite Hv; reflexivity|].
  pose proof (logActivity_frame jwt d "comment_added"
                (Some [("content", JString (substring0 50 content))]) T_comments w2
                ltac:(discriminate)) as F.
  unfold unchanged in F. rewrite F, Hl, C1. reflexivity.
Qed.

(** The creator of a document is shown each of its comments. *)
Lemma comment_read_back (u d : uuid) (c : Comment.Row) (w : World) :
  owns u d w -> In c (comments w) -> Comment.document_id c = d ->
  hd false (faults w) = false ->
  exists rows, fst (run (Some u) (getComments d None) w) = Returned (ok rows) /\ In c rows.
Proof.
  intros Ho Hin Hd Hf. rewrite select_comments_eq, Hf. eexists. split; [reflexivity|].
  apply order_by_In. apply filter_In. split.
  - apply filter_In. split; [exact Hin|].
    unfold Policy.comments_select. rewrite Hd.
    apply own_document_ids_spec in Ho. now rewrite Ho.
  - now apply String.eqb_eq.
Qed.

(** X11.  A comment that [addComment] reports as stored is a comment of the
    creator of the document: nobody else can comment, not even on a public
    document.  The row holds what was given, unchanged, it is the last row
    of the table, and [getComments] gives it back to its author. *)
Theorem comment_is_stored_and_read_back (jwt : option uuid) (d : uuid) (content : string)
    (versionId parentId : option uuid) (w : World) (r : Response Comment.Row)
    (c : Comment.Row) :
  fst (run jwt (addComment d content versionId parentId) w) = Returned r ->
  data r = Some c ->
  let w' := snd (run jwt (addComment d content versionId parentId) w) in
  exists u,
    jwt = Some u /\ owns u d w
    /\ Comment.document_id c = d /\ Comment.version_id c = versionId
    /\ Comment.content c = content /\ Comment.created_by c = u
    /\ Comment.parent_id c = parentId
    /\ Comment.updated_at c = Comment.created_at c
    /\ comments w' = comments w ++ [c]
    /\ (hd false (faults w') = false ->
        exists rows,
          fst (run jwt (getComments d None) w') = Returned (ok rows) /\ In c rows).
Proof.
  intros Hr Hc w'.
  assert (Hdocs : documents w' = documents w).
  { subst w'.
    change (unchanged T_documents w
              (snd (run jwt (addComment d content versionId parentId) w))).
    by_footprint [T_comments; T_activity_logs]. }
  destruct (addComment_success _ _ _ _ _ _ _ _ Hr Hc) as [u (Hj & Ho & Hrow & Hl)].
  fold w' in Hl.
  exists u. split; [exact Hj|]. split; [exact Ho|].
  repeat (split; [rewrite Hrow; reflexivity|]).
  split; [exact Hl|].
  intros Hf. subst jwt. apply comment_read_back.
  - exact (proj2 (owns_ext u d w w' Hdocs) Ho).
  - rewrite Hl. apply in_or_app. right. now left.
  - rewrite Hrow. reflexivity.
  - exact Hf.
Qed.

(** Alice comments on her document and is shown the comment. *)
Lemma comment_is_stored_and_read_back_witness :
  exists c rows,
    fst (run (Some alice) (addComment "id1" "see page 1" None None) world_with_version)
    = Returned (ok c)
    /\ Comment.content c = "see page 1"
    /\ fst (run (Some alice) (getComments "id1" None)
              (snd (run (Some alice) (addComment "id1" "see page 1" None None)
                      world_with_version)))
       = Returned (ok rows)
    /\ In c rows.
Proof.
  assert (E : exists c,
             fst (run (Some alice) (addComment "id1" "see page 1" None None)
                    world_with_version) = Returned (ok c))
    by (vm_compute; eexists; reflexivity).
  destruct E as [c E].
  destruct (comment_is_stored_and_read_back (Some alice) "id1" "see page 1" None None
              world_with_version (ok c) c E eq_refl)
    as [u (_ & _ & _ & _ & H5 & _ & _ & _ & _ & H10)].
  assert (Hf : hd false (faults (snd (run (Some alice)
                                        (addComment "id1" "see page 1" None None)
                                        world_with_version))) = false)
    by (vm_compute; reflexivity).
  destruct (H10 Hf) as [rows [Hr Hin]].
  exists c, rows. split; [exact E|]. split; [exact H5|]. split; [exact Hr | exact Hin].
Defined.

(** X12.  When [addComment] refuses.  For a caller with a session (the requests
    arriving, the generated id being free): on a document the caller did
    not create, the answer is the row-level-security error; on an own
    document with a version id or a parent id that names no row, the
    foreign-key error; in both cases no table has changed.  Otherwise the
    comment is stored: any existing version will do as version id, whether
    or not it is a version of this document. *)
Theorem comment_needs_owner_and_references (u d : uuid) (content : string)
    (versionId parentId : option uuid) (w : World) :
  faults w = [] ->
  In u (auth_users w) ->
  ~ In (hd "" (rand_db w)) (map Comment.id (comments w)) ->
  let outcome := fst (run (Some u) (addComment d content versionId parentId) w) in
  let w' := snd (run (Some u) (addComment d content versionId parentId) w) in
  (~ owns u d w ->
   outcome = Returned (failed RowLevelSecurity) /\ forall t, unchanged t w w')
  /\ (owns u d w ->
      (exists v, versionId = Some v /\ ~ In v (map DocumentVersion.id (document_versions w)))
      \/ (exists p, parentId = Some p /\ ~ In p (map Comment.id (comments w))) ->
      outcome = Returned (failed ForeignKeyViolation) /\ forall t, unchanged t w w')
  /\ (owns u d w ->
      (forall v, versionId = Some v -> In v (map DocumentVersion.id (document_versions w))) ->
      (forall p, parentId = Some p -> In p (map Comment.id (comments w))) ->
      exists c, outcome = Returned (ok c)).
Proof.
  intros Hf Hu Hfresh outcome w'. subst outcome w'.
  assert (Frame : forall r,
             fst (run (Some u) (addComment d content versionId parentId) w) = Returned r ->
             data r = None ->
             forall t, unchanged t w
                         (snd (run (Some u) (addComment d content versionId parentId) w))).
  { intros r Hr Hd t.
    destruct t; try (by_footprint [T_comments; T_activity_logs]); revert Hr;
      rewrite addComment_run;
      destruct (Backend.getUser (Some u) w) as [[u'|] w1] eqn:E1; try discriminate;
      destruct (Backend.insert_comment (Some u) d versionId content u' parentId w1)
        as [r' w2] eqn:E2;
      rewrite and_log_run; cbn [fst snd]; intros H; injection H as ->; rewrite Hd;
      pose proof (frame_eq _ AuthGetUser T_comments _ _ _ E1 ltac:(discriminate)) as C1;
      pose proof (frame_eq _ AuthGetUser T_activity_logs _ _ _ E1 ltac:(discriminate)) as A1;
      pose proof (frame_eq _ (InsertComment d versionId content u' parentId)
                    T_activity_logs _ _ _ E2 ltac:(discriminate)) as A2;
      pose proof (insert_comment_failed _ _ _ _ _ _ _ _ _ E2 Hd) as C2;
      unfold unchanged in *; destruct (error r); congruence. }
  assert (Hrun : fst (run (Some u) (addComment d content versionId parentId) w)
                 = Returned (fst (Backend.insert_comment (Some u) d versionId content u
                                    parentId (snd (transport w))))).
  { rewrite addComment_run, getUser_eq, Hf. cbn [hd].
    destruct (Backend.insert_comment (Some u) d versionId content u parentId
                (snd (transport w))) as [r w2].
    rewrite and_log_run. reflexivity. }
  assert (Hf1 : hd false (faults (snd (transport w))) = false)
    by (cbn; now rewrite Hf).
  destruct (insert_comment_cases u d versionId content parentId (snd (transport w))
              Hf1 Hfresh) as (K1 & K2 & K3).
  split; [|split].
  - intros Ho. specialize (K1 Ho). rewrite K1 in Hrun. split; [exact Hrun|].
    now apply (Frame _ Hrun).
  - intros Ho Hdangling.
    assert (Hrefs : opt_mem versionId (map DocumentVersion.id (document_versions w))
                    && mem u (auth_users w)
                    && opt_mem parentId (map Comment.id (comments w)) = false).
    { destruct Hdangling as [[v [-> Hv]]|[p [-> Hp]]].
      - unfold opt_mem at 1. rewrite (mem_false _ _ Hv). reflexivity.
      - unfold opt_mem at 2. rewrite (mem_false _ _ Hp). apply andb_false_r. }
    specialize (K2 Ho Hrefs). rewrite K2 in Hrun. split; [exact Hrun|].
    now apply (Frame _ Hrun).
  - intros Ho Hv Hp.
    assert (Hrefs : opt_mem versionId (map DocumentVersion.id (document_versions w))
                    && mem u (auth_users w)
                    && opt_mem parentId (map Comment.id (comments w)) = true).
    { apply opt_mem_spec in Hv, Hp. apply mem_In in Hu. now rewrite Hv, Hp, Hu. }
    specialize (K3 Ho Hrefs). rewrite K3 in Hrun. eexists. exact Hrun.
Qed.

(** Bob may not comment on Alice's document; Alice may not refer to a
    version that is not there. *)
Lemma comment_needs_owner_and_references_witness :
  fst (run (Some bob) (addComment "id1" "hello" None None) world_with_version)
  = Returned (failed RowLevelSecurity)
  /\ fst (run (Some alice) (addComment "id1" "hello" (Some "no-such-version") None)
            world_with_version)
     = Returned (failed ForeignKeyViolation).
Proof.
  assert (Hb : In bob (auth_users world_with_version)) by (right; left; reflexivity).
  assert (Ha : In alice (auth_users world_with_version)) by (left; reflexivity).
  assert (Hfresh : ~ In (hd "" (rand_db world_with_version))
                     (map Comment.id (comments world_with_version))) by (intros []).
  destruct (comment_needs_owner_and_references bob "id1" "hello" None None
              world_with_version eq_refl Hb Hfresh) as (H1 & _).
  destruct (comment_needs_owner_and_references alice "id1" "hello" (Some "no-such-version")
              None world_with_version eq_refl Ha Hfresh) as (_ & H2 & _).
  split.
  - apply H1. apply bob_does_not_own. reflexivity.
  - apply H2; [apply alice_owns; reflexivity|].
    left. exists "no-such-version". split; [reflexivity|].
    vm_compute. intros [H|[]]. discriminate.
Defined.

(** ** Asking for an approval *)

Lemma insert_approval_cases (u d : uuid) (versionId : option uuid) (assignee : uuid)
    (notes : option string) (w : World) :
  hd false (faults w) = false ->
  ~ In (hd "" (rand_db w)) (map Approval.id (approvals w)) ->
  let row := Approval.mk (hd "" (rand_db w)) d versionId u assignee pending notes
               (now w + 1) (now w + 1) in
  let refs := opt_mem versionId (map DocumentVersion.id (document_versions w))
              && mem u (auth_users w) && mem assignee (auth_users w) in
  (~ owns u d w ->
   fst (Backend.insert_approval (Some u) d versionId u assignee notes w)
   = failed RowLevelSecurity)
  /\ (owns u d w -> refs = false ->
      fst (Backend.insert_approval (Some u) d versionId u assignee notes w)
      = failed ForeignKeyViolation)
  /\ (owns u d w -> refs = true ->
      fst (Backend.insert_approval (Some u) d versionId u assignee notes w) = ok row).
Proof.
  intros Hf Hfresh row refs. subst row refs. apply mem_false in Hfresh.
  unfold Backend.insert_approval, Backend.remote, transport, gen_random_uuid. cbn.
  rewrite Hf. cbn. unfold Policy.approvals_insert, Policy.approvals_select. cbn.
  match goal with
  | |- context [Policy.own_document_ids u ?w1] =>
      change (Policy.own_document_ids u w1) with (Policy.own_document_ids u w)
  end.
  rewrite String.eqb_refl, Hfresh.
  split; [|split].
  - intros H. apply not_owns_false in H. rewrite H. reflexivity.
  - intros H Hr. pose proof (owns_document_exists _ _ _ H) as Hd.
    apply own_document_ids_spec in H. rewrite H, Hd. cbn.
    rewrite <- !andb_assoc. rewrite <- !andb_assoc in Hr. rewrite Hr. reflexivity.
  - intros H Hr. pose proof (owns_document_exists _ _ _ H) as Hd.
    apply own_document_ids_spec in H. rewrite H, Hd. cbn.
    rewrite <- !andb_assoc. rewrite <- !andb_assoc in Hr. rewrite Hr. reflexivity.
Qed.

Lemma insert_approval_failed (jwt : option uuid) (d : uuid) (versionId : option uuid)
    (u assignee : uuid) (notes : option string) (w w' : World) (r : Response Approval.Row) :
  Backend.insert_approval jwt d versionId u assignee notes w = (r, w') ->
  data r = None -> approvals w' = approvals w.
Proof. intros H Hd. open_backend. crack; try discriminate; reflexivity. Qed.

Lemma insert_approval_ok (jwt : option uuid) (d : uuid) (versionId : option uuid)
    (u assignee : uuid) (notes : option string) (w w' : World) (r : Response Approval.Row)
    (a : Approval.Row) :
  Backend.insert_approval jwt d versionId u assignee notes w = (r, w') ->
  data r = Some a ->
  error r = None /\ jwt = Some u /\ owns u d w
  /\ a = Approval.mk (hd "" (rand_db w)) d versionId u assignee pending notes
           (now w + 1) (now w + 1)
  /\ approvals w' = approvals w ++ [a]
  /\ In assignee (auth_users w).
Proof.
  intros H Ha. open_backend. crack; try discriminate.
  injection Ha as <-. bools.
  match goal with
  | H : Policy.approvals_insert _ _ _ = true |- _ =>
      unfold Policy.approvals_insert in H; cbn in H; bools
  end.
  subst. repeat split; try reflexivity.
  - match goal with
    | H : mem _ (Policy.own_document_ids _ _) = true |- _ =>
        apply own_document_ids_spec in H; exact H
    end.
  - now apply mem_In.
Qed.

(** X13.  An approval that [requestApproval] reports as stored was asked for by
    the creator of the document: nobody else can ask.  It is pending, names
    the caller and an existing assignee, is the last row of the table, and
    [getApprovals] shows it to the caller and to the assignee alike,
    whether or not the assignee can read the document, in a list that has
    the newest request first. *)
Theorem approval_request_is_pending_and_visible (jwt : option uuid) (d assignee : uuid)
    (versionId : option uuid) (notes : option string) (w : World)
    (r : Response Approval.Row) (a : Approval.Row) :
  fst (run jwt (requestApproval d assignee versionId notes) w) = Returned r ->
  data r = Some a ->
  let w' := snd (run jwt (requestApproval d assignee versionId notes) w) in
  exists u,
    jwt = Some u /\ owns u d w /\ In assignee (auth_users w)
    /\ Approval.document_id a = d /\ Approval.version_id a = versionId
    /\ Approval.requested_by a = u /\ Approval.assigned_to a = assignee
    /\ Approval.status a = pending /\ Approval.notes a = notes
    /\ approvals w' = approvals w ++ [a]
    /\ (hd false (faults w') = false ->
        forall reader, reader = u \/ reader = assignee ->
          exists rows,
            fst (run (Some reader) (getApprovals d) w') = Returned (ok rows)
            /\ In a rows
            /\ ordered Approval.created_at false rows).
Proof.
  intros Hr Ha w'.
  assert (Hdocs : documents w' = documents w).
  { subst w'.
    change (unchanged T_documents w
              (snd (run jwt (requestApproval d assignee versionId notes) w))).
    by_footprint [T_approvals; T_activity_logs]. }
  assert (Hcom : exists u, jwt = Some u /\ owns u d w /\ In assignee (auth_users w)
                           /\ a = Approval.mk (Approval.id a) d versionId u assignee pending
                                    notes (Approval.created_at a) (Approval.created_at a)
                           /\ approvals w' = approvals w ++ [a]).
  { subst w'. revert Hr. rewrite requestApproval_run.
    destruct (Backend.getUser jwt w) as [[u|] w1] eqn:E1; [|discriminate].
    destruct (Backend.insert_approval jwt d versionId u assignee notes w1)
      as [r' w2] eqn:E2.
    rewrite and_log_run. cbn [fst snd]. intros H. injection H as ->.
    destruct (insert_approval_ok _ _ _ _ _ _ _ _ _ _ E2 Ha)
      as (He & Hj & Ho & Hv & Hl & Hasg).
    pose proof (frame_eq _ AuthGetUser T_approvals _ _ _ E1 ltac:(discriminate)) as C1.
    pose proof (frame_eq _ AuthGetUser T_documents _ _ _ E1 ltac:(discriminate)) as D1.
    pose proof (handle_auth_users jwt AuthGetUser w) as U1.
    cbn [handle] in U1. rewrite E1 in U1. cbn in U1.
    unfold unchanged in C1, D1.
    rewrite He, Ha. exists u. split; [exact Hj|].
    split; [exact (proj1 (owns_ext u d w w1 D1) Ho)|].
    split; [now rewrite <- U1|].
    split; [rewrite Hv; reflexivity|].
    pose proof (logActivity_frame jwt d "approval_requested"
                  (Some [("assignedTo", JString assignee)]) T_approvals w2
                  ltac:(discriminate)) as F.
    unfold unchanged in F. rewrite F, Hl, C1. reflexivity. }
  destruct Hcom as [u (Hj & Ho & Hasg & Hrow & Hl)].
  exists u. split; [exact Hj|]. split; [exact Ho|]. split; [exact Hasg|].
  repeat (split; [rewrite Hrow; reflexivity|]).
  split; [exact Hl|].
  intros Hf reader Hreader. rewrite select_approvals_eq, Hf. eexists. split; [reflexivity|].
  split; [|apply order_by_sorted].
  apply order_by_In. apply filter_In. split.
  - apply filter_In. split; [rewrite Hl; apply in_or_app; right; now left|].
    unfold Policy.approvals_select. rewrite Hrow. cbn.
    destruct Hreader as [-> | ->].
    + apply (proj2 (owns_ext u d w w' Hdocs)) in Ho. apply own_document_ids_spec in Ho.
      now rewrite Ho.
    + rewrite String.eqb_refl. apply orb_true_r.
  - rewrite Hrow. cbn. apply String.eqb_refl.
Qed.

(** Alice asks Bob to approve: Bob sees the request. *)
Lemma approval_request_is_pending_and_visible_witness :
  exists a rows,
    fst (run (Some alice) (requestApproval "id1" bob None None) world_with_document)
    = Returned (ok a)
    /\ Approval.status a = pending
    /\ fst (run (Some bob) (getApprovals "id1") world_requested) = Returned (ok rows)
    /\ In a rows.
Proof.
  assert (E : exists a,
             fst (run (Some alice) (requestApproval "id1" bob None None)
                    world_with_document) = Returned (ok a))
    by (vm_compute; eexists; reflexivity).
  destruct E as [a E].
  destruct (approval_request_is_pending_and_visible (Some alice) "id1" bob None None
              world_with_document (ok a) a E eq_refl)
    as [u (_ & _ & _ & _ & _ & _ & _ & H8 & _ & _ & H11)].
  destruct (H11 eq_refl bob (or_intror eq_refl)) as [rows (Hr & Hin & _)].
  exists a, rows. split; [exact E|]. split; [exact H8|]. split; [exact Hr | exact Hin].
Defined.

(** X14.  When [requestApproval] refuses.  For a caller with a session (the
    requests arriving, the generated id being free): on a document the
    caller did not create, the answer is the row-level-security error; on
    an own document with an assignee who is no user, or a version id that
    names no row, the foreign-key error; in both cases no table has
    changed.  Otherwise the request is stored. *)
Theorem approval_needs_owner_and_references (u d assignee : uuid)
    (versionId : option uuid) (notes : option string) (w : World) :
  faults w = [] ->
  In u (auth_users w) ->
  ~ In (hd "" (rand_db w)) (map Approval.id (approvals w)) ->
  let outcome := fst (run (Some u) (requestApproval d assignee versionId notes) w) in
  let w' := snd (run (Some u) (requestApproval d assignee versionId notes) w) in
  (~ owns u d w ->
   outcome = Returned (failed RowLevelSecurity) /\ forall t, unchanged t w w')
  /\ (owns u d w ->
      ~ In assignee (auth_users w)
      \/ (exists v, versionId = Some v
                    /\ ~ In v (map DocumentVersion.id (document_versions w))) ->
      outcome = Returned (failed ForeignKeyViolation) /\ forall t, unchanged t w w')
  /\ (owns u d w ->
      In assignee (auth_users w) ->
      (forall v, versionId = Some v -> In v (map DocumentVersion.id (document_versions w))) ->
      exists a, outcome = Returned (ok a)).
Proof.
  intros Hf Hu Hfresh outcome w'. subst outcome w'.
  assert (Frame : forall r,
             fst (run (Some u) (requestApproval d assignee versionId notes) w) = Returned r ->
             data r = None ->
             forall t, unchanged t w
                         (snd (run (Some u) (requestApproval d assignee versionId notes) w))).
  { intros r Hr Hd t.
    destruct t; try (by_footprint [T_approvals; T_activity_logs]); revert Hr;
      rewrite requestApproval_run;
      destruct (Backend.getUser (Some u) w) as [[u'|] w1] eqn:E1; try discriminate;
      destruct (Backend.insert_approval (Some u) d versionId u' assignee notes w1)
        as [r' w2] eqn:E2;
      rewrite and_log_run; cbn [fst snd]; intros H; injection H as ->; rewrite Hd;
      pose proof (frame_eq _ AuthGetUser T_approvals _ _ _ E1 ltac:(discriminate)) as C1;
      pose proof (frame_eq _ AuthGetUser T_activity_logs _ _ _ E1 ltac:(discriminate)) as A1;
      pose proof (frame_eq _ (InsertApproval d versionId u' assignee notes)
                    T_activity_logs _ _ _ E2 ltac:(discriminate)) as A2;
      pose proof (insert_approval_failed _ _ _ _ _ _ _ _ _ E2 Hd) as C2;
      unfold unchanged in *; destruct (error r); congruence. }
  assert (Hrun : fst (run (Some u) (requestApproval d assignee versionId notes) w)
                 = Returned (fst (Backend.insert_approval (Some u) d versionId u assignee
                                    notes (snd (transport w))))).
  { rewrite requestApproval_run, getUser_eq, Hf. cbn [hd].
    destruct (Backend.insert_approval (Some u) d versionId u assignee notes
                (snd (transport w))) as [r w2].
    rewrite and_log_run. reflexivity. }
  assert (Hf1 : hd false (faults (snd (transport w))) = false)
    by (cbn; now rewrite Hf).
  destruct (insert_approval_cases u d versionId assignee notes (snd (transport w))
              Hf1 Hfresh) as (K1 & K2 & K3).
  split; [|split].
  - intros Ho. specialize (K1 Ho). rewrite K1 in Hrun. split; [exact Hrun|].
    now apply (Frame _ Hrun).
  - intros Ho Hdangling.
    assert (Hrefs : opt_mem versionId (map DocumentVersion.id (document_versions w))
                    && mem u (auth_users w) && mem assignee (auth_users w) = false).
    { destruct Hdangling as [Ha|[v [-> Hv]]].
      - rewrite (mem_false _ _ Ha). apply andb_false_r.
      - unfold opt_mem. rewrite (mem_false _ _ Hv). reflexivity. }
    specialize (K2 Ho Hrefs). rewrite K2 in Hrun. split; [exact Hrun|].
    now apply (Frame _ Hrun).
  - intros Ho Ha Hv.
    assert (Hrefs : opt_mem versionId (map DocumentVersion.id (document_versions w))
                    && mem u (auth_users w) && mem assignee (auth_users w) = true).
    { apply opt_mem_spec in Hv. apply mem_In in Hu, Ha. now rewrite Hv, Hu, Ha. }
    specialize (K3 Ho Hrefs). rewrite K3 in Hrun. eexists. exact Hrun.
Qed.

(** Bob may not ask for an approval on Alice's document; Alice may not
    name an assignee who is no user. *)
Lemma approval_needs_owner_and_references_witness :
  fst (run (Some bob) (requestApproval "id1" alice None None) world_with_document)
  = Returned (failed RowLevelSecurity)
  /\ fst (run (Some alice) (requestApproval "id1" "carol" None None) world_with_document)
     = Returned (failed ForeignKeyViolation).
Proof.
  assert (Hb : In bob (auth_users world_with_document)) by (right; left; reflexivity).
  assert (Ha : In alice (auth_users world_with_document)) by (left; reflexivity).
  assert (Hfresh : ~ In (hd "" (rand_db world_with_document))
                     (map Approval.id (approvals world_with_document))) by (intros []).
  destruct (approval_needs_owner_and_references bob "id1" alice None None
              world_with_document eq_refl Hb Hfresh) as (H1 & _).
  destruct (approval_needs_owner_and_references alice "id1" "carol" None None
              world_with_document eq_refl Ha Hfresh) as (_ & H2 & _).
  split.
  - apply H1. apply bob_does_not_own. reflexivity.
  - apply H2; [apply alice_owns; reflexivity|].
    left. vm_compute. intros [H|[H|[]]]; discriminate.
Defined.

(** ** Resolving an approval: what is left alone *)



(** ** Calls that fail *)











(** ** What a successful call logs *)

Lemma and_log_logged {A} (jwt : option uuid) (r : Response A) (g : A -> uuid) (a : string)
    (x : Details) (w0 w : World) (x0 : A) :
  data r = Some x0 ->
  activity_logs w = activity_logs w0 ->
  logged jwt w0 (snd (run jwt (and_log r (fun d => logActivity (g d) a (Some x))) w))
    (g x0) a x.
Proof.
  intros Hd Hw. rewrite and_log_run, Hd. cbn [snd]. unfold logged. rewrite <- Hw.
  destruct (error r); [now left|].
  destruct (logActivity_log jwt (g x0) a (Some x) w) as [E|[e (E & H1 & H2 & H3 & H4)]].
  - now left.
  - right. exists e. auto.
Qed.

(** X17.  Each operation that succeeded has added at most one activity entry,
    and that one names the document, the action of the operation, the
    details the operation gives, and the caller.  (It is at most one:
    whether the entry got written is not looked at.) *)
Theorem successful_calls_log_their_action :
  (forall jwt title description w r doc,
      fst (run jwt (createDocument title description) w) = Returned r ->
      data r = Some doc ->
      logged jwt w (snd (run jwt (createDocument title description) w))
        (Document.id doc) "document_created" [("title", JString title)])
  /\ (forall jwt d file notes w r v,
        fst (run jwt (uploadDocumentVersion d file notes) w) = Returned r ->
        data r = Some v ->
        logged jwt w (snd (run jwt (uploadDocumentVersion d file notes) w))
          d "version_uploaded"
          [("version", JNumber (DocumentVersion.version_number v));
           ("fileName", JString (File.name file))])
  /\ (forall jwt d content versionId parentId w r c,
        fst (run jwt (addComment d content versionId parentId) w) = Returned r ->
        data r = Some c ->
        logged jwt w (snd (run jwt (addComment d content versionId parentId) w))
          d "comment_added" [("content", JString (String.substring 0 50 content))])
  /\ (forall jwt d assignee versionId notes w r a,
        fst (run jwt (requestApproval d assignee versionId notes) w) = Returned r ->
        data r = Some a ->
        logged jwt w (snd (run jwt (requestApproval d assignee versionId notes) w))
          d "approval_requested" [("assignedTo", JString assignee)])
  /\ (forall jwt id status notes w r a,
        fst (run jwt (updateApprovalStatus id status notes) w) = Returned r ->
        data r = Some a ->
        logged jwt w (snd (run jwt (updateApprovalStatus id status notes) w))
          (Approval.document_id a) "approval_updated"
          [("status", JString (Status_text status))])
  /\ (forall jwt d sharedWith permission w r s,
        fst (run jwt (shareDocument d sharedWith permission) w) = Returned r ->
        data r = Some s ->
        logged jwt w (snd (run jwt (shareDocument d sharedWith permission) w))
          d "document_shared"
          [("sharedWith", JString sharedWith);
           ("permission", JString (Permission_text permission))]).
Proof.
  split; [|split; [|split; [|split; [|split]]]].
  - intros jwt title description w r doc. rewrite createDocument_run.
    destruct (Backend.getUser jwt w) as [[u|] w1] eqn:E1; [|discriminate].
    destruct (Backend.insert_document jwt title description u w1) as [r' w2] eqn:E2.
    intros Hr Hd. rewrite and_log_run in Hr. cbn in Hr. injection Hr as ->.
    apply (and_log_logged jwt r Document.id); [exact Hd|].
    pose proof (frame_eq _ AuthGetUser T_activity_logs _ _ _ E1 ltac:(discriminate)) as A1.
    pose proof (frame_eq _ (InsertDocument title description u) T_activity_logs _ _ _ E2
                  ltac:(discriminate)) as A2.
    unfold unchanged in *. congruence.
  - intros jwt d file notes w r v. rewrite uploadDocumentVersion_run.
    destruct (Backend.getUser jwt w) as [[u|] w1] eqn:E1; [|discriminate].
    destruct (Backend.select_version_numbers jwt d w1) as [versions w2] eqn:E2.
    destruct (uuidv4 w2) as [token w3] eqn:E3.
    destruct (Backend.storage_upload jwt (filePath d token file) file w3)
      as [[e|] w4] eqn:E4.
    { cbn. intros H Hv. injection H as <-. discriminate. }
    destruct (Backend.insert_version jwt d (nextVersion (data versions))
                (filePath d token file) (File.name file) (File.size file)
                (File.type file) u notes w4) as [r' w5] eqn:E5.
    intros Hr Hd. rewrite and_log_run in Hr. cbn in Hr. injection Hr as ->.
    destruct (insert_version_ok _ _ _ _ _ _ _ _ _ _ _ _ _ E5 Hd) as (_ & _ & _ & Hv & _).
    assert (Hn : DocumentVersion.version_number v = nextVersion (data versions))
      by (rewrite Hv; reflexivity).
    rewrite Hn.
    eapply (and_log_logged jwt r (fun _ => d)); [exact Hd|].
    pose proof (frame_eq _ AuthGetUser T_activity_logs _ _ _ E1 ltac:(discriminate)) as A1.
    pose proof (frame_eq _ (SelectVersionNumbers d) T_activity_logs _ _ _ E2
                  ltac:(discriminate)) as A2.
    pose proof (frame_eq jwt Uuidv4 T_activity_logs _ _ _ E3 ltac:(discriminate)) as A3.
    pose proof (frame_eq _ (StorageUpload (filePath d token file) file) T_activity_logs
                  _ _ _ E4 ltac:(discriminate)) as A4.
    pose proof (frame_eq _ (InsertVersion d (nextVersion (data versions))
                  (filePath d token file) (File.name file) (File.size file)
                  (File.type file) u notes) T_activity_logs _ _ _ E5
                  ltac:(discriminate)) as A5.
    unfold unchanged in *. congruence.
  - intros jwt d content versionId parentId w r c. rewrite addComment_run.
    destruct (Backend.getUser jwt w) as [[u|] w1] eqn:E1; [|discriminate].
    destruct (Backend.insert_comment jwt d versionId content u parentId w1)
      as [r' w2] eqn:E2.
    intros Hr Hd. rewrite and_log_run in Hr. cbn in Hr. injection Hr as ->.
    rewrite <- substring0_spec.
    eapply (and_log_logged jwt r (fun _ => d)); [exact Hd|].
    pose proof (frame_eq _ AuthGetUser T_activity_logs _ _ _ E1 ltac:(discriminate)) as A1.
    pose proof (frame_eq _ (InsertComment d versionId content u parentId) T_activity_logs
                  _ _ _ E2 ltac:(discriminate)) as A2.
    unfold unchanged in *. congruence.
  - intros jwt d assignee versionId notes w r a. rewrite requestApproval_run.
    destruct (Backend.getUser jwt w) as [[u|] w1] eqn:E1; [|discriminate].
    destruct (Backend.insert_approval jwt d versionId u assignee notes w1)
      as [r' w2] eqn:E2.
    intros Hr Hd. rewrite and_log_run in Hr. cbn in Hr. injection Hr as ->.
    eapply (and_log_logged jwt r (fun _ => d)); [exact Hd|].
    pose proof (frame_eq _ AuthGetUser T_activity_logs _ _ _ E1 ltac:(discriminate)) as A1.
    pose proof (frame_eq _ (InsertApproval d versionId u assignee notes) T_activity_logs
                  _ _ _ E2 ltac:(discriminate)) as A2.
    unfold unchanged in *. congruence.
  - intros jwt id status notes w r a. rewrite updateApprovalStatus_run.
    destruct (Backend.update_approval jwt id status notes (now w) w) as [r' w1] eqn:E1.
    intros Hr Hd. rewrite and_log_run in Hr. cbn in Hr. injection Hr as ->.
    apply (and_log_logged jwt r Approval.document_id); [exact Hd|].
    pose proof (frame_eq _ (UpdateApproval id status notes (now w)) T_activity_logs
                  _ _ _ E1 ltac:(discriminate)) as A1.
    exact A1.
  - intros jwt d sharedWith permission w r s. rewrite shareDocument_run.
    destruct (Backend.getUser jwt w) as [[u|] w1] eqn:E1; [|discriminate].
    destruct (Backend.upsert_share jwt d sharedWith permission u w1) as [r' w2] eqn:E2.
    intros Hr Hd. rewrite and_log_run in Hr. cbn in Hr. injection Hr as ->.
    eapply (and_log_logged jwt r (fun _ => d)); [exact Hd|].
    pose proof (frame_eq _ AuthGetUser T_activity_logs _ _ _ E1 ltac:(discriminate)) as A1.
    pose proof (frame_eq _ (UpsertShare d sharedWith permission u) T_activity_logs
                  _ _ _ E2 ltac:(discriminate)) as A2.
    unfold unchanged in *. congruence.
Qed.

(** ** The upload dialog *)

Lemma uploadDocumentVersion_success (jwt : option uuid) (d : uuid) (file : File.t)
    (notes : option string) (w : World) (r : Response DocumentVersion.Row)
    (v : DocumentVersion.Row) :
  fst (run jwt (uploadDocumentVersion d file notes) w) = Returned r ->
  data r = Some v ->
  exists u,
    jwt = Some u /\ owns u d w
    /\ DocumentVersion.document_id v = d
    /\ DocumentVersion.file_name v = File.name file
    /\ DocumentVersion.uploaded_by v = u
    /\ DocumentVersion.notes v = notes
    /\ document_versions (snd (run jwt (uploadDocumentVersion d file notes) w))
       = document_versions w ++ [v].
Proof.
  intros Hr Hv. revert Hr. rewrite uploadDocumentVersion_run.
  destruct (Backend.getUser jwt w) as [[u|] w1] eqn:E1; [|discriminate].
  destruct (Backend.select_version_numbers jwt d w1) as [versions w2] eqn:E2.
  destruct (uuidv4 w2) as [token w3] eqn:E3.
  destruct (Backend.storage_upload jwt (filePath d token file) file w3)
    as [[e|] w4] eqn:E4.
  { cbn. intros H. injection H as <-. discriminate. }
  destruct (Backend.insert_version jwt d (nextVersion (data versions))
              (filePath d token file) (File.name file) (File.size file)
              (File.type file) u notes w4) as [r' w5] eqn:E5.
  rewrite and_log_run. cbn [fst snd]. intros H. injection H as ->.
  destruct (insert_version_ok _ _ _ _ _ _ _ _ _ _ _ _ _ E5 Hv)
    as (He & Hj & Hown & Hrow & Hl & _).
  pose proof (frame_eq _ AuthGetUser T_document_versions _ _ _ E1 ltac:(discriminate)) as V1.
  pose proof (frame_eq _ (SelectVersionNumbers d) T_document_versions _ _ _ E2
                ltac:(discriminate)) as V2.
  pose proof (frame_eq jwt Uuidv4 T_document_versions _ _ _ E3 ltac:(discriminate)) as V3.
  pose proof (frame_eq _ (StorageUpload (filePath d token file) file)
                T_document_versions _ _ _ E4 ltac:(discriminate)) as V4.
  pose proof (frame_eq _ AuthGetUser T_documents _ _ _ E1 ltac:(discriminate)) as D1.
  pose proof (frame_eq _ (SelectVersionNumbers d) T_documents _ _ _ E2
                ltac:(discriminate)) as D2.
  pose proof (frame_eq jwt Uuidv4 T_documents _ _ _ E3 ltac:(discriminate)) as D3.
  pose proof (frame_eq _ (StorageUpload (filePath d token file) file)
                T_documents _ _ _ E4 ltac:(discriminate)) as D4.
  unfold unchanged in *.
  rewrite He, Hv. exists u. split; [exact Hj|]. split.
  { apply (owns_ext u d w w4); [congruence | exact Hown]. }
  repeat (split; [rewrite Hrow; reflexivity|]).
  pose proof (logActivity_frame jwt d "version_uploaded"
                (Some [("version", JNumber (nextVersion (data versions)));
                       ("fileName", JString (File.name file))]) T_document_versions w5
                ltac:(discriminate)) as F.
  unfold unchanged in F. rewrite F, Hl. congruence.
Qed.

(** An answer of [uploadDocumentVersion] has data or an error, not both and
    not neither. *)
Lemma uploadDocumentVersion_answer (jwt : option uuid) (d : uuid) (file : File.t)
    (notes : option string) (w : World) (r : Response DocumentVersion.Row) :
  fst (run jwt (uploadDocumentVersion d file notes) w) = Returned r ->
  (exists v, r = ok v) \/ (exists e, r = failed e).
Proof.
  rewrite uploadDocumentVersion_run.
  destruct (Backend.getUser jwt w) as [[u|] w1]; [|discriminate].
  destruct (Backend.select_version_numbers jwt d w1) as [versions w2].
  destruct (uuidv4 w2) as [token w3].
  destruct (Backend.storage_upload jwt (filePath d token file) file w3) as [[e|] w4].
  { cbn. intros H. injection H as <-. right. now exists e. }
  destruct (Backend.insert_version jwt d (nextVersion (data versions))
              (filePath d token file) (File.name file) (File.size file)
              (File.type file) u notes w4) as [r' w5] eqn:E5.
  rewrite and_log_run. cbn [fst]. intros H. injection H as ->.
  clear - E5. open_backend. crack; unfold ok, failed; eauto.
Qed.


(** ** [trim] *)







(** ** The comment form *)




(** ** From the upload dialog to the version history *)

(** The creator of a document is shown each of its versions. *)
Lemma version_read_back (u d : uuid) (v : DocumentVersion.Row) (w : World) :
  owns u d w -> In v (document_versions w) -> DocumentVersion.document_id v = d ->
  hd false (faults w) = false ->
  exists rows,
    fst (run (Some u) (getDocumentVersions d) w) = Returned (ok rows) /\ In v rows.
Proof.
  intros Ho Hin Hd Hf. rewrite select_versions_eq, Hf. eexists. split; [reflexivity|].
  apply order_by_In. apply filter_In. split.
  - apply filter_In. split; [exact Hin|].
    unfold Policy.document_versions_select. rewrite Hd.
    apply own_document_ids_spec in Ho. now rewrite Ho.
  - now apply String.eqb_eq.
Qed.

(** X20.  What was uploaded through the dialog is what the history gives back.
    After a submit that called [onSuccess] (the requests arriving), the
    list of the version history, loaded again, has the new version, and
    its download button makes the browser save the bytes of the file that
    was uploaded, under the name that file had. *)
Theorem uploaded_file_is_saved_under_its_name (documentId : uuid) (jwt : option uuid)
    (s : UploadVersionModal.State) (h : VersionHistory.State) (w : World) (f : File.t) :
  faults w = [] ->
  occurs "/" documentId = false ->
  UploadVersionModal.file s = Some f ->
  let '(_, called, w1) := UploadVersionModal.handleSubmit documentId jwt s w in
  called = true ->
  let '(_, h', w2) := VersionHistory.loadVersions documentId jwt h w1 in
  exists v,
    In v (VersionHistory.versions h')
    /\ In v (document_versions w2)
    /\ DocumentVersion.file_name v = File.name f
    /\ VersionHistory.loading h' = false
    /\ fst (VersionHistory.handleDownload jwt v w2)
       = Some (VersionHistory.save (File.name f) (File.bytes f)).
Proof.
  intros Hf Hd Hfile. unfold UploadVersionModal.handleSubmit. rewrite Hfile.
  cbn [UploadVersionModal.notes UploadVersionModal.setError UploadVersionModal.setLoading].
  set (notes := or_undefined (UploadVersionModal.notes s)).
  pose proof (uploadDocumentVersion_answer jwt documentId f notes w) as Hshape.
  pose proof (uploadDocumentVersion_success jwt documentId f notes w) as Hok.
  pose proof (uploadDocumentVersion_stored jwt documentId f notes w) as Hst.
  pose proof (run_faults_nil jwt (uploadDocumentVersion documentId f notes) w Hf) as Hf1.
  destruct (run jwt (uploadDocumentVersion documentId f notes) w) as [[r|m] w1] eqn:E;
    cbn [fst snd] in *; [|discriminate].
  destruct (Hshape r eq_refl) as [[v ->]|[e ->]]; cbn [ok failed]; [|discriminate].
  intros _.
  destruct (Hok (ok v) v eq_refl eq_refl) as [u (-> & _ & Hvd & Hname & _ & _ & Hl)].
  destruct (Hst (ok v) v eq_refl eq_refl)
    as [u' [pre (Hu' & Ho & _ & [token Hpath] & Hobj & Hfree)]].
  injection Hu' as <-.
  assert (Hin : In v (document_versions w1))
    by (rewrite Hl; apply in_or_app; right; now left).
  assert (H1 : hd false (faults w1) = false) by now rewrite Hf1.
  destruct (version_read_back u documentId v w1 Ho Hin Hvd H1) as [rows [Hrows Hv]].
  unfold VersionHistory.loadVersions.
  pose proof (run_faults_nil (Some u) (getDocumentVersions documentId) w1 Hf1) as Hf2.
  assert (F : forall t, unchanged t w1
                          (snd (run (Some u) (getDocumentVersions documentId) w1))).
  { intros t. by_footprint (@nil Table). }
  destruct (run (Some u) (getDocumentVersions documentId) w1) as [o w2].
  cbn [fst snd] in *. subst o. cbn [ok].
  exists v. split; [exact Hv|].
  pose proof (F T_document_versions) as Fv. pose proof (F T_documents) as Fd.
  pose proof (F T_objects) as Fo. unfold unchanged in Fv, Fd, Fo.
  split; [now rewrite Fv|]. split; [exact Hname|]. split; [reflexivity|].
  unfold VersionHistory.handleDownload.
  assert (Hdl : fst (run (Some u) (downloadDocumentVersion (DocumentVersion.file_path v)) w2)
                = Returned (ok (File.bytes f))).
  { apply (download_object u _
             (StorageObject.mk "documents" (DocumentVersion.file_path v) u (File.bytes f))
             pre [] w2).
    - now rewrite Fo.
    - exact Hfree.
    - now apply same_object_spec.
    - rewrite Hpath. apply own_folder_selected; [exact Hd|].
      exact (proj2 (owns_ext u documentId w1 w2 Fd) Ho).
    - now rewrite Hf2. }
  destruct (run (Some u) (downloadDocumentVersion (DocumentVersion.file_path v)) w2)
    as [o w3].
  cbn [fst] in Hdl. subst o. cbn. now rewrite Hname.
Qed.

(** Alice uploads "spec.pdf" through the dialog and saves it again from
    the history. *)
Lemma uploaded_file_is_saved_under_its_name_witness :
  let '(_, called, w1) :=
    UploadVersionModal.handleSubmit "id1" (Some alice) dialog_with_file world_with_document in
  called = true
  /\ let '(_, h', w2) :=
       VersionHistory.loadVersions "id1" (Some alice) history_not_loaded w1 in
     exists v,
       In v (VersionHistory.versions h')
       /\ fst (VersionHistory.handleDownload (Some alice) v w2)
          = Some (VersionHistory.save "spec.pdf" "%PDF").
Proof.
  pose proof (uploaded_file_is_saved_under_its_name "id1" (Some alice) dialog_with_file
                history_not_loaded world_with_document spec_pdf eq_refl eq_refl eq_refl)
    as H.
  destruct (UploadVersionModal.handleSubmit "id1" (Some alice) dialog_with_file
              world_with_document) as [[s1 called] w1] eqn:E.
  assert (Hc : called = true).
  { apply (f_equal (fun x => snd (fst x))) in E. cbn [fst snd] in E. rewrite <- E.
    vm_compute. reflexivity. }
  split; [exact Hc|]. specialize (H Hc).
  destruct (VersionHistory.loadVersions "id1" (Some alice) history_not_loaded w1)
    as [[o h'] w2].
  destruct H as [v (H1 & _ & _ & _ & H5)]. exists v. split; [exact H1 | exact H5].
Defined.

(** ** The profile dialog *)

Lemma select_single_present (uid : uuid) (row : User.Row) (s : Site) :
  hd false (faults (world s)) = false ->
  NoDup (map User.id (users s)) ->
  In row (users s) -> User.id row = uid ->
  UsersTable.select_single (Some uid) uid s
  = (ok row, mkSite (snd (transport (world s))) (users s)).
Proof.
  intros Hf Hnd Hin Hid. unfold UsersTable.select_single, transport. cbn. rewrite Hf.
  rewrite filter_filter.
  rewrite (filter_unique User.id _ (users s) row Hnd Hin).
  - reflexivity.
  - unfold UsersTable.own_profile. now rewrite Hid, String.eqb_refl.
  - intros y _ Hy. apply andb_true_iff in Hy as [_ Hy]. apply String.eqb_eq in Hy.
    congruence.
Qed.

Lemma select_single_absent (jwt : option uuid) (id : uuid) (s : Site) :
  hd false (faults (world s)) = false ->
  ~ In id (map User.id (users s)) ->
  UsersTable.select_single jwt id s
  = (failed NoRows, mkSite (snd (transport (world s))) (users s)).
Proof.
  intros Hf Hno. unfold UsersTable.select_single, transport. cbn. rewrite Hf.
  match goal with
  | |- (Backend.single ?l, _) = _ => assert (E : l = [])
  end.
  { match goal with
    | |- filter ?P ?l = [] => destruct (filter P l) as [|x t] eqn:E; [reflexivity|];
        exfalso; assert (Hx : In x (filter P l)) by (rewrite E; now left)
    end.
    apply filter_In in Hx as [Hx Hid]. apply String.eqb_eq in Hid. apply Hno.
    rewrite <- Hid. apply in_map.
    destruct jwt; [apply filter_In in Hx as [Hx _]; exact Hx | destruct Hx]. }
  rewrite E. reflexivity.
Qed.

Lemma loadProfile_present (u : ProfileModal.SessionUser) (st : ProfileModal.State)
    (row : User.Row) (s : Site) :
  hd false (faults (world s)) = false ->
  NoDup (map User.id (users s)) ->
  In row (users s) -> User.id row = ProfileModal.id u ->
  ProfileModal.loadProfile (Some (ProfileModal.id u)) u st s
  = (ProfileModal.setLoading false
       (ProfileModal.setFullName (ProfileModal.or_empty (User.full_name row))
          (ProfileModal.setProfile (Some row) st)),
     mkSite (snd (transport (world s))) (users s)).
Proof.
  intros Hf Hnd Hin Hid. unfold ProfileModal.loadProfile.
  rewrite (select_single_present _ row s Hf Hnd Hin Hid). reflexivity.
Qed.

Lemma loadProfile_absent (u : ProfileModal.SessionUser) (st : ProfileModal.State) (s : Site) :
  hd false (faults (world s)) = false ->
  nth 1 (faults (world s)) false = false ->
  In (ProfileModal.id u) (auth_users (world s)) ->
  ~ In (ProfileModal.id u) (map User.id (users s)) ->
  let row := User.mk (ProfileModal.id u) (ProfileModal.or_empty (ProfileModal.email u))
               None None (now (world s) + 1 + 1) (now (world s) + 1 + 1) in
  ProfileModal.loadProfile (Some (ProfileModal.id u)) u st s
  = (ProfileModal.setLoading false (ProfileModal.setProfile (Some row) st),
     mkSite (snd (transport (snd (transport (world s))))) (users s ++ [row])).
Proof.
  intros Hf Hf2 Hu Hno row. unfold ProfileModal.loadProfile.
  rewrite (select_single_absent _ _ s Hf Hno). cbn [failed].
  unfold UsersTable.insert, transport. cbn.
  rewrite hd_tl_nth, Hf2. unfold UsersTable.own_profile. cbn.
  rewrite String.eqb_refl. cbn.
  rewrite (mem_false _ _ Hno). apply mem_In in Hu. rewrite Hu. cbn.
  subst row. reflexivity.
Qed.

(** X21.  Opening the profile dialog, for a user with a session (the requests
    arriving).  The dialog ends with [loading] off and shows the row of the
    user in [users]: the row that was there, with its name in the field, or,
    when there was none, a row it has just inserted, with the e-mail of the
    session, no name and no picture.  The table still has one row per user,
    and opening the dialog again inserts nothing and shows the same row. *)
Theorem profile_is_created_once (u : ProfileModal.SessionUser) (st : ProfileModal.State)
    (s : Site) :
  faults (world s) = [] ->
  In (ProfileModal.id u) (auth_users (world s)) ->
  NoDup (map User.id (users s)) ->
  let '(st', s') := ProfileModal.loadProfile (Some (ProfileModal.id u)) u st s in
  exists row,
    ProfileModal.profile st' = Some row
    /\ ProfileModal.loading st' = false
    /\ ProfileModal.error st' = ProfileModal.error st
    /\ User.id row = ProfileModal.id u
    /\ In row (users s')
    /\ NoDup (map User.id (users s'))
    /\ (In (ProfileModal.id u) (map User.id (users s)) ->
        users s' = users s
        /\ ProfileModal.fullName st' = ProfileModal.or_empty (User.full_name row))
    /\ (~ In (ProfileModal.id u) (map User.id (users s)) ->
        users s' = users s ++ [row]
        /\ User.email row = ProfileModal.or_empty (ProfileModal.email u)
        /\ User.full_name row = None /\ User.avatar_url row = None
        /\ ProfileModal.fullName st' = ProfileModal.fullName st)
    /\ (forall st0,
          let '(st'', s'') :=
            ProfileModal.loadProfile (Some (ProfileModal.id u)) u st0 s' in
          users s'' = users s' /\ ProfileModal.profile st'' = Some row).
Proof.
  intros Hf Hu Hnd.
  assert (Hf0 : hd false (faults (world s)) = false) by now rewrite Hf.
  assert (Hf1 : nth 1 (faults (world s)) false = false) by now rewrite Hf.
  destruct (in_dec string_dec (ProfileModal.id u) (map User.id (users s))) as [Hin|Hno].
  - apply in_map_iff in Hin as [row [Hid Hin]].
    rewrite (loadProfile_present u st row s Hf0 Hnd Hin Hid).
    exists row. cbn. split; [reflexivity|]. split; [reflexivity|]. split; [reflexivity|].
    split; [exact Hid|]. split; [exact Hin|]. split; [exact Hnd|].
    split; [auto|]. split.
    + intros Hno. exfalso. apply Hno. rewrite <- Hid. now apply in_map.
    + intros st0.
      rewrite (loadProfile_present u st0 row); cbn; try assumption; [now split|].
      now rewrite Hf.
  - rewrite (loadProfile_absent u st s Hf0 Hf1 Hu Hno).
    eexists. cbn. split; [reflexivity|]. split; [reflexivity|]. split; [reflexivity|].
    split; [reflexivity|]. split; [apply in_or_app; right; now left|].
    assert (Hnd' : NoDup (map User.id
                            (users s ++ [User.mk (ProfileModal.id u)
                                           (ProfileModal.or_empty (ProfileModal.email u))
                                           None None (now (world s) + 1 + 1)
                                           (now (world s) + 1 + 1)]))).
    { rewrite map_app. cbn. apply NoDup_app; [exact Hnd | repeat constructor; intros [] |].
      intros x Hx [<-|[]]. contradiction. }
    split; [exact Hnd'|]. split; [contradiction|]. split; [auto|].
    intros st0.
    rewrite (loadProfile_present u st0
               (User.mk (ProfileModal.id u) (ProfileModal.or_empty (ProfileModal.email u))
                  None None (now (world s) + 1 + 1) (now (world s) + 1 + 1))); cbn.
    + now split.
    + now rewrite Hf.
    + exact Hnd'.
    + apply in_or_app. right. now left.
    + reflexivity.
Qed.

(** Alice opens her profile for the first time: a row is inserted for her. *)
Lemma profile_is_created_once_witness :
  let '(st', s') :=
    ProfileModal.loadProfile (Some alice) alice_session ProfileModal.initial
      site_without_profiles in
  exists row,
    ProfileModal.profile st' = Some row
    /\ users s' = [row]
    /\ User.email row = "alice@example.org"
    /\ User.full_name row = None.
Proof.
  assert (Hu : In (ProfileModal.id alice_session) (auth_users (world site_without_profiles)))
    by (left; reflexivity).
  assert (Hnd : NoDup (map User.id (users site_without_profiles))) by constructor.
  pose proof (profile_is_created_once alice_session ProfileModal.initial
                site_without_profiles eq_refl Hu Hnd) as H.
  change (ProfileModal.id alice_session) with alice in H.
  destruct (ProfileModal.loadProfile (Some alice) alice_session ProfileModal.initial
              site_without_profiles) as [st' s'].
  destruct H as [row (H1 & _ & _ & _ & _ & _ & _ & H8 & _)].
  exists row. destruct (H8 (fun x => x)) as (Hx & He & Hn & _).
  split; [exact H1|]. split; [exact Hx|]. split; [exact He | exact Hn].
Defined.


(** * What the policies and the constraints guarantee *)

(** ** Without a session nothing is written *)

Lemma handle_anonymous {R} (r : Request R) (t : Table) (w : World) :
  unchanged t w (snd (handle None r w)).
Proof.
  destruct r; destruct t; cbn [handle]; open_backend; unfold unchanged; crack; reflexivity.
Qed.

Lemma run_anonymous {A} (p : Prog A) (t : Table) (w : World) :
  unchanged t w (snd (run None p w)).
Proof.
  revert w. induction p as [a|m|R r k IH]; intros w; cbn; try apply unchanged_refl.
  pose proof (handle_anonymous r t w) as H.
  destruct (handle None r w) as [x w1]. cbn in H.
  eapply unchanged_trans; [exact H | apply IH].
Qed.

(** ** Authorship *)

Lemma owns_extends (u d : uuid) (w w' : World) :
  extends (documents w) (documents w') -> owns u d w -> owns u d w'.
Proof.
  intros [t Ht] [doc (Hin & Hid & Hc)]. exists doc. split; [|auto].
  rewrite Ht. apply in_or_app. now left.
Qed.

Lemma written_by_refl (u : uuid) (w : World) : written_by u w w.
Proof. unfold written_by. repeat split; intros; now left. Qed.

Lemma written_by_trans (u : uuid) (w1 w2 w3 : World) :
  append_only w2 w3 ->
  written_by u w1 w2 -> written_by u w2 w3 -> written_by u w1 w3.
Proof.
  intros (Hd & _) (A1 & A2 & A3 & A4 & A5 & A6 & A7) (B1 & B2 & B3 & B4 & B5 & B6 & B7).
  unfold written_by. repeat split.
  - intros x Hx. destruct (B1 x Hx) as [H|H]; [apply A1 in H; tauto | tauto].
  - intros x Hx. destruct (B2 x Hx) as [H|H]; [|tauto].
    destruct (A2 x H) as [H'|[H1 H2]]; [tauto|]. right. split; [exact H1|].
    now apply (owns_extends u _ w2 w3).
  - intros x Hx. destruct (B3 x Hx) as [H|H]; [|tauto].
    destruct (A3 x H) as [H'|[H1 H2]]; [tauto|]. right. split; [exact H1|].
    now apply (owns_extends u _ w2 w3).
  - intros x Hx. destruct (B4 x Hx) as [H|H]; [|tauto].
    destruct (A4 x H) as [H'|[[H1 H2]|H']]; [tauto| |tauto]. right. left.
    split; [exact H1|]. now apply (owns_extends u _ w2 w3).
  - intros x Hx. destruct (B5 x Hx) as [H|H]; [apply A5 in H; tauto | tauto].
  - intros x Hx. destruct (B6 x Hx) as [H|H]; [apply A6 in H; tauto | tauto].
  - intros x Hx. destruct (B7 x Hx) as [H|H]; [apply A7 in H; tauto | tauto].
Qed.

Lemma in_map_if {A} (P : A -> bool) (f : A -> A) (l : list A) (x : A) :
  In x (map (fun y => if P y then f y else y) l) ->
  In x l \/ exists y, In y l /\ P y = true /\ x = f y.
Proof.
  intros H. apply in_map_iff in H as [y [Hy Hin]].
  destruct (P y) eqn:E; [right; exists y; auto | left; now subst].
Qed.

Ltac owner_from_policy :=
  match goal with
  | H : mem _ (Policy.own_document_ids _ _) = true |- _ =>
      apply own_document_ids_spec in H; exact H
  end.

Lemma handle_written_by (u : uuid) {R} (r : Request R) (w : World) :
  written_by u w (snd (handle (Some u) r w)).
Proof.
  destruct r; cbn [handle]; open_backend; crack; try apply written_by_refl;
    unfold written_by; cbn; repeat split; intros x Hx; auto.
  all: try (apply in_app_or in Hx as [Hx|[<-|[]]]; [now left|]; right; bools; cbn).
  all: try (apply in_map_if in Hx as [Hx|[y (Hy & Hp & ->)]]; [now left|]; right).
  all: unfold Policy.documents_insert, Policy.document_versions_insert,
         Policy.comments_insert, Policy.approvals_insert, Policy.activity_logs_insert,
         Policy.document_shares_all, Backend.update_target, Policy.approvals_update,
         Backend.updated_approval in *;
       cbn in *; bools; subst; auto.
  all: try (split; [reflexivity | owner_from_policy]).
  all: try (left; split; [reflexivity | owner_from_policy]).
Qed.

Lemma run_written_by {A} (u : uuid) (p : Prog A) (w : World) :
  written_by u w (snd (run (Some u) p w)).
Proof.
  revert w. induction p as [a|m|R r k IH]; intros w; cbn; try apply written_by_refl.
  pose proof (handle_written_by u r w) as H.
  destruct (handle (Some u) r w) as [x w1] eqn:E. cbn in H.
  eapply written_by_trans; [apply run_append_only | exact H | apply IH].
Qed.

(** X23.  With the requests [documents.ts] makes, sent in any order and
    with any arguments, nobody writes in another's name or on another's
    document.  Without a session a program changes no table.
    With the session of [u], every row it adds names [u] as its author (the
    creator of a document, the uploader of a version, the author of a
    comment, the requester of an approval, the user of an activity entry,
    the giver of a share, the owner of an object); the versions, comments
    and approval requests it adds are on documents [u] created; and the
    approvals it rewrites are assigned to [u]. *)
Theorem authorship_cannot_be_forged :
  (forall A (p : Prog A) w t, unchanged t w (snd (run None p w)))
  /\ (forall A (p : Prog A) u w, written_by u w (snd (run (Some u) p w))).
Proof.
  split; intros.
  - apply run_anonymous.
  - apply run_written_by.
Qed.

(** ** Properties that every request keeps *)

Section Invariants.

Variable I : World -> Prop.
Hypothesis handle_keeps :
  forall jwt R (r : Request R) w, I w -> I (snd (handle jwt r w)).

Lemma run_keeps {A} (jwt : option uuid) (p : Prog A) (w : World) :
  I w -> I (snd (run jwt p w)).
Proof.
  revert w. induction p as [a|m|R r k IH]; intros w H; cbn; try assumption.
  pose proof (handle_keeps jwt R r w H) as H1.
  destruct (handle jwt r w) as [x w1]. now apply IH.
Qed.

Lemma step_keeps {A} (jwt : option uuid) (p : Prog A) (w : World) :
  I w -> I (snd (step jwt p w)).
Proof.
  intros H. destruct p as [a|m|R r k]; cbn; try assumption.
  pose proof (handle_keeps jwt R r w H) as H1.
  now destruct (handle jwt r w) as [x w1].
Qed.

Lemma interleave_keeps {A B} (schedule : list bool) (jwt1 jwt2 : option uuid)
    (p1 : Prog A) (p2 : Prog B) (w : World) :
  I w -> I (snd (interleave schedule jwt1 jwt2 p1 p2 w)).
Proof.
  revert p1 p2 w. induction schedule as [|b rest IH]; intros p1 p2 w H; cbn.
  - pose proof (run_keeps jwt1 p1 w H) as H1.
    destruct (run jwt1 p1 w) as [o1 w1].
    pose proof (run_keeps jwt2 p2 w1 H1) as H2.
    now destruct (run jwt2 p2 w1) as [o2 w2].
  - destruct b.
    + pose proof (step_keeps jwt1 p1 w H) as H1.
      destruct (step jwt1 p1 w) as [p1' w']. now apply IH.
    + pose proof (step_keeps jwt2 p2 w H) as H1.
      destruct (step jwt2 p2 w) as [p2' w']. now apply IH.
Qed.

End Invariants.

(** ** Keys stay unique *)

Lemma NoDup_snoc {A B} (f : A -> B) (l : list A) (x : A) :
  NoDup (map f l) -> ~ In (f x) (map f l) -> NoDup (map f (l ++ [x])).
Proof.
  intros Hnd Hx. rewrite map_app. cbn.
  apply NoDup_app; [exact Hnd | repeat constructor; intros [] |].
  intros y Hy [<-|[]]. contradiction.
Qed.

Lemma mem_false_not_In (x : uuid) (l : list uuid) : mem x l = false -> ~ In x l.
Proof. intros H Hin. apply mem_In in Hin. congruence. Qed.

Lemma same_object_free (b n : string) (l : list StorageObject.Row) :
  existsb (Backend.same_object b n) l = false ->
  ~ In (b, n) (map (fun o => (StorageObject.bucket_id o, StorageObject.name o)) l).
Proof.
  intros H Hin. apply in_map_iff in Hin as [o [Ho Hin]].
  assert (E : existsb (Backend.same_object b n) l = true).
  { apply existsb_exists. exists o. split; [exact Hin|].
    apply same_object_spec. injection Ho as -> ->. now split. }
  congruence.
Qed.

Lemma handle_keys_unique (jwt : option uuid) {R} (r : Request R) (w : World) :
  keys_unique w -> keys_unique (snd (handle jwt r w)).
Proof.
  intros (K1 & K2 & K3 & K4 & K5 & K6 & K7).
  destruct r; cbn [handle]; open_backend; crack; unfold keys_unique; cbn;
    rewrite ?map_id_updated, ?map_id_replaced by reflexivity;
    repeat split; try assumption; bools;
    try (apply NoDup_snoc; [assumption | now apply mem_false_not_In]).
  all: try (apply (NoDup_snoc (fun o => (StorageObject.bucket_id o, StorageObject.name o)));
              [assumption | now apply same_object_free]).
  all: apply NoDup_snoc; [assumption | now apply find_id_none].
Qed.

(** X24.  The primary keys of the six tables and the names of the objects in the
    bucket stay unique, whatever the clients call and however two calls
    interleave: an insert whose generated id, or an upload whose path, is
    taken writes nothing. *)
Theorem keys_stay_unique (w : World) :
  keys_unique w ->
  (forall A (p : Prog A) jwt, keys_unique (snd (run jwt p w)))
  /\ (forall A B (p1 : Prog A) (p2 : Prog B) schedule jwt1 jwt2,
        keys_unique (snd (interleave schedule jwt1 jwt2 p1 p2 w))).
Proof.
  intros H. split; intros.
  - apply (run_keeps keys_unique); [|exact H].
    intros. now apply handle_keys_unique.
  - apply (interleave_keeps keys_unique); [|exact H].
    intros. now apply handle_keys_unique.
Qed.

(** After Alice has shared her document, keys are unique, and they stay so
    when she shares it again while Bob asks for an approval. *)
Lemma keys_stay_unique_witness :
  keys_unique world_shared
  /\ keys_unique
       (snd (interleave [true; false; true] (Some alice) (Some bob)
               (shareDocument "id1" bob edit) (requestApproval "id1" alice None None)
               world_shared)).
Proof.
  assert (H : keys_unique world_shared).
  { vm_compute. repeat split; repeat constructor; cbn; intuition discriminate. }
  split; [exact H|].
  destruct (keys_stay_unique world_shared H) as [_ H2]. apply H2.
Defined.

(** ** Private documents stay private *)

Lemma only_private_added_same (w w' : World) :
  documents w' = documents w -> only_private_added w w'.
Proof.
  intros E. exists []. rewrite app_nil_r. split; [exact E | intros doc []].
Qed.

Lemma handle_documents_step (jwt : option uuid) {R} (r : Request R) (w : World) :
  NoDup (map Document.id (documents w)) ->
  NoDup (map Document.id (documents (snd (handle jwt r w))))
  /\ only_private_added w (snd (handle jwt r w)).
Proof.
  intros Hnd.
  destruct r;
    try (match goal with
         | |- context [handle jwt ?r w] =>
             pose proof (handle_frame jwt r T_documents w ltac:(discriminate)) as F
         end;
         unfold unchanged in F; revert F;
         match goal with
         | |- documents ?x = _ -> _ =>
             generalize x; intros w' F; split;
             [now rewrite F | now apply only_private_added_same]
         end).
  cbn [handle]. open_backend. crack;
    try (split; [assumption | apply only_private_added_same; reflexivity]).
  split.
  - apply NoDup_snoc; [assumption | now apply mem_false_not_In].
  - eexists. split; [reflexivity|]. intros doc [<-|[]]. reflexivity.
Qed.

Lemma only_private_added_trans (w1 w2 w3 : World) :
  only_private_added w1 w2 -> only_private_added w2 w3 -> only_private_added w1 w3.
Proof.
  intros [a1 [E1 H1]] [a2 [E2 H2]]. exists (a1 ++ a2). split.
  - now rewrite E2, E1, app_assoc.
  - intros doc Hin. apply in_app_or in Hin as [Hin|Hin]; auto.
Qed.

Lemma only_private_added_refl (w : World) : only_private_added w w.
Proof. exists []. rewrite app_nil_r. split; [reflexivity | intros doc []]. Qed.

Lemma run_documents_step {A} (jwt : option uuid) (p : Prog A) (w : World) :
  NoDup (map Document.id (documents w)) ->
  NoDup (map Document.id (documents (snd (run jwt p w))))
  /\ only_private_added w (snd (run jwt p w)).
Proof.
  revert w. induction p as [a|m|R r k IH]; intros w H; cbn;
    try (split; [assumption | apply only_private_added_refl]).
  destruct (handle_documents_step jwt r w H) as [H1 H2].
  destruct (handle jwt r w) as [x w1]. cbn in H1, H2.
  destruct (IH x w1 H1) as [H3 H4]. split; [exact H3|].
  eapply only_private_added_trans; eassumption.
Qed.

Lemma step_documents_step {A} (jwt : option uuid) (p : Prog A) (w : World) :
  NoDup (map Document.id (documents w)) ->
  NoDup (map Document.id (documents (snd (step jwt p w))))
  /\ only_private_added w (snd (step jwt p w)).
Proof.
  intros H. destruct p as [a|m|R r k]; cbn;
    try (split; [assumption | apply only_private_added_refl]).
  destruct (handle_documents_step jwt r w H) as [H1 H2].
  now destruct (handle jwt r w) as [x w1].
Qed.

Lemma interleave_documents_step {A B} (schedule : list bool) (jwt1 jwt2 : option uuid)
    (p1 : Prog A) (p2 : Prog B) (w : World) :
  NoDup (map Document.id (documents w)) ->
  NoDup (map Document.id (documents (snd (interleave schedule jwt1 jwt2 p1 p2 w))))
  /\ only_private_added w (snd (interleave schedule jwt1 jwt2 p1 p2 w)).
Proof.
  revert p1 p2 w. induction schedule as [|b rest IH]; intros p1 p2 w H; cbn.
  - destruct (run_documents_step jwt1 p1 w H) as [H1 H2].
    destruct (run jwt1 p1 w) as [o1 w1]. cbn in H1, H2.
    destruct (run_documents_step jwt2 p2 w1 H1) as [H3 H4].
    destruct (run jwt2 p2 w1) as [o2 w2]. cbn in *. split; [exact H3|].
    eapply only_private_added_trans; eassumption.
  - destruct b.
    + destruct (step_documents_step jwt1 p1 w H) as [H1 H2].
      destruct (step jwt1 p1 w) as [p1' w']. cbn in H1, H2.
      destruct (IH p1' p2 w' H1) as [H3 H4]. split; [exact H3|].
      eapply only_private_added_trans; eassumption.
    + destruct (step_documents_step jwt2 p2 w H) as [H1 H2].
      destruct (step jwt2 p2 w) as [p2' w']. cbn in H1, H2.
      destruct (IH p1 p2' w' H1) as [H3 H4]. split; [exact H3|].
      eapply only_private_added_trans; eassumption.
Qed.

Lemma filter_nil {A} (P : A -> bool) (l : list A) :
  (forall x, In x l -> P x = false) -> filter P l = [].
Proof.
  induction l as [|a l IH]; cbn; intros H; [reflexivity|].
  rewrite (H a (or_introl eq_refl)). apply IH. intros x Hx. apply H. now right.
Qed.

(** What an identity reads of a document it may not read: nothing. *)
Lemma unreadable_reads (v d : uuid) (w : World) :
  ~ readable v d w ->
  hd false (faults w) = false ->
  fst (run (Some v) (getDocument d) w) = Returned (failed NoRows)
  /\ fst (run (Some v) (getDocumentVersions d) w) = Returned (ok [])
  /\ fst (run (Some v) (getComments d None) w) = Returned (ok [])
  /\ fst (run (Some v) (getActivityLog d) w) = Returned (ok [])
  /\ (forall path rest,
        Policy.foldername path = d :: rest ->
        fst (run (Some v) (downloadDocumentVersion path) w)
        = Returned (failed ObjectNotFound)).
Proof.
  intros Hr Hf.
  assert (Hsel : mem d (Policy.own_document_ids v w)
                 || mem d (Policy.public_document_ids v w) = false).
  { destruct (mem d (Policy.own_document_ids v w)
              || mem d (Policy.public_document_ids v w)) eqn:E; [|reflexivity].
    apply readable_spec in E. contradiction. }
  apply orb_false_iff in Hsel as [Hown Hpub].
  split; [|split; [|split; [|split]]].
  - rewrite select_document_eq, Hf. unfold Policy.visible_documents.
    rewrite filter_filter, filter_nil; [reflexivity|].
    intros doc Hin. destruct (Policy.documents_select v doc) eqn:Es; [|reflexivity].
    cbn. destruct (Document.id doc =? d)%string eqn:Ed; [|reflexivity].
    exfalso. apply Hr. apply String.eqb_eq in Ed.
    apply documents_select_spec in Es as [Hc|Hc]; [left | right]; exists doc; auto.
  - rewrite select_versions_eq, Hf. unfold Backend.versions_of.
    rewrite filter_filter, filter_nil; [reflexivity|].
    intros x _. unfold Policy.document_versions_select.
    destruct (DocumentVersion.document_id x =? d)%string eqn:Ed; [|apply andb_false_r].
    apply String.eqb_eq in Ed. now rewrite Ed, Hown, Hpub.
  - rewrite select_comments_eq, Hf.
    rewrite filter_filter, filter_nil; [reflexivity|].
    intros x _. unfold Policy.comments_select.
    destruct (Comment.document_id x =? d)%string eqn:Ed; [|apply andb_false_r].
    apply String.eqb_eq in Ed. now rewrite Ed, Hown, Hpub.
  - rewrite select_activity_eq, Hf.
    rewrite filter_filter, filter_nil; [reflexivity|].
    intros x _. unfold Policy.activity_logs_select.
    destruct (ActivityLog.document_id x =? d)%string eqn:Ed; [|apply andb_false_r].
    apply String.eqb_eq in Ed. now rewrite Ed, Hown.
  - intros path rest Hp. destruct (download_spec v path w Hf) as [_ Hno].
    apply Hno. intros [_ [d' [rest' [Hd' Hr']]]]. rewrite Hp in Hd'.
    injection Hd' as <- _. contradiction.
Qed.

(** X25.  A private document stays private.  Whatever two clients call
    afterwards of what [documents.ts] asks of the backend, under whatever
    identities and however their requests interleave (shares and approval
    requests included), an identity other than the creator of the document
    still reads nothing of it: not the document, not its versions, comments
    or activity, and no object stored under its folder. *)
Theorem private_documents_stay_private (doc : Document.Row) (v : uuid) (w : World) :
  NoDup (map Document.id (documents w)) ->
  In doc (documents w) ->
  Document.is_public doc = false ->
  v <> Document.created_by doc ->
  forall A B (p1 : Prog A) (p2 : Prog B) schedule jwt1 jwt2,
    let w' := snd (interleave schedule jwt1 jwt2 p1 p2 w) in
    ~ readable v (Document.id doc) w'
    /\ (hd false (faults w') = false ->
        fst (run (Some v) (getDocument (Document.id doc)) w') = Returned (failed NoRows)
        /\ fst (run (Some v) (getDocumentVersions (Document.id doc)) w') = Returned (ok [])
        /\ fst (run (Some v) (getComments (Document.id doc) None) w') = Returned (ok [])
        /\ fst (run (Some v) (getActivityLog (Document.id doc)) w') = Returned (ok [])
        /\ (forall path rest,
              Policy.foldername path = Document.id doc :: rest ->
              fst (run (Some v) (downloadDocumentVersion path) w')
              = Returned (failed ObjectNotFound))).
Proof.
  intros Hnd Hin Hpriv Hv A B p1 p2 schedule jwt1 jwt2 w'.
  destruct (interleave_documents_step schedule jwt1 jwt2 p1 p2 w Hnd)
    as [Hnd' [added [Hd _]]].
  fold w' in Hnd', Hd.
  assert (Hin' : In doc (documents w')) by (rewrite Hd; apply in_or_app; now left).
  assert (Hr : ~ readable v (Document.id doc) w').
  { intros [[doc' (Hi & Hid & Hc)]|[doc' (Hi & Hid & Hp)]];
      pose proof (NoDup_key_inj Document.id _ _ _ Hnd' Hi Hin' Hid) as E; subst doc';
      congruence. }
  split; [exact Hr|]. intros Hf. now apply unreadable_reads.
Qed.

(** Bob gives himself an edit share on Alice's private document while she
    asks him for an approval: he still reads nothing of the document. *)
Lemma private_documents_stay_private_witness :
  let w' := snd (interleave [true; false] (Some bob) (Some alice)
                   (shareDocument "id1" bob edit) (requestApproval "id1" bob None None)
                   world_with_version) in
  fst (run (Some bob) (getDocument "id1") w') = Returned (failed NoRows)
  /\ fst (run (Some bob) (downloadDocumentVersion "id1/t1.pdf") w')
     = Returned (failed ObjectNotFound).
Proof.
  intros w'.
  assert (Hnd : NoDup (map Document.id (documents world_with_version)))
    by (vm_compute; repeat constructor; intros []).
  assert (Hin : In alices_document (documents world_with_version))
    by (left; reflexivity).
  assert (Hv : bob <> Document.created_by alices_document) by discriminate.
  destruct (private_documents_stay_private alices_document bob world_with_version
              Hnd Hin eq_refl Hv _ _ (shareDocument "id1" bob edit)
              (requestApproval "id1" bob None None) [true; false] (Some bob) (Some alice))
    as [_ H].
  assert (Hf : hd false (faults w') = false) by (vm_compute; reflexivity).
  destruct (H Hf) as (H1 & _ & _ & _ & H5).
  split; [exact H1|]. apply (H5 "id1/t1.pdf" []). reflexivity.
Defined.

(** ** References stay intact *)

Lemma refers_spec (x : option uuid) (l : list uuid) : opt_mem x l = true -> refers x l.
Proof. intros H. exact (proj1 (opt_mem_spec x l) H). Qed.

Lemma refers_grow (x : option uuid) (l t : list uuid) : refers x l -> refers x (l ++ t).
Proof. intros H y Hy. apply in_or_app. left. now apply H. Qed.

Ltac grow :=
  repeat match goal with
    | |- _ /\ _ => split
    | H : mem _ _ = true |- _ => apply mem_In in H
    | H : opt_mem _ _ = true |- _ => apply refers_spec in H
    | |- In _ (map _ (_ ++ _)) => rewrite map_app; apply in_or_app; left
    | |- refers _ (map _ (_ ++ _)) => rewrite map_app; apply refers_grow
    end.

Lemma handle_references (jwt : option uuid) {R} (r : Request R) (w : World) :
  references_intact w -> references_intact (snd (handle jwt r w)).
Proof.
  intros (K1 & K2 & K3 & K4 & K5 & K6).
  destruct r; cbn [handle]; open_backend; crack;
    unfold references_intact; cbn;
    (split; [|split; [|split; [|split; [|split]]]]); intros x Hx.
  all: try (apply in_app_or in Hx as [Hx|[<-|[]]]; cbn; bools).
  all: try (apply in_map_if in Hx as [Hx|[y (Hy & Hp & ->)]]; cbn).
  all: try solve [ first [ apply K1 in Hx | apply K2 in Hx | apply K3 in Hx
                         | apply K4 in Hx | apply K5 in Hx | apply K6 in Hx ];
                   repeat match goal with H : _ /\ _ |- _ => destruct H end;
                   grow; assumption ].
  all: try solve [ unfold Backend.share_fk in *; cbn in *; bools; grow; assumption ].
  all: try solve [ apply K4 in Hy; unfold Backend.updated_approval; cbn; exact Hy ].
Qed.

(** X26.  No call leaves a dangling reference.  If every reference of the six
    tables is to a row, or to a user, that is there, then it is so after
    any call and any two interleaved calls: an insert that refers to
    something that is not there writes nothing, and nothing that is
    referred to is ever removed. *)
Theorem references_stay_intact (w : World) :
  references_intact w ->
  (forall A (p : Prog A) jwt, references_intact (snd (run jwt p w)))
  /\ (forall A B (p1 : Prog A) (p2 : Prog B) schedule jwt1 jwt2,
        references_intact (snd (interleave schedule jwt1 jwt2 p1 p2 w))).
Proof.
  intros H. split; intros.
  - apply (run_keeps references_intact); [|exact H].
    intros. now apply handle_references.
  - apply (interleave_keeps references_intact); [|exact H].
    intros. now apply handle_references.
Qed.

(** In the world where Alice has shared her document every reference is
    intact, and stays so when Bob comments with a version id of his own
    invention. *)
Lemma references_stay_intact_witness :
  references_intact world_shared
  /\ references_intact
       (snd (run (Some bob) (addComment "id1" "hello" (Some "no-such-version") None)
               world_shared)).
Proof.
  assert (H : references_intact world_shared).
  { unfold references_intact, refers. vm_compute.
    repeat split; intros;
      repeat match goal with
        | H : _ \/ _ |- _ => destruct H
        | H : False |- _ => destruct H
        end; subst; cbn; try discriminate; auto. }
  split; [exact H|].
  destruct (references_stay_intact world_shared H) as [H1 _]. apply H1.
Defined.
